(** * py7zr: the archive reader of [py7zr/py7zr.py]

    A shallow embedding of the reader side of [SevenZipFile]: the file
    records ([ArchiveFile]), the file-list reconstructor
    ([_filelist_retrieve]), opening an archive ([__init__],
    [_real_get_contents], [_read_header_data], [reset]), and the public
    operations [getnames], [list], [test] and [extractall].

    Conventions.
    - Python [int] sizes, attributes and timestamps are [Z]; counters that
      only ever count up from zero (list indices, stream counts read from
      the header as unsigned numbers) are [nat].
    - A Python dictionary used as a property bag ([file_info]) is a record
      of optional fields: [None] is "key absent".
    - Exceptions are values of [exn]; code that may raise returns
      [result].  An out-of-range list index raises [IndexError]; reading an
      attribute that was never assigned raises [AttributeError].
    - Objects that are mutated in place and shared ([Folder] instances
      reachable from the header and from each file record) live in a store
      (the list of folders) and are referred to by index. *)

From Stdlib Require Import ZArith List String Ascii Bool Arith Lia Sorted.
From Stdlib Require Import Strings.Byte.
Import ListNotations.

Set Implicit Arguments.

(* ------------------------------------------------------------------ *)
(** ** Exceptions and the error monad *)

Inductive exn : Type :=
| Bad7zFile (msg : string)
| AttributeError
| IndexError
| TypeError
| ValueError (msg : string)
| OSError (errno : Z)
| NotImplementedError
| PlainException (msg : string).

Inductive result (A : Type) : Type :=
| Ok (a : A)
| Raise (e : exn).

Arguments Ok {A} a.
Arguments Raise {A} e.

(** [errno.EEXIST] and [errno.EINVAL]; [FileExistsError] is the [OSError]
    whose [errno] is [EEXIST]. *)
Definition EEXIST : Z := 17.
Definition EINVAL : Z := 22.
Definition FileExistsError : exn := OSError EEXIST.

Definition bind {A B : Type} (m : result A) (k : A -> result B) : result B :=
  match m with
  | Ok a => k a
  | Raise e => Raise e
  end.

Notation "x <- m ;; k" := (bind m (fun x => k))
  (at level 61, m at next level, right associativity).
Notation "' pat <- m ;; k" := (bind m (fun x => match x with pat => k end))
  (at level 61, pat pattern, m at next level, right associativity).

(** [l[i]] for a non-negative index [i]. *)
Definition index {A : Type} (l : list A) (i : nat) : result A :=
  match nth_error l i with
  | Some a => Ok a
  | None => Raise IndexError
  end.

(** [l[i] = v] on a list held in a store; the callers only write at an
    index they have just read. *)
Fixpoint set_nth {A : Type} (l : list A) (i : nat) (v : A) : list A :=
  match l, i with
  | [], _ => []
  | _ :: t, O => v :: t
  | h :: t, S j => h :: set_nth t j v
  end.

(** [l[i:i+n]]: a slice never raises. *)
Definition slice {A : Type} (l : list A) (i n : nat) : list A :=
  firstn n (skipn i l).

Definition sumZ (l : list Z) : Z := fold_right Z.add 0%Z l.

(* ------------------------------------------------------------------ *)
(** ** Values stored in a file record *)

(** The heterogeneous values that the reconstructor stores under
    ['compressed'] and ['maxsize']: [None], an integer, or a list of
    integers. *)
Inductive pyval : Type :=
| PNone
| PInt (z : Z)
| PList (l : list Z).

(** One entry of the local [unpacksizes]: an integer when it comes from
    [subinfo.unpacksizes], a list when it is a folder's own [unpacksizes]. *)
Inductive usize : Type :=
| USingle (s : Z)
| UList (l : list Z).

(** The [file_info] dictionary.  ['folder'] holds a reference to a folder
    object or [None]; the reference is the folder's index in the store. *)
Module FI.
Record t : Type := mk {
  filename : option string;
  emptystream : bool;
  attributes : option Z;
  lastwritetime : option Z;
  maxsize : option pyval;
  compressed : option pyval;
  uncompressed : option (list Z);
  packsizes : option (list Z);
  folder : option (option nat);
  digest : option Z
}.

(** A record as the header decoder leaves it. *)
Definition parsed (name : option string) (empty : bool)
           (attrs : option Z) (mtime : option Z) : t :=
  mk name empty attrs mtime None None None None None None.

Definition set_filename (v : string) (f : t) : t :=
  mk (Some v) (emptystream f) (attributes f) (lastwritetime f) (maxsize f)
     (compressed f) (uncompressed f) (packsizes f) (folder f) (digest f).
Definition set_maxsize (v : pyval) (f : t) : t :=
  mk (filename f) (emptystream f) (attributes f) (lastwritetime f) (Some v)
     (compressed f) (uncompressed f) (packsizes f) (folder f) (digest f).
Definition set_compressed (v : pyval) (f : t) : t :=
  mk (filename f) (emptystream f) (attributes f) (lastwritetime f) (maxsize f)
     (Some v) (uncompressed f) (packsizes f) (folder f) (digest f).
Definition set_uncompressed (v : list Z) (f : t) : t :=
  mk (filename f) (emptystream f) (attributes f) (lastwritetime f) (maxsize f)
     (compressed f) (Some v) (packsizes f) (folder f) (digest f).
Definition set_packsizes (v : list Z) (f : t) : t :=
  mk (filename f) (emptystream f) (attributes f) (lastwritetime f) (maxsize f)
     (compressed f) (uncompressed f) (Some v) (folder f) (digest f).
Definition set_folder (v : option nat) (f : t) : t :=
  mk (filename f) (emptystream f) (attributes f) (lastwritetime f) (maxsize f)
     (compressed f) (uncompressed f) (packsizes f) (Some v) (digest f).
Definition set_digest (v : Z) (f : t) : t :=
  mk (filename f) (emptystream f) (attributes f) (lastwritetime f) (maxsize f)
     (compressed f) (uncompressed f) (packsizes f) (folder f) (Some v).
End FI.

(* ------------------------------------------------------------------ *)
(** ** Header records (declared in [py7zr.archiveinfo])

    Only the attributes that [py7zr.py] reads or writes are kept. *)

Module Coder.
(** A coder is a dictionary; ['numinstreams'] is optional and read with
    [coder.get('numinstreams', 1)]. *)
Record t : Type := mk {
  method : list byte;
  numinstreams : option nat
}.
End Coder.

Module Folder.
(** [files] is the folder's own [ArchiveFileList]: its [offset] and the
    positions (in [self.files]) of the records appended to it. *)
Record t : Type := mk {
  coders : list Coder.t;
  unpacksizes : list Z;
  solid : bool;
  files : option (nat * list nat)
}.

Definition set_solid (b : bool) (f : t) : t :=
  mk (coders f) (unpacksizes f) b (files f).
Definition set_files (v : nat * list nat) (f : t) : t :=
  mk (coders f) (unpacksizes f) (solid f) (Some v).
End Folder.

Module PackInfo.
Record t : Type := mk {
  packpos : Z;
  numstreams : nat;
  packsizes : list Z;
  crcs : option (list Z);
  packpositions : list Z
}.
End PackInfo.

Module UnpackInfo.
Record t : Type := mk {
  numfolders : nat;
  folders : list Folder.t
}.
End UnpackInfo.

Module SubstreamsInfo.
Record t : Type := mk {
  num_unpackstreams_folders : list nat;
  unpacksizes : option (list Z);
  digestsdefined : list bool;
  digests : list Z
}.
End SubstreamsInfo.

Module StreamsInfo.
Record t : Type := mk {
  packinfo : PackInfo.t;
  unpackinfo : UnpackInfo.t;
  substreamsinfo : SubstreamsInfo.t
}.
End StreamsInfo.

Module FilesInfo.
Record t : Type := mk {
  files : list FI.t
}.
End FilesInfo.

Module Header.
(** [main_streams] and [files_info] are attributes that the decoder
    assigns only when the metadata has the section; [py7zr.py] probes
    them with [hasattr] and [getattr(..., None)]. *)
Record t : Type := mk {
  main_streams : option StreamsInfo.t;
  files_info : option FilesInfo.t;
  size : Z
}.
End Header.

(* ------------------------------------------------------------------ *)
(** ** Library helpers used by [py7zr.py] *)

(** Modelled from the spec: the [FileAttribute] constants of
    [py7zr.properties], which [src/] does not contain.  The spec gives
    [DIRECTORY = 0x10]; the other three are the Windows attribute bits of
    the 7z format ([UNIX_EXTENSION] is bit 15, the POSIX mode then sits in
    the upper 16 bits). *)
Module FileAttribute.
Definition DIRECTORY : Z := 0x10.
Definition READONLY : Z := 0x01.
Definition ARCHIVE : Z := 0x20.
Definition UNIX_EXTENSION : Z := 0x8000.
End FileAttribute.

(** Python's [stat] module. *)
Module stat.
Definition S_IFDIR : Z := 0x4000.   (* 0o040000 *)
Definition S_IFLNK : Z := 0xA000.   (* 0o120000 *)
Definition S_IFSOCK : Z := 0xC000.  (* 0o140000 *)
Definition S_IFMT (mode : Z) : Z := Z.land mode 0xF000.  (* 0o170000 *)
Definition S_IMODE (mode : Z) : Z := Z.land mode 0xFFF.  (* 0o7777 *)
Definition S_ISDIR (mode : Z) : bool := Z.eqb (S_IFMT mode) S_IFDIR.
Definition S_ISLNK (mode : Z) : bool := Z.eqb (S_IFMT mode) S_IFLNK.
Definition S_ISSOCK (mode : Z) : bool := Z.eqb (S_IFMT mode) S_IFSOCK.
End stat.

(** [os.path] for POSIX paths ([posixpath.basename], [genericpath._splitext]
    with [sep = '/'], no [altsep], [extsep = '.']). *)
Module os_path.
(** [s.rfind(c)]: the last position of [c], or [-1]. *)
Fixpoint rfind_from (c : ascii) (s : string) (i : Z) (found : Z) : Z :=
  match s with
  | EmptyString => found
  | String a r => rfind_from c r (i + 1) (if Ascii.eqb a c then i else found)
  end.
Definition rfind (c : ascii) (s : string) : Z := rfind_from c s 0 (-1).

(** [p[i:]] and [p[:i]] for [0 <= i]. *)
Definition drop (i : nat) (s : string) : string :=
  substring i (String.length s - i) s.
Definition take (i : nat) (s : string) : string := substring 0 i s.

Definition basename (p : string) : string :=
  drop (Z.to_nat (rfind "/" p + 1)) p.

(** The [while filenameIndex < dotIndex] loop of [_splitext]: is there a
    character other than a dot in [p[filenameIndex:dotIndex]]?  [n] is
    [dotIndex - filenameIndex]. *)
Fixpoint has_non_dot (p : string) (filenameIndex n : nat) : bool :=
  match n with
  | O => false
  | S n' =>
      match String.get filenameIndex p with
      | Some c =>
          if Ascii.eqb c "." then has_non_dot p (S filenameIndex) n' else true
      | None => true
      end
  end.

Definition splitext (p : string) : string * string :=
  let sepIndex := rfind "/" p in
  let dotIndex := rfind "." p in
  if (sepIndex <? dotIndex)%Z then
    let filenameIndex := Z.to_nat (sepIndex + 1) in
    if has_non_dot p filenameIndex (Z.to_nat dotIndex - filenameIndex)
    then (take (Z.to_nat dotIndex) p, drop (Z.to_nat dotIndex) p)
    else (p, EmptyString)
  else (p, EmptyString).

(** [head.rstrip('/')] *)
Fixpoint rstrip_slash (s : string) : string :=
  match s with
  | EmptyString => EmptyString
  | String c r =>
      match rstrip_slash r with
      | EmptyString => if Ascii.eqb c "/" then EmptyString else String c EmptyString
      | r' => String c r'
      end
  end.

(** [posixpath.dirname]: the head is stripped of trailing slashes unless
    it consists of slashes only. *)
Definition dirname (p : string) : string :=
  let head := take (Z.to_nat (rfind "/" p + 1)) p in
  match rstrip_slash head with
  | EmptyString => head
  | stripped => stripped
  end.

(** [s.endswith('/')] *)
Fixpoint ends_with_slash (s : string) : bool :=
  match s with
  | EmptyString => false
  | String c EmptyString => Ascii.eqb c "/"
  | String _ r => ends_with_slash r
  end.

(** [posixpath.join(a, b)] with one component: an absolute [b] replaces
    [a]; otherwise [b] is appended, after a slash unless [a] is empty or
    ends with one. *)
Definition join (a b : string) : string :=
  if String.prefix "/" b then b
  else match a with
       | EmptyString => b
       | _ => if ends_with_slash a then (a ++ b)%string
              else (a ++ "/" ++ b)%string
       end.
End os_path.

(** [functools.reduce(operator.add, l)] without an initial value: an empty
    sequence is a [TypeError]. *)
Definition reduce_add (l : list Z) : result Z :=
  match l with
  | [] => Raise TypeError
  | x :: xs => Ok (fold_left Z.add xs x)
  end.

(* ------------------------------------------------------------------ *)
(** ** [class ArchiveFile] *)

Module ArchiveFile.
Record t : Type := mk {
  id : nat;
  _file_info : FI.t
}.

Definition folder (f : t) : option nat :=
  match FI.folder (_file_info f) with Some r => r | None => None end.

Definition filename (f : t) : option string := FI.filename (_file_info f).

Definition emptystream (f : t) : bool := FI.emptystream (_file_info f).

Definition uncompressed (f : t) : option (list Z) :=
  FI.uncompressed (_file_info f).

Definition uncompressed_size (f : t) : result Z :=
  match uncompressed f with
  | Some l => reduce_add l
  | None => Raise TypeError
  end.

Definition compressed (f : t) : pyval :=
  match FI.compressed (_file_info f) with Some v => v | None => PNone end.

Definition _test_attribute (f : t) (target_bit : Z) : bool :=
  match FI.attributes (_file_info f) with
  | None => false
  | Some attributes => Z.eqb (Z.land attributes target_bit) target_bit
  end.

Definition archivable (f : t) : bool :=
  _test_attribute f FileAttribute.ARCHIVE.

Definition is_directory (f : t) : bool :=
  _test_attribute f FileAttribute.DIRECTORY.

Definition readonly (f : t) : bool :=
  _test_attribute f FileAttribute.READONLY.

Definition _get_unix_extension (f : t) : option Z :=
  if _test_attribute f FileAttribute.UNIX_EXTENSION then
    match FI.attributes (_file_info f) with
    | Some attributes => Some (Z.shiftr attributes 16)
    | None => None
    end
  else None.

Definition is_symlink (f : t) : bool :=
  match _get_unix_extension f with
  | Some e => stat.S_ISLNK e
  | None => false
  end.

Definition is_socket (f : t) : bool :=
  match _get_unix_extension f with
  | Some e => stat.S_ISSOCK e
  | None => false
  end.

Definition lastwritetime (f : t) : option Z :=
  FI.lastwritetime (_file_info f).

Definition posix_mode (f : t) : option Z :=
  match _get_unix_extension f with
  | Some e => Some (stat.S_IMODE e)
  | None => None
  end.

Definition st_fmt (f : t) : option Z :=
  match _get_unix_extension f with
  | Some e => Some (stat.S_IFMT e)
  | None => None
  end.
(** The specification's wording of a directory entry (section 4.3),
    kept to compare [is_directory] with: an empty stream, and either the
    Windows DIRECTORY bit or the POSIX extension with [S_IFDIR]. *)
Definition directory_as_specified (f : t) : bool :=
  emptystream f
  && (_test_attribute f FileAttribute.DIRECTORY
      || match _get_unix_extension f with
         | Some e => stat.S_ISDIR e
         | None => false
         end).
End ArchiveFile.

(** [class ArchiveFileList]: iterating yields
    [ArchiveFile(index + offset, files_list[index])]. *)
Module ArchiveFileList.
Fixpoint iter_from (index offset : nat) (files_list : list FI.t)
  : list ArchiveFile.t :=
  match files_list with
  | [] => []
  | fi :: rest =>
      ArchiveFile.mk (index + offset) fi :: iter_from (S index) offset rest
  end.

Definition iter (offset : nat) (files_list : list FI.t) : list ArchiveFile.t :=
  iter_from 0 offset files_list.
End ArchiveFileList.

(* ------------------------------------------------------------------ *)
(** ** The file-list reconstructor: [SevenZipFile._filelist_retrieve] *)

Module Retrieve.

(** The references set up before the loop ("Initialize references for
    convenience").  [ms] is [None] when the header has no
    [main_streams]; then [folders], [subinfo] and [packinfo] are Python
    [None], [packsizes] is [[]] and [unpacksizes] is [[0]]. *)
Record env : Type := mk_env {
  basefilename : option string;          (* self.filename *)
  ms : option StreamsInfo.t;
  packsizes : list Z;
  unpacksizes : list usize
}.

(** The loop index variables, the folder store and [self.files]. *)
Record state : Type := mk_state {
  folder_index : nat;
  output_binary_index : nat;
  streamidx : nat;
  file_in_solid : nat;
  instreamindex : nat;
  folder_pos : Z;
  src_pos : Z;
  folders : list Folder.t;
  files : list FI.t
}.

Definition init_env (basefilename : option string) (header : Header.t) : env :=
  match Header.main_streams header with
  | Some m =>
      let fs := UnpackInfo.folders (StreamsInfo.unpackinfo m) in
      mk_env basefilename (Some m)
        (PackInfo.packsizes (StreamsInfo.packinfo m))
        (match SubstreamsInfo.unpacksizes (StreamsInfo.substreamsinfo m) with
         | Some us => map USingle us
         | None => map (fun x => UList (Folder.unpacksizes x)) fs
         end)
  | None => mk_env basefilename None [] [USingle 0%Z]
  end.

Definition init_state (afterheader : Z) (header : Header.t) : state :=
  mk_state 0 0 0 0 0 afterheader afterheader
    (match Header.main_streams header with
     | Some m => UnpackInfo.folders (StreamsInfo.unpackinfo m)
     | None => []
     end)
    [].

(** [numinstreams = 1; for coder in folder.coders:
     numinstreams = max(numinstreams, coder.get('numinstreams', 1))] *)
Definition max_numinstreams (coders : list Coder.t) : nat :=
  fold_left
    (fun numinstreams coder =>
       Nat.max numinstreams
         (match Coder.numinstreams coder with Some n => n | None => 1 end))
    coders 1.

(** [(folder.solid and packinfo.packsizes[instreamindex]) or None] *)
Definition maxsize_of (solid : bool) (pksizes : list Z) (instreamindex : nat)
  : result pyval :=
  if solid then
    p <- index pksizes instreamindex ;;
    Ok (if Z.eqb p 0 then PNone else PInt p)
  else Ok PNone.

(** The generated name of a record stored without one.  [self.filename]
    is always assigned by [__init__], so the [AttributeError] handler is
    never entered. *)
Definition default_filename (basefilename : option string) : string :=
  match basefilename with
  | Some b => fst (os_path.splitext (os_path.basename b))
  | None => "contents"%string
  end.

Definition name_file (basefilename : option string) (fi : FI.t) : FI.t :=
  match FI.filename fi with
  | Some _ => fi
  | None => FI.set_filename (default_filename basefilename) fi
  end.

(** [for x in range(numinstreams):
     folder_pos += packinfo.packsizes[instreamindex + x]] *)
Fixpoint advance_folder_pos (pksizes : list Z) (instreamindex : nat)
         (xs : list nat) (folder_pos : Z) : result Z :=
  match xs with
  | [] => Ok folder_pos
  | x :: rest =>
      p <- index pksizes (instreamindex + x) ;;
      advance_folder_pos pksizes instreamindex rest (folder_pos + p)%Z
  end.

(** The first half of the loop body for a record that has a stream, in
    an archive that has main streams: everything up to
    [streamidx += 1].  Returns the record, the folder as mutated so far,
    and [numinstreams]. *)
Definition fill_stream (e : env) (m : StreamsInfo.t) (st : state)
           (file_info : FI.t) : result (FI.t * Folder.t * nat) :=
  let subinfo := StreamsInfo.substreamsinfo m in
  let packinfo := StreamsInfo.packinfo m in
  folder0 <- index (folders st) (folder_index st) ;;
  folder <-
    (if Nat.eqb (streamidx st) 0 then
       n <- index (SubstreamsInfo.num_unpackstreams_folders subinfo)
                  (folder_index st) ;;
       Ok (Folder.set_solid (Nat.ltb 1 n) folder0)
     else Ok folder0) ;;
  maxsize <- maxsize_of (Folder.solid folder) (PackInfo.packsizes packinfo)
                        (instreamindex st) ;;
  u <- index (unpacksizes e) (output_binary_index st) ;;
  let uncompressed :=
    match u with
    | UList l => l
    | USingle s => repeat s (List.length (Folder.coders folder))
    end in
  let compressed :=
    if Nat.ltb 0 (file_in_solid st) then PNone
    else match nth_error (packsizes e) (instreamindex st) with
         | Some p => PInt p
         | None => PList uncompressed
         end in
  let numinstreams := max_numinstreams (Folder.coders folder) in
  Ok (FI.set_packsizes (slice (packsizes e) (instreamindex st) numinstreams)
        (FI.set_uncompressed uncompressed
           (FI.set_compressed compressed
              (FI.set_maxsize maxsize file_info))),
      folder, numinstreams).

(** The [else] branch: an empty stream, or an archive without main
    streams. *)
Definition fill_empty (file_info : FI.t) : FI.t :=
  FI.set_maxsize (PInt 0)
    (FI.set_packsizes [0%Z]
       (FI.set_uncompressed [0%Z]
          (FI.set_compressed (PInt 0) file_info))).

(** Tail of the loop body when [folder is not None]. *)
Definition finish_stream (e : env) (m : StreamsInfo.t) (st : state)
           (file_id : nat) (file_info : FI.t) (folder : Folder.t)
           (numinstreams : nat) : result state :=
  let subinfo := StreamsInfo.substreamsinfo m in
  let packinfo := StreamsInfo.packinfo m in
  let streamidx1 := S (streamidx st) in
  let file_info1 := FI.set_folder (Some (folder_index st)) file_info in
  defined <- index (SubstreamsInfo.digestsdefined subinfo)
                   (output_binary_index st) ;;
  file_info2 <-
    (if defined : bool then
       d <- index (SubstreamsInfo.digests subinfo) (output_binary_index st) ;;
       Ok (FI.set_digest d file_info1)
     else Ok file_info1) ;;
  let file_info3 := name_file (basefilename e) file_info2 in
  let file_in_solid1 :=
    if Folder.solid folder then 1 else file_in_solid st in
  let folder1 :=
    match Folder.files folder with
    | None => Folder.set_files (file_id, [file_id]) folder
    | Some (offset, l) => Folder.set_files (offset, l ++ [file_id]) folder
    end in
  let folders1 := set_nth (folders st) (folder_index st) folder1 in
  let files1 := files st ++ [file_info3] in
  n <- index (SubstreamsInfo.num_unpackstreams_folders subinfo)
             (folder_index st) ;;
  if Nat.leb n streamidx1 then
    folder_pos1 <- advance_folder_pos (PackInfo.packsizes packinfo)
                     (instreamindex st) (seq 0 numinstreams)
                     (folder_pos st) ;;
    Ok (mk_state (S (folder_index st)) (S (output_binary_index st)) 0 0
          (instreamindex st + numinstreams) folder_pos1 folder_pos1
          folders1 files1)
  else
    Ok (mk_state (folder_index st) (S (output_binary_index st)) streamidx1
          file_in_solid1 (instreamindex st) (folder_pos st) (src_pos st)
          folders1 files1).

(** Tail of the loop body when [folder is None]:
    [src_pos += file_info['compressed']], which is [0] here. *)
Definition finish_empty (e : env) (st : state) (file_info : FI.t) : state :=
  let file_info1 := name_file (basefilename e)
                      (FI.set_folder None file_info) in
  mk_state (folder_index st) (output_binary_index st) (streamidx st)
    (file_in_solid st) (instreamindex st) (folder_pos st)
    (src_pos st + 0)%Z (folders st) (files st ++ [file_info1]).

(** One iteration of [for file_id, file_info in enumerate(...)]. *)
Definition step (e : env) (st : state) (file_id : nat) (file_info : FI.t)
  : result state :=
  match negb (FI.emptystream file_info), ms e with
  | true, Some m =>
      '(fi, folder, numinstreams) <- fill_stream e m st file_info ;;
      finish_stream e m st file_id fi folder numinstreams
  | _, _ => Ok (finish_empty e st (fill_empty file_info))
  end.

Fixpoint loop (e : env) (st : state) (file_id : nat) (l : list FI.t)
  : result state :=
  match l with
  | [] => Ok st
  | file_info :: rest =>
      st1 <- step e st file_id file_info ;;
      loop e st1 (S file_id) rest
  end.

(** What [_filelist_retrieve] leaves behind: [self.solid], the folder
    objects of the header, and [self.files]. *)
Record outcome : Type := mk_outcome {
  out_solid : bool;
  out_folders : list Folder.t;
  out_files : list FI.t
}.

Definition _filelist_retrieve (basefilename : option string)
           (afterheader : Z) (header : Header.t) (solid0 : bool)
           (records : list FI.t) : result outcome :=
  let e := init_env basefilename header in
  st <- loop e (init_state afterheader header) 0 records ;;
  Ok (mk_outcome
        (match Header.main_streams header with
         | Some m => Nat.eqb (PackInfo.numstreams (StreamsInfo.packinfo m)) 1
         | None => solid0
         end)
        (folders st) (files st)).

(** *** Notions used to state the loop's properties *)

(** The folder's [solid] flag as a round sees it: assigned on the first
    record of the folder, read back on the later ones. *)
Definition solid_seen (st : state) (folder0 : Folder.t) (n : nat) : bool :=
  if Nat.eqb (streamidx st) 0 then Nat.ltb 1 n else Folder.solid folder0.

(** The local [uncompressed] of a round. *)
Definition uncompressed_of (u : usize) (folder0 : Folder.t) : list Z :=
  match u with
  | UList l => l
  | USingle s => repeat s (List.length (Folder.coders folder0))
  end.

(** The loop invariant: [file_in_solid] is [1] exactly on the second and
    later records of a folder, which is then solid and not yet
    exhausted.  [num] is [subinfo.num_unpackstreams_folders]. *)
Definition position_inv (num : list nat) (st : state) : Prop :=
  (streamidx st = 0 /\ file_in_solid st = 0)
  \/ (0 < streamidx st /\ file_in_solid st = 1
      /\ exists n folder,
           nth_error num (folder_index st) = Some n
           /\ streamidx st < n
           /\ nth_error (folders st) (folder_index st) = Some folder
           /\ Folder.solid folder = true).

(** A record that the reconstructor has been through: it has a name, a
    list of uncompressed sizes and a compressed size. *)
Definition assigned (fi : FI.t) : Prop :=
  FI.filename fi <> None
  /\ FI.uncompressed fi <> None
  /\ FI.compressed fi <> None.

(** The specification's wording of the compressed size (section 4.3,
    invariant 2 and scenario S3), kept to compare the code with: a file
    in a folder with one substream reports the sum of the pack sizes of
    the folder's input streams; a file of a solid folder reports none. *)
Definition compressed_as_specified (num : list nat) (fl : list FI.t) : Prop :=
  forall k fi j n ps,
    nth_error fl k = Some fi ->
    FI.emptystream fi = false ->
    FI.folder fi = Some (Some j) ->
    nth_error num j = Some n ->
    FI.packsizes fi = Some ps ->
    (n = 1 -> FI.compressed fi = Some (PInt (sumZ ps)))
    /\ (1 < n -> FI.compressed fi = Some PNone).

(** Does the record refer to the folder of index [j]? *)
Definition in_folder (j : nat) (fi : FI.t) : bool :=
  match FI.folder fi with
  | Some (Some i) => Nat.eqb i j
  | _ => false
  end.

(** The positions, in a file list, of the records that refer to the
    folder of index [j], in increasing order. *)
Definition positions_in_folder (j : nat) (fl : list FI.t) : list nat :=
  filter (fun k => match nth_error fl k with
                   | Some fi => in_folder j fi
                   | None => false
                   end)
         (seq 0 (List.length fl)).

(** The record has a stream of its own. *)
Definition has_stream (fi : FI.t) : bool := negb (FI.emptystream fi).

(** How many of the records before position [k] have a stream. *)
Definition streams_before (k : nat) (records : list FI.t) : nat :=
  List.length (filter has_stream (firstn k records)).

(** A folder's file list as it stands after the records at [positions]
    have been appended to it: none yet, or the offset (the first
    position) and the positions. *)
Definition file_refs (positions : list nat) : option (nat * list nat) :=
  match positions with
  | [] => None
  | p :: _ => Some (p, positions)
  end.

(** The fields of a parsed record [fi] that the loop leaves as they
    are in the record [fi'] it appends, the name included when there is
    one. *)
Definition same_parsed_fields (basefilename : option string) (fi fi' : FI.t)
  : Prop :=
  FI.emptystream fi' = FI.emptystream fi
  /\ FI.attributes fi' = FI.attributes fi
  /\ FI.lastwritetime fi' = FI.lastwritetime fi
  /\ FI.filename fi' =
       Some (match FI.filename fi with
             | Some name => name
             | None => default_filename basefilename
             end).

(** What the [else] branch of the loop body stores for a record. *)
Definition stored_without_stream (basefilename : option string) (fi : FI.t)
  : FI.t :=
  name_file basefilename (FI.set_folder None (fill_empty fi)).

End Retrieve.

(* ------------------------------------------------------------------ *)
(** ** The byte source: a binary file object *)

Module File.
Record t : Type := mk {
  content : list byte;
  pos : Z;
  closed : bool
}.

(** [fp.read(n)] for [0 <= n]: at most [n] bytes, fewer at end of file. *)
Definition read (n : Z) (f : t) : list byte * t :=
  let data := firstn (Z.to_nat n) (skipn (Z.to_nat (pos f)) (content f)) in
  (data, mk (content f) (pos f + Z.of_nat (List.length data)) (closed f)).

(** [fp.seek(offset)]; a negative target is an [OSError]. *)
Definition seek (offset : Z) (f : t) : result t :=
  if (offset <? 0)%Z then Raise (OSError EINVAL)
  else Ok (mk (content f) offset (closed f)).

(** [fp.seek(offset, os.SEEK_CUR)] *)
Definition seek_cur (offset : Z) (f : t) : result t :=
  seek (pos f + offset) f.

Definition tell (f : t) : Z := pos f.

Definition close (f : t) : t := mk (content f) (pos f) true.

Definition opened (content : list byte) : t := mk content 0 false.
End File.

Module SignatureHeader.
Record t : Type := mk {
  version : Z * Z;
  startheadercrc : Z;
  nextheaderofs : Z;
  nextheadersize : Z;
  nextheadercrc : Z
}.
End SignatureHeader.

(** Modelled from the spec: [MAGIC_7Z] of [py7zr.properties], the six
    magic bytes [37 7A BC AF 27 1C]. *)
Definition MAGIC_7Z : list byte := [x37; x7a; xbc; xaf; x27; x1c].

(* ------------------------------------------------------------------ *)
(** ** The extraction worker's registrations ([py7zr.compression.Worker]) *)

Module Worker.
(** A sink: [None] (discard), an output path, or an in-memory buffer
    (one per symbolic link, identified by the file id it was made for). *)
Inductive sink : Type :=
| SinkNone
| SinkPath (p : string)
| SinkBuffer.

(** Modelled from the spec: the constructor [Worker(files, src_start,
    header)] and [register_filelike(id, sink)], which record the
    [(file_id -> sink)] pairs; [target_filepath] is a dictionary, so a
    second registration of an id replaces the first. *)
Record t : Type := mk {
  files : list FI.t;
  src_start : Z;
  header : Header.t;
  target_filepath : list (nat * sink)
}.

Fixpoint dict_set (d : list (nat * sink)) (id : nat) (s : sink)
  : list (nat * sink) :=
  match d with
  | [] => [(id, s)]
  | (k, v) :: rest =>
      if Nat.eqb k id then (k, s) :: rest else (k, v) :: dict_set rest id s
  end.

Definition register_filelike (id : nat) (s : sink) (w : t) : t :=
  mk (files w) (src_start w) (header w) (dict_set (target_filepath w) id s).

(** The output paths of the registered entries, in registration order. *)
Fixpoint paths_of (d : list (nat * sink)) : list string :=
  match d with
  | [] => []
  | (_, SinkPath p) :: rest => p :: paths_of rest
  | _ :: rest => paths_of rest
  end.

Definition registered_paths (w : t) : list string :=
  paths_of (target_filepath w).
End Worker.

(* ------------------------------------------------------------------ *)
(** ** External collaborators

    Everything [py7zr.py] imports from the rest of the package or calls in
    the operating system, with the signatures it is used at.  Operations
    on the file system thread a state [fs]. *)

Class Externals : Type := {
  (* py7zr.helpers *)
  calculate_crc32 : list byte -> option Z -> Z;
  datetime : Type;
  filetime_to_dt : Z -> datetime;
  totimestamp : option Z -> result (option Z);
  (* py7zr.properties *)
  read_blocksize : positive;
  (* py7zr.archiveinfo *)
  SignatureHeader_retrieve : File.t -> result SignatureHeader.t * File.t;
  Header_retrieve : File.t -> list byte -> Z -> result (option Header.t) * File.t;
  (* os, pathlib *)
  fs : Type;
  os_name_posix : bool;
  pathlib_Path : string -> string;
  joinpath : string -> string -> string;
  sorted_paths : list string -> list string;
  path_exists : string -> fs -> bool;
  path_is_dir : string -> fs -> bool;
  path_is_file : string -> fs -> bool;
  mkdir_parents : string -> fs -> result unit * fs;
  mkdir : string -> fs -> result unit * fs;
  symlink_to : string -> string -> fs -> result unit * fs;
  utime : string -> Z -> fs -> result unit * fs;
  chmod : string -> Z -> fs -> result unit * fs;
  stat_st_mode : string -> fs -> result Z;
  decode_utf8 : list byte -> result string;
  (* py7zr.compression: [Worker.extract(fp, multithread=...)]; the flag is
     [None] when the caller leaves it to the default.  It returns the
     contents of the in-memory sinks, by file id. *)
  Worker_extract :
    Worker.t -> File.t -> option bool -> fs ->
    result (nat -> list byte) * File.t * fs
}.

(* ------------------------------------------------------------------ *)
(** ** [class SevenZipFile]: opening an archive *)

Inductive open_mode : Type := mode_r | mode_w | mode_x | mode_a.

Module FileInfo.
(** [class FileInfo]: one row of [list()]. *)
Record t (datetime : Type) : Type := mk {
  filename : option string;
  compressed : pyval;
  uncompressed : Z;
  archivable : bool;
  is_directory : bool;
  creationtime : option datetime
}.
End FileInfo.

Module SevenZipFile.

(** The instance attributes.  An attribute that is assigned only on some
    paths is an [option]: [None] means "never assigned", and reading it
    raises [AttributeError]. *)
Record t : Type := mk {
  fp : File.t;
  _filePassed : bool;
  _fileRefCnt : nat;
  filename : option string;
  mode : open_mode;
  solid : bool;
  sig_header : option SignatureHeader.t;
  afterheader : option Z;
  header : option Header.t;
  files : option (list FI.t);
  worker : option Worker.t
}.

Definition set_fp (v : File.t) (s : t) : t :=
  mk v (_filePassed s) (_fileRefCnt s) (filename s) (mode s) (solid s)
     (sig_header s) (afterheader s) (header s) (files s) (worker s).
Definition set_worker (v : Worker.t) (s : t) : t :=
  mk (fp s) (_filePassed s) (_fileRefCnt s) (filename s) (mode s) (solid s)
     (sig_header s) (afterheader s) (header s) (files s) (Some v).

(** Reading an attribute. *)
Definition attr {A : Type} (a : option A) : result A :=
  match a with
  | Some v => Ok v
  | None => Raise AttributeError
  end.

(** [self._fpclose()] *)
Definition _fpclose (s : t) : t :=
  let cnt := Nat.pred (_fileRefCnt s) in
  mk (if Nat.eqb cnt 0 && negb (_filePassed s)
      then File.close (fp s) else fp s)
     (_filePassed s) cnt (filename s) (mode s) (solid s)
     (sig_header s) (afterheader s) (header s) (files s) (worker s).

(** [_check_7zfile(fp)]: compare the first bytes with the magic and step
    back over them. *)
Definition _check_7zfile (f : File.t) : result bool * File.t :=
  let n := Z.of_nat (List.length MAGIC_7Z) in
  let '(data, f1) := File.read n f in
  let result :=
    if list_eq_dec Byte.byte_eq_dec MAGIC_7Z
         (firstn (List.length MAGIC_7Z) data)
    then true else false in
  match File.seek_cur (- n) f1 with
  | Raise e => (Raise e, f1)
  | Ok f2 => (Ok result, f2)
  end.

Section WithExternals.
Context {E : Externals}.

(** [self._read_header_data()] with [self.fp = f]: the metadata bytes
    (the contents of the returned [BytesIO]), or the exception, and
    the file afterwards. *)
Definition _read_header_data (sig : SignatureHeader.t) (f : File.t)
  : result (list byte) * File.t :=
  match File.seek_cur (SignatureHeader.nextheaderofs sig) f with
  | Raise e => (Raise e, f)
  | Ok f1 =>
      let '(buffer, f2) :=
        File.read (SignatureHeader.nextheadersize sig) f1 in
      if negb (Z.eqb (SignatureHeader.nextheadercrc sig)
                     (calculate_crc32 buffer None))
      then (Raise (Bad7zFile "invalid header data"), f2)
      else (Ok buffer, f2)
  end.

(** The end of [_real_get_contents], from [self.header = header] on:
    the file list is rebuilt when the header has file records.  The
    folder objects reachable from [self.header] are the ones the
    reconstructor has written to, and [self.files] holds the very
    records of [header.files_info.files]. *)
Definition _assign_contents (s : t) (f : File.t) (sig : SignatureHeader.t)
           (afterheader : Z) (h : Header.t) : result t :=
  match Header.files_info h with
  | None =>
      Ok (mk f (_filePassed s) (_fileRefCnt s) (filename s) (mode s) false
            (Some sig) (Some afterheader) (Some h) (Some []) (worker s))
  | Some finfo =>
      out <- Retrieve._filelist_retrieve (filename s) afterheader h false
               (FilesInfo.files finfo) ;;
      let h1 :=
        Header.mk
          (match Header.main_streams h with
           | Some m =>
               Some (StreamsInfo.mk
                       (StreamsInfo.packinfo m)
                       (UnpackInfo.mk
                          (UnpackInfo.numfolders (StreamsInfo.unpackinfo m))
                          (Retrieve.out_folders out))
                       (StreamsInfo.substreamsinfo m))
           | None => None
           end)
          (Some (FilesInfo.mk (Retrieve.out_files out)))
          (Header.size h) in
      Ok (mk f (_filePassed s) (_fileRefCnt s) (filename s) (mode s)
            (Retrieve.out_solid out) (Some sig) (Some afterheader)
            (Some h1) (Some (Retrieve.out_files out)) (worker s))
  end.

(** [self._real_get_contents(fp)].  On an exception the file is
    returned as it stood, for [__init__] to close. *)
Definition _real_get_contents (s : t) : result t * File.t :=
  match _check_7zfile (fp s) with
  | (Raise e, f0) => (Raise e, f0)
  | (Ok false, f0) => (Raise (Bad7zFile "not a 7z file"), f0)
  | (Ok true, f0) =>
      match SignatureHeader_retrieve f0 with
      | (Raise e, f1) => (Raise e, f1)
      | (Ok sig, f1) =>
          let afterheader := File.tell f1 in
          match _read_header_data sig f1 with
          | (Raise e, f2) => (Raise e, f2)
          | (Ok buffer, f2) =>
              match Header_retrieve f2 buffer afterheader with
              | (Raise e, f3) => (Raise e, f3)
              | (Ok None, f3) =>
                  (* [if header is None: return] *)
                  (Ok (mk f3 (_filePassed s) (_fileRefCnt s) (filename s)
                          (mode s) (solid s) (Some sig) (Some afterheader)
                          (header s) (files s) (worker s)), f3)
              | (Ok (Some h), f3) =>
                  (_assign_contents s f3 sig afterheader h, f3)
              end
          end
      end
  end.

(** [self.reset()] *)
Definition reset (s : t) : result t :=
  afterheader <- attr (afterheader s) ;;
  f <- File.seek afterheader (fp s) ;;
  files <- attr (files s) ;;
  header <- attr (header s) ;;
  Ok (set_worker (Worker.mk files afterheader header []) (set_fp f s)).

(** [SevenZipFile(file, mode)] once [file] has been opened as [fp]:
    [filePassed] tells whether the caller passed a file object, and
    [name] is the path, or the object's [name] attribute if any.  The
    constructor either returns a handle or raises; in both cases the
    final state of the file object is returned too. *)
Definition __init__ (f : File.t) (filePassed : bool) (name : option string)
           (m : open_mode) : result t * File.t :=
  let s0 := mk f filePassed 1 name m false None None None None None in
  let fail (e : exn) (s : t) (f' : File.t) :=
    (Raise e, fp (_fpclose (set_fp f' s))) in
  match m with
  | mode_r =>
      match _real_get_contents s0 with
      | (Raise e, f1) => fail e s0 f1
      | (Ok s1, _) =>
          match reset s1 with
          | Raise e => fail e s1 (fp s1)
          | Ok s2 => (Ok s2, fp s2)
          end
      end
  | mode_w =>
      (* [_write_open]: the writer's folder is not modelled *)
      (Ok (mk f filePassed 1 name m false None None None (Some []) None), f)
  | mode_x => fail NotImplementedError s0 f
  | mode_a => fail NotImplementedError s0 f
  end.

(** *** Integrity test *)

(** The [while remaining_size > 0] loop of [_test_digest_raw].  Every
    round takes [min(read_blocksize, remaining_size) >= 1] off
    [remaining_size], so [fuel = remaining_size] rounds are enough;
    the [O] case is only reached with [remaining_size <= 0]. *)
Fixpoint _test_digest_raw_loop (fuel : nat) (remaining_size : Z)
         (digest : option Z) (f : File.t) : option Z * File.t :=
  match fuel with
  | O => (digest, f)
  | S fuel' =>
      if (0 <? remaining_size)%Z then
        let block := Z.min (Z.pos read_blocksize) remaining_size in
        let '(data, f1) := File.read block f in
        _test_digest_raw_loop fuel' (remaining_size - block)
          (Some (calculate_crc32 data digest)) f1
      else (digest, f)
  end.

(** [digest == crc], where [digest] may still be [None]. *)
Definition digest_eq (digest : option Z) (crc : Z) : bool :=
  match digest with
  | Some d => Z.eqb d crc
  | None => false
  end.

Definition _test_digest_raw (pos size crc : Z) (f : File.t)
  : result (bool * File.t) :=
  f1 <- File.seek pos f ;;
  let '(digest, f2) :=
    _test_digest_raw_loop (Z.to_nat size) size None f1 in
  Ok (digest_eq digest crc, f2).

(** [for i, p in enumerate(packpositions)] of [_test_pack_digest] *)
Fixpoint pack_digest_loop (packinfo : PackInfo.t) (crcs : list Z)
         (i : nat) (positions : list Z) (f : File.t)
  : result (bool * File.t) :=
  match positions with
  | [] => Ok (true, f)
  | p :: rest =>
      size <- index (PackInfo.packsizes packinfo) i ;;
      crc <- index crcs i ;;
      '(ok, f1) <- _test_digest_raw p size crc f ;;
      if ok : bool then pack_digest_loop packinfo crcs (S i) rest f1
      else Ok (false, f1)
  end.

Definition _test_pack_digest (s : t) : result (bool * t) :=
  s1 <- reset s ;;
  h <- attr (header s1) ;;
  m <- attr (Header.main_streams h) ;;
  let packinfo := StreamsInfo.packinfo m in
  match PackInfo.crcs packinfo with
  | Some (c :: cs) =>
      '(ok, f) <- pack_digest_loop packinfo (c :: cs) 0
                    (PackInfo.packpositions packinfo) (fp s1) ;;
      Ok (ok, set_fp f s1)
  | _ => Ok (true, s1)
  end.

(** [for f in self.files: self.worker.register_filelike(f.id, None)] *)
Definition register_all_none (fl : list ArchiveFile.t) (w : Worker.t)
  : Worker.t :=
  fold_left
    (fun w f => Worker.register_filelike (ArchiveFile.id f) Worker.SinkNone w)
    fl w.

Definition _test_unpack_digest (s : t) (fs0 : fs)
  : result (bool * t) * fs :=
  match reset s with
  | Raise e => (Raise e, fs0)
  | Ok s1 =>
      match attr (files s1), attr (worker s1) with
      | Raise e, _ | _, Raise e => (Raise e, fs0)
      | Ok fl, Ok w0 =>
          let w := register_all_none (ArchiveFileList.iter 0 fl) w0 in
          let s2 := set_worker w s1 in
          match Worker_extract w (fp s2) None fs0 with
          | (Raise (Bad7zFile _), f, fs1) => (Ok (false, set_fp f s2), fs1)
          | (Raise e, _, fs1) => (Raise e, fs1)
          | (Ok _, f, fs1) => (Ok (true, set_fp f s2), fs1)
          end
      end
  end.

Definition _test_digests (s : t) (fs0 : fs) : result (bool * t) * fs :=
  match _test_pack_digest s with
  | Raise e => (Raise e, fs0)
  | Ok (true, s1) =>
      match _test_unpack_digest s1 fs0 with
      | (Ok (true, s2), fs1) => (Ok (true, s2), fs1)
      | (Ok (false, s2), fs1) => (Ok (false, s2), fs1)
      | (Raise e, fs1) => (Raise e, fs1)
      end
  | Ok (false, s1) => (Ok (false, s1), fs0)
  end.

(** [test()] *)
Definition test (s : t) (fs0 : fs) : result (bool * t) * fs :=
  _test_digests s fs0.

(** *** Listing *)

(** [getnames()] *)
Definition getnames (s : t) : result (list (option string)) :=
  fl <- attr (files s) ;;
  Ok (map ArchiveFile.filename (ArchiveFileList.iter 0 fl)).

(** The loop of [list()]; [creationtime] is the local variable of that
    name, which survives from one round to the next. *)
Fixpoint list_loop (fl : list ArchiveFile.t) (creationtime : option datetime)
  : result (list (FileInfo.t datetime)) :=
  match fl with
  | [] => Ok []
  | f :: rest =>
      let creationtime1 :=
        match ArchiveFile.lastwritetime f with
        | Some t => Some (filetime_to_dt t)
        | None => creationtime
        end in
      usize <- ArchiveFile.uncompressed_size f ;;
      alist <- list_loop rest creationtime1 ;;
      Ok (FileInfo.mk (ArchiveFile.filename f) (ArchiveFile.compressed f)
            usize (ArchiveFile.archivable f) (ArchiveFile.is_directory f)
            creationtime1 :: alist)
  end.

(** [list()]; the builtin name is taken. *)
Definition list_ (s : t) : result (list (FileInfo.t datetime)) :=
  fl <- attr (files s) ;;
  list_loop (ArchiveFileList.iter 0 fl) None.

(** *** Extraction *)

(** Code that may raise and that reads or changes the file system. *)
Definition M (A : Type) : Type := fs -> result A * fs.

Definition mret {A : Type} (a : A) : M A := fun w => (Ok a, w).

Definition mbind {A B : Type} (m : M A) (k : A -> M B) : M B :=
  fun w =>
    match m w with
    | (Ok a, w1) => k a w1
    | (Raise e, w1) => (Raise e, w1)
    end.

Definition lift {A : Type} (r : result A) : M A := fun w => (r, w).

Definition query {A : Type} (q : fs -> A) : M A := fun w => (Ok (q w), w).

Notation "x <~ m ;; k" := (mbind m (fun x => k))
  (at level 61, m at next level, right associativity).
Notation "' pat <~ m ;; k" :=
  (mbind m (fun x => match x with pat => k end))
  (at level 61, pat pattern, m at next level, right associativity).

(** The dictionary returned by [file_properties()], as far as
    [_set_file_property] reads it. *)
Record properties : Type := mk_properties {
  p_lastwritetime : option Z;
  p_posix_mode : option Z;
  p_readonly : bool;
  p_is_directory : bool
}.

Definition file_properties (f : ArchiveFile.t) : properties :=
  mk_properties (ArchiveFile.lastwritetime f) (ArchiveFile.posix_mode f)
    (ArchiveFile.readonly f) (ArchiveFile.is_directory f).

(** [0o777 ^ (stat.S_IWRITE | stat.S_IWGRP | stat.S_IWOTH)] *)
Definition ro_mask : Z := Z.lxor 511 (Z.lor (Z.lor 128 16) 2).

Definition _set_file_property (outfilename : string) (p : properties)
  : M unit :=
  creationtime <~ lift (totimestamp (p_lastwritetime p)) ;;
  _ <~ (match creationtime with
        | Some c => utime outfilename c
        | None => mret tt
        end) ;;
  let fallback : M unit :=
    if p_readonly p && negb (p_is_directory p) then
      st_mode <~ (fun w => (stat_st_mode outfilename w, w)) ;;
      chmod outfilename (Z.land st_mode ro_mask)
    else mret tt in
  if os_name_posix then
    match p_posix_mode p with
    | Some st_mode => chmod outfilename st_mode
    | None => fallback
    end
  else fallback.

(** The first lines of [extractall]: make the target directory. *)
Definition make_root (path : option string) : M unit :=
  match path with
  | None => mret tt
  | Some p =>
      fun w =>
        if path_exists p w then (Ok tt, w)
        else
          match mkdir_parents p w with
          | (Raise (OSError errno), w1) =>
              if Z.eqb errno EEXIST && path_is_dir p w1 then (Ok tt, w1)
              else (Raise (OSError errno), w1)
          | r => r
          end
  end.

(** [s.startswith('../')] *)
Definition startswith_dotdot (s : string) : bool :=
  String.prefix "../" s.

(** The local variables that the loop over [self.files] updates. *)
Record locals : Type := mk_locals {
  l_worker : Worker.t;
  multi_thread : bool;
  fnames : list string;
  target_sym : list (nat * string);
  target_files : list (string * properties);
  target_dirs : list string
}.

(** One round of [for f in self.files] in [extractall]. *)
Definition extract_step (path : option string) (f : ArchiveFile.t)
           (l : locals) : M locals :=
  name <~ lift (attr (ArchiveFile.filename f)) ;;
  if startswith_dotdot name then lift (Raise (Bad7zFile EmptyString))
  else
    let multi_thread1 :=
      if in_dec string_dec name (fnames l) then false else multi_thread l in
    let fnames1 := fnames l ++ [name] in
    let outfilename :=
      match path with
      | Some p => joinpath p name
      | None => pathlib_Path name
      end in
    if ArchiveFile.is_directory f then
      present <~ query (path_exists outfilename) ;;
      if present : bool then
        mret (mk_locals (l_worker l) multi_thread1 fnames1 (target_sym l)
                (target_files l) (target_dirs l))
      else
        mret (mk_locals (l_worker l) multi_thread1 fnames1 (target_sym l)
                (target_files l ++ [(outfilename, file_properties f)])
                (target_dirs l ++ [outfilename]))
    else if ArchiveFile.is_socket f then
      mret (mk_locals (l_worker l) multi_thread1 fnames1 (target_sym l)
              (target_files l) (target_dirs l))
    else if ArchiveFile.is_symlink f then
      mret (mk_locals
              (Worker.register_filelike (ArchiveFile.id f)
                 Worker.SinkBuffer (l_worker l))
              multi_thread1 fnames1
              (target_sym l ++ [(ArchiveFile.id f, name)])
              (target_files l) (target_dirs l))
    else
      mret (mk_locals
              (Worker.register_filelike (ArchiveFile.id f)
                 (Worker.SinkPath outfilename) (l_worker l))
              multi_thread1 fnames1 (target_sym l)
              (target_files l ++ [(outfilename, file_properties f)])
              (target_dirs l)).

Fixpoint extract_loop (path : option string) (fl : list ArchiveFile.t)
         (l : locals) : M locals :=
  match fl with
  | [] => mret l
  | f :: rest =>
      l1 <~ extract_step path f l ;;
      extract_loop path rest l1
  end.

(** [for target_dir in sorted(target_dirs)] *)
Fixpoint make_dirs (dirs : list string) : M unit :=
  match dirs with
  | [] => mret tt
  | target_dir :: rest =>
      fun w =>
        match mkdir target_dir w with
        | (Ok _, w1) => make_dirs rest w1
        | (Raise (OSError errno), w1) =>
            if Z.eqb errno EEXIST then
              if path_is_dir target_dir w1 then make_dirs rest w1
              else if path_is_file target_dir w1 then
                (Raise (PlainException
                          "Directory name is existed as a normal file."), w1)
              else
                (Raise (PlainException
                          "Directory making fails on unknown condition."), w1)
            else (Raise (OSError errno), w1)
        | (Raise e, w1) => (Raise e, w1)
        end
  end.

(** [for b, t in target_sym] *)
Fixpoint make_symlinks (path : option string) (buffers : nat -> list byte)
         (syms : list (nat * string)) : M unit :=
  match syms with
  | [] => mret tt
  | (b, t) :: rest =>
      sym_src_org <~ lift (decode_utf8 (buffers b)) ;;
      let dirname := os_path.dirname t in
      let sym_src :=
        match path with
        | Some p => joinpath (joinpath p dirname) sym_src_org
        | None => joinpath (pathlib_Path dirname) sym_src_org
        end in
      let sym_dst :=
        match path with
        | Some p => joinpath p t
        | None => pathlib_Path t
        end in
      _ <~ symlink_to sym_dst sym_src ;;
      make_symlinks path buffers rest
  end.

(** [for o, p in target_files] *)
Fixpoint set_properties (l : list (string * properties)) : M unit :=
  match l with
  | [] => mret tt
  | (o, p) :: rest =>
      _ <~ _set_file_property o p ;;
      set_properties rest
  end.

(** [multi_thread] as computed before the loop. *)
Definition initial_multi_thread (m : StreamsInfo.t) : bool :=
  Nat.ltb 1 (UnpackInfo.numfolders (StreamsInfo.unpackinfo m))
  && Nat.eqb (PackInfo.numstreams (StreamsInfo.packinfo m))
             (UnpackInfo.numfolders (StreamsInfo.unpackinfo m)).

(** Everything in [extractall] up to and including the loop over
    [self.files]. *)
Definition extract_prepare (s : t) (path : option string)
  : M (t * locals) :=
  s1 <~ lift (reset s) ;;
  _ <~ make_root path ;;
  h <~ lift (attr (header s1)) ;;
  m <~ lift (attr (Header.main_streams h)) ;;
  w <~ lift (attr (worker s1)) ;;
  fl <~ lift (attr (files s1)) ;;
  l <~ extract_loop path (ArchiveFileList.iter 0 fl)
         (mk_locals w (initial_multi_thread m) [] [] [] []) ;;
  mret (s1, l).

(** The specification's wording of when folders may be decompressed
    concurrently (section 4.4), kept to compare [multi_thread] with:
    more than one folder, as many pack streams as folders, and no two
    registered entries with the same output path. *)
Definition multi_thread_as_specified (m : StreamsInfo.t) (l : locals)
  : Prop :=
  multi_thread l = true
  <-> (1 < UnpackInfo.numfolders (StreamsInfo.unpackinfo m)
       /\ PackInfo.numstreams (StreamsInfo.packinfo m)
          = UnpackInfo.numfolders (StreamsInfo.unpackinfo m)
       /\ NoDup (Worker.registered_paths (l_worker l))).

(** The rest of [extractall]: make the directories, run the worker
    with the [multithread] flag, create the links, stamp the files. *)
Definition extract_finish (path : option string) (s1 : t) (l : locals)
  : M t :=
  _ <~ make_dirs (sorted_paths (target_dirs l)) ;;
  '(buffers, f) <~
    (fun w =>
       match Worker_extract (l_worker l) (fp s1) (Some (multi_thread l)) w with
       | (Ok b, f, w1) => (Ok (b, f), w1)
       | (Raise e, _, w1) => (Raise e, w1)
       end) ;;
  _ <~ make_symlinks path buffers (target_sym l) ;;
  _ <~ set_properties (target_files l) ;;
  mret (set_fp f (set_worker (l_worker l) s1)).

(** [extractall(path)] *)
Definition extractall (s : t) (path : option string) : M t :=
  '(s1, l) <~ extract_prepare s path ;;
  extract_finish path s1 l.

(** *** Notions used to state what [extractall] registers *)

(** [outfilename] of a round of the loop in [extractall]. *)
Definition outfilename (path : option string) (f : ArchiveFile.t) : string :=
  let name := match ArchiveFile.filename f with
              | Some n => n
              | None => EmptyString
              end in
  match path with
  | Some p => joinpath p name
  | None => pathlib_Path name
  end.

(** The entries that reach one of the two [register_filelike] calls:
    neither directories nor sockets. *)
Definition reaches_worker (f : ArchiveFile.t) : bool :=
  negb (ArchiveFile.is_directory f) && negb (ArchiveFile.is_socket f).

(** The sink such an entry is registered with. *)
Definition sink_for (path : option string) (f : ArchiveFile.t) : Worker.sink :=
  if ArchiveFile.is_symlink f then Worker.SinkBuffer
  else Worker.SinkPath (outfilename path f).

(** The entries whose times and mode [extractall] sets at the end, seen
    from the file system [w] that the loop over the entries runs in: the
    directories that do not exist yet, and the entries written to a
    path. *)
Definition gets_properties (path : option string) (w : fs)
           (f : ArchiveFile.t) : bool :=
  if ArchiveFile.is_directory f then negb (path_exists (outfilename path f) w)
  else negb (ArchiveFile.is_socket f) && negb (ArchiveFile.is_symlink f).

(** The directories that [extractall] creates. *)
Definition made_directory (path : option string) (w : fs)
           (f : ArchiveFile.t) : bool :=
  ArchiveFile.is_directory f && negb (path_exists (outfilename path f) w).

(** The entries that [extractall] turns into symbolic links. *)
Definition made_link (f : ArchiveFile.t) : bool :=
  negb (ArchiveFile.is_directory f) && negb (ArchiveFile.is_socket f)
  && ArchiveFile.is_symlink f.

Definition name_of (f : ArchiveFile.t) : string :=
  match ArchiveFile.filename f with
  | Some n => n
  | None => EmptyString
  end.

(** *** Notions used to state what [test] checks *)

(** The verdict on one pack stream, read off the content of the file:
    the stream is not empty and the CRC of its bytes is [crc]. *)
Definition pack_stream_ok (content : list byte) (pos size crc : Z) : bool :=
  (0 <? size)%Z
  && Z.eqb (calculate_crc32
              (firstn (Z.to_nat size) (skipn (Z.to_nat pos) content)) None)
           crc.


End WithExternals.

(** [self._num_files()] *)
Definition _num_files (s : t) : result nat :=
  h <- attr (header s) ;;
  Ok (match Header.files_info h with
      | Some finfo => List.length (FilesInfo.files finfo)
      | None => 0
      end).

End SevenZipFile.

(* ------------------------------------------------------------------ *)
(** ** [is_7zfile] *)

(** The argument of [is_7zfile]: a file object with a [read] method, a
    [str] or a [pathlib.Path], each with the outcome of opening it for
    reading, or anything else. *)
Inductive is_7zfile_arg : Type :=
| ArgFileObject (f : File.t)
| ArgStr (opened : result File.t)
| ArgPath (opened : result File.t)
| ArgOther.

(** The body of the [try]: an [OSError] leaves [result] at [False]; any
    other exception propagates. *)
Definition is_7zfile_checked (f : File.t) : result bool :=
  match SevenZipFile._check_7zfile f with
  | (Ok b, _) => Ok b
  | (Raise (OSError _), _) => Ok false
  | (Raise e, _) => Raise e
  end.

Definition is_7zfile_opened (opened : result File.t) : result bool :=
  match opened with
  | Ok f => is_7zfile_checked f
  | Raise (OSError _) => Ok false
  | Raise e => Raise e
  end.

Definition is_7zfile (file : is_7zfile_arg) : result bool :=
  match file with
  | ArgFileObject f => is_7zfile_checked f
  | ArgStr opened => is_7zfile_opened opened
  | ArgPath opened => is_7zfile_opened opened
  | ArgOther => Raise TypeError
  end.

(* ------------------------------------------------------------------ *)
(** ** The writer's side: [_make_file_info], [write], [writeall] *)

Module WriteInfo.
(** The dictionary built by [_make_file_info].  ['emptystream'],
    ['attributes'] and ['uncompressed'] are assigned only for some kinds
    of target; here ['uncompressed'] is an integer. *)
Record t : Type := mk {
  origin : string;
  filename : string;
  emptystream : option bool;
  attributes : option Z;
  uncompressed : option Z
}.
End WriteInfo.

(** What the writer asks of [pathlib] and [os] about the files to be
    archived.  A [pathlib.Path] is the string it stands for. *)
Class TargetOS : Type := {
  target_posix : bool;                           (* os.name == 'posix' *)
  Path_of_str : string -> string;                (* pathlib.Path(s) *)
  target_is_dir : string -> bool;
  target_is_symlink : string -> bool;
  target_is_file : string -> bool;
  target_st_size : string -> Z;                  (* target.stat().st_size *)
  target_joinpath : string -> string -> string;  (* path.joinpath(nm) *)
  listdir : string -> result (list string);      (* os.listdir(str(path)) *)
  sorted_names : list string -> list string      (* sorted(...) *)
}.

Module Writer.
Section WithTargetOS.
Context {T : TargetOS}.

(** [SevenZipFile._make_file_info(target, arcname)] *)
Definition _make_file_info (target : string) (arcname : option string)
  : WriteInfo.t :=
  let filename := match arcname with Some a => a | None => target end in
  if target_is_dir target then
    WriteInfo.mk target filename (Some true)
      (Some (if target_posix
             then Z.lor FileAttribute.DIRECTORY
                    (Z.lor FileAttribute.UNIX_EXTENSION
                       (Z.shiftl stat.S_IFDIR 16))
             else FileAttribute.DIRECTORY))
      None
  else if target_is_symlink target then
    WriteInfo.mk target filename (Some true)
      (Some (if target_posix
             then Z.lor FileAttribute.UNIX_EXTENSION (Z.shiftl stat.S_IFLNK 16)
             else 0%Z))
      None
  else if target_is_file target then
    WriteInfo.mk target filename (Some false) (Some 0%Z)
      (Some (target_st_size target))
  else WriteInfo.mk target filename None None None.

(** The [file] argument of [write]. *)
Inductive file_arg : Type :=
| FileStr (s : string)
| FilePath (p : string)
| FileOther.

(** [write(file, arcname)], on the list held by [self.files]. *)
Definition write (file : file_arg) (arcname : option string)
           (files : list WriteInfo.t) : result (list WriteInfo.t) :=
  match file with
  | FileStr s => Ok (files ++ [_make_file_info (Path_of_str s) arcname])
  | FilePath p => Ok (files ++ [_make_file_info p arcname])
  | FileOther => Raise (ValueError "Unsupported file type.")
  end.

(** [writeall(path, arcname)] for a [pathlib.Path]; [fuel] bounds the
    depth of the recursion, and [None] is "not finished within it". *)
Fixpoint writeall (fuel : nat) (path : string) (arcname : option string)
         (files : list WriteInfo.t) : option (result (list WriteInfo.t)) :=
  match fuel with
  | O => None
  | S fuel' =>
      if target_is_file path then Some (write (FilePath path) arcname files)
      else if target_is_dir path then
        match (match arcname with
               | Some _ => write (FilePath path) arcname files
               | None => Ok files
               end) with
        | Raise e => Some (Raise e)
        | Ok files1 =>
            match listdir path with
            | Raise e => Some (Raise e)
            | Ok names =>
                (fix each (names : list string) (files : list WriteInfo.t)
                   : option (result (list WriteInfo.t)) :=
                   match names with
                   | [] => Some (Ok files)
                   | nm :: rest =>
                       let arc := match arcname with
                                  | Some a => Some (os_path.join a nm)
                                  | None => None
                                  end in
                       match writeall fuel' (target_joinpath path nm) arc files with
                       | Some (Ok files2) => each rest files2
                       | r => r
                       end
                   end) (sorted_names names) files1
            end
        end
      else Some (Ok files)
  end.

(** [writeall] called with a [str]: it is turned into a path first. *)
Definition writeall_str (fuel : nat) (path : string) (arcname : option string)
           (files : list WriteInfo.t) : option (result (list WriteInfo.t)) :=
  writeall fuel (Path_of_str path) arcname files.

End WithTargetOS.
End Writer.

(* ------------------------------------------------------------------ *)
(** ** Collaborators modelled from the specification

    These stand in for the parts of the package that [src/] does not
    contain.  The theorems about [py7zr.py] hold for every instance of
    [Externals]; this one is used to run the code on concrete archives. *)

Module SpecModel.

(** Modelled from the spec: CRC-32 of [py7zr.helpers.calculate_crc32]
    (section 4.5): IEEE polynomial [0xEDB88320], reflected, initial value
    and final XOR [0xFFFFFFFF], continued from a previous value. *)
Definition crc32_bit (c : Z) : Z :=
  if Z.testbit c 0 then Z.lxor (Z.shiftr c 1) 0xEDB88320 else Z.shiftr c 1.

Definition crc32_byte (c : Z) (b : byte) : Z :=
  Nat.iter 8 crc32_bit (Z.lxor c (Z.of_N (Byte.to_N b))).

Definition crc32 (data : list byte) (value : Z) : Z :=
  Z.lxor (fold_left crc32_byte data (Z.lxor value 0xFFFFFFFF)) 0xFFFFFFFF.

Definition calculate_crc32 (data : list byte) (value : option Z) : Z :=
  crc32 data (match value with Some v => v | None => 0%Z end).

(** Little-endian fixed-width integers. *)
Definition le_decode (bs : list byte) : Z :=
  fold_right (fun b acc => (Z.of_N (Byte.to_N b) + 256 * acc)%Z) 0%Z bs.

(** Modelled from the spec: [SignatureHeader.retrieve] (section 4.1).
    Reads the first 32 bytes, checks the magic, and validates
    [start_header_crc] over the 20 bytes that follow it. *)
Definition SignatureHeader_retrieve (f : File.t)
  : result SignatureHeader.t * File.t :=
  let '(data, f1) := File.read 32 f in
  if Nat.ltb (List.length data) 32 then
    (Raise (Bad7zFile "truncated signature header"), f1)
  else if list_eq_dec Byte.byte_eq_dec MAGIC_7Z (firstn 6 data) then
    let startheadercrc := le_decode (slice data 8 4) in
    if Z.eqb startheadercrc (calculate_crc32 (slice data 12 20) None) then
      (Ok (SignatureHeader.mk
             (le_decode (slice data 6 1), le_decode (slice data 7 1))
             startheadercrc
             (le_decode (slice data 12 8))
             (le_decode (slice data 20 8))
             (le_decode (slice data 28 4))), f1)
    else (Raise (Bad7zFile "invalid header data"), f1)
  else (Raise (Bad7zFile "not a 7z file"), f1).

(** A small file system: the existing paths, newest first. *)
Inductive node : Type :=
| Dir
| Reg (data : list byte)
| Link (target : string).

Definition fs : Type := list (string * node).

Fixpoint lookup (p : string) (w : fs) : option node :=
  match w with
  | [] => None
  | (k, v) :: rest => if String.eqb k p then Some v else lookup p rest
  end.

Definition path_exists (p : string) (w : fs) : bool :=
  match lookup p w with Some _ => true | None => false end.
Definition path_is_dir (p : string) (w : fs) : bool :=
  match lookup p w with Some Dir => true | _ => false end.
Definition path_is_file (p : string) (w : fs) : bool :=
  match lookup p w with Some (Reg _) => true | _ => false end.

Definition create (p : string) (n : node) (w : fs) : result unit * fs :=
  if path_exists p w then (Raise FileExistsError, w)
  else (Ok tt, (p, n) :: w).

(** Opening a path for writing replaces what was there. *)
Definition write_file (p : string) (data : list byte) (w : fs) : fs :=
  (p, Reg data) :: w.

Definition joinpath (p name : string) : string := (p ++ "/" ++ name)%string.

Fixpoint insert_sorted (p : string) (l : list string) : list string :=
  match l with
  | [] => [p]
  | q :: rest =>
      if String.leb p q then p :: l else q :: insert_sorted p rest
  end.
Definition sorted_paths (l : list string) : list string :=
  fold_right insert_sorted [] l.

(** Modelled from the spec: [Worker.extract] running sequentially
    (sections 4.4 and 5): the registered files are handled in header
    order; each one is decompressed ([payload] gives its bytes, or
    raises for a corrupt folder) and its bytes go to its sink. *)
Fixpoint sequential_extract (payload : nat -> result (list byte))
         (regs : list (nat * Worker.sink)) (buffers : nat -> list byte)
         (w : fs) : result (nat -> list byte) * fs :=
  match regs with
  | [] => (Ok buffers, w)
  | (id, s) :: rest =>
      match payload id with
      | Raise e => (Raise e, w)
      | Ok data =>
          match s with
          | Worker.SinkNone => sequential_extract payload rest buffers w
          | Worker.SinkPath p =>
              sequential_extract payload rest buffers (write_file p data w)
          | Worker.SinkBuffer =>
              sequential_extract payload rest
                (fun i => if Nat.eqb i id then data else buffers i) w
          end
      end
  end.

Definition Worker_extract (payload : nat -> result (list byte))
           (wk : Worker.t) (f : File.t) (multithread : option bool) (w : fs)
  : result (nat -> list byte) * File.t * fs :=
  let '(r, w1) :=
    sequential_extract payload (Worker.target_filepath wk) (fun _ => []) w in
  (r, f, w1).

(** Strings here are byte strings already. *)
Definition decode_utf8 (bs : list byte) : result string :=
  Ok (string_of_list_byte bs).

(** Seconds since the Unix epoch from 100 ns ticks since 1601-01-01. *)
Definition filetime_to_dt (t : Z) : Z := (t / 10000000 - 11644473600)%Z.

(** The instance, for a given metadata decoder and given payloads. *)
Definition externals
           (decode : list byte -> result (option Header.t))
           (payload : nat -> result (list byte)) : Externals :=
  Build_Externals
    (* helpers *)
    calculate_crc32 filetime_to_dt
    (fun t => Ok (option_map filetime_to_dt t))
    (* properties *)
    32248%positive
    (* archiveinfo *)
    SignatureHeader_retrieve
    (fun f buffer _ => (decode buffer, f))
    (* os, pathlib *)
    true (fun p => p) joinpath sorted_paths
    path_exists path_is_dir path_is_file
    (fun p => create p Dir) (fun p => create p Dir)
    (fun dst src => create dst (Link src))
    (fun _ _ w => (Ok tt, w)) (fun _ _ w => (Ok tt, w))
    (fun _ _ => Ok 420%Z)
    decode_utf8
    (* compression *)
    (Worker_extract payload).

End SpecModel.

(* ------------------------------------------------------------------ *)
(** ** Example archives *)

Module Examples.

Definition copy_coder : Coder.t := Coder.mk [x00] None.
Definition lzma_coder : Coder.t := Coder.mk [x03; x01; x01] None.
(** A coder with two input streams, as in a BCJ2 chain. *)
Definition two_input_coder : Coder.t := Coder.mk [x03; x03; x01; x1b] (Some 2).

(** One solid LZMA folder holding two files of four bytes each, packed
    into one stream of 20 bytes; the archive also has a directory. *)
Definition solid_header : Header.t :=
  Header.mk
    (Some (StreamsInfo.mk
             (PackInfo.mk 0 1 [20%Z] None [0%Z])
             (UnpackInfo.mk 1 [Folder.mk [lzma_coder] [8%Z] false None])
             (SubstreamsInfo.mk [2] (Some [4%Z; 4%Z]) [false; false] [])))
    None 0.

Definition solid_records : list FI.t :=
  [ FI.parsed (Some "a"%string) false (Some 0x20%Z) (Some 132223104000000000%Z);
    FI.parsed None false (Some 0x20%Z) None;
    FI.parsed (Some "d"%string) true (Some 0x10%Z) None ].

(** One folder with a single file, whose coder chain has two input
    streams of 10 and 5 packed bytes. *)
Definition two_input_header : Header.t :=
  Header.mk
    (Some (StreamsInfo.mk
             (PackInfo.mk 0 2 [10%Z; 5%Z] None [0%Z; 10%Z])
             (UnpackInfo.mk 1
                [Folder.mk [two_input_coder; lzma_coder] [30%Z; 30%Z]
                   false None])
             (SubstreamsInfo.mk [1] (Some [30%Z]) [false] [])))
    None 0.

Definition two_input_records : list FI.t :=
  [ FI.parsed (Some "prog.exe"%string) false (Some 0x20%Z) None ].

(** Two stored files in two folders of their own, one pack stream
    each. *)
Definition two_folder_streams : StreamsInfo.t :=
  StreamsInfo.mk
    (PackInfo.mk 0 2 [6%Z; 4%Z] None [0%Z; 6%Z])
    (UnpackInfo.mk 2 [Folder.mk [copy_coder] [6%Z] false None;
                      Folder.mk [copy_coder] [4%Z] false None])
    (SubstreamsInfo.mk [1; 1] (Some [6%Z; 4%Z]) [false; false] []).

Definition two_folder_header : Header.t :=
  Header.mk (Some two_folder_streams) None 0.

(** Scenario S6: the second entry tries to leave the target. *)
Definition escape_records : list FI.t :=
  [ FI.parsed (Some "hello.txt"%string) false (Some 0x20%Z) None;
    FI.parsed (Some "../evil"%string) false (Some 0x20%Z) None ].

(** The same directory entry twice, then two files. *)
Definition twice_dir_records : list FI.t :=
  [ FI.parsed (Some "d"%string) true (Some 0x10%Z) None;
    FI.parsed (Some "d"%string) true (Some 0x10%Z) None;
    FI.parsed (Some "a"%string) false (Some 0x20%Z) None;
    FI.parsed (Some "b"%string) false (Some 0x20%Z) None ].

(** Two files under one name. *)
Definition same_name_records : list FI.t :=
  [ FI.parsed (Some "a"%string) false (Some 0x20%Z) None;
    FI.parsed (Some "a"%string) false (Some 0x20%Z) None ].

(** One stored file of no bytes: a pack stream of length 0 whose CRC
    is recorded as 0, the CRC-32 of the empty string. *)
Definition zero_pack_header : Header.t :=
  Header.mk
    (Some (StreamsInfo.mk
             (PackInfo.mk 0 1 [0%Z] (Some [0%Z]) [32%Z])
             (UnpackInfo.mk 1 [Folder.mk [copy_coder] [0%Z] false None])
             (SubstreamsInfo.mk [1] (Some [0%Z]) [false] [])))
    None 0.

Definition zero_pack_records : list FI.t :=
  [ FI.parsed (Some "nothing.bin"%string) false (Some 0x20%Z) None ].

(** An entry that has a stream and the Windows DIRECTORY bit. *)
Definition stream_with_directory_bit : ArchiveFile.t :=
  ArchiveFile.mk 0 (FI.parsed (Some "f"%string) false (Some 0x10%Z) None).

(** An empty-stream entry whose attributes carry only the POSIX
    extension, with mode [S_IFDIR | 0o755]. *)
Definition posix_only_directory : ArchiveFile.t :=
  ArchiveFile.mk 0
    (FI.parsed (Some "d"%string) true
       (Some (Z.lor FileAttribute.UNIX_EXTENSION
                (Z.shiftl (Z.lor stat.S_IFDIR 493) 16)))
       None).

End Examples.

(** Handles built on the example archives, with the collaborators of
    [SpecModel]. *)
Module ExampleHandles.

(** Collaborators for an archive whose payloads all decode to [data]. *)
Definition plain (data : list byte) : Externals :=
  SpecModel.externals (fun _ => Ok None) (fun _ => Ok data).

(** Collaborators for an archive in which the file with id [i] decodes
    to [i] bytes [41]. *)
Definition numbered : Externals :=
  SpecModel.externals (fun _ => Ok None) (fun i => Ok (repeat x41 i)).

(** The handle that opening leaves for an archive called [name], 32
    bytes of signature header, whose metadata decodes to [header] with
    the file records [records]: [_assign_contents] followed by
    [reset]. *)
Definition opened (name : string) (header : Header.t) (records : list FI.t)
  : SevenZipFile.t :=
  let s0 :=
    SevenZipFile.mk (File.mk [] 32 false) false 1 (Some name) mode_r false
      None None None None None in
  let h := Header.mk (Header.main_streams header)
             (Some (FilesInfo.mk records)) (Header.size header) in
  match bind (SevenZipFile._assign_contents s0 (File.mk [] 32 false)
                (SignatureHeader.mk (0%Z, 4%Z) 0 0 0 0) 32 h)
             SevenZipFile.reset with
  | Ok s => s
  | Raise _ => s0
  end.

Definition solid_files : list FI.t :=
  match SevenZipFile.files
          (opened "ab.7z" Examples.solid_header Examples.solid_records) with
  | Some fl => fl
  | None => []
  end.

Definition solid_handle : SevenZipFile.t :=
  opened "ab.7z" Examples.solid_header Examples.solid_records.

Definition escape_handle : SevenZipFile.t :=
  opened "s6.7z" Examples.two_folder_header Examples.escape_records.

Definition twice_dir_handle : SevenZipFile.t :=
  opened "dd.7z" Examples.two_folder_header Examples.twice_dir_records.

Definition same_name_handle : SevenZipFile.t :=
  opened "aa.7z" Examples.two_folder_header Examples.same_name_records.

Definition zero_pack_handle : SevenZipFile.t :=
  opened "zero.7z" Examples.zero_pack_header Examples.zero_pack_records.

End ExampleHandles.

(** Archives as byte strings. *)
Module ExampleArchives.

(** The minimal empty archive: the magic, version 0.4, the CRC of the
    start header, and a start header of twenty zero bytes
    ([next_header_offset = next_header_size = next_header_crc = 0]). *)
Definition empty_archive : list byte :=
  [x37; x7a; xbc; xaf; x27; x1c; x00; x04]
    ++ [x8d; x9b; xd5; x0f]
    ++ repeat x00 20.

(** A start header that announces two metadata bytes with CRC 0,
    followed by the two bytes [01 00], whose CRC is not 0. *)
Definition bad_header_crc_archive : list byte :=
  [x37; x7a; xbc; xaf; x27; x1c; x00; x04]
    ++ [x12; x05; xee; xe3]
    ++ repeat x00 8
    ++ [x02; x00; x00; x00; x00; x00; x00; x00]
    ++ [x00; x00; x00; x00]
    ++ [x01; x00].

End ExampleArchives.

(* ------------------------------------------------------------------ *)
(** ** Notions and inputs used to state further properties *)

(** Do the bytes begin with the magic? *)
Definition starts_with_magic (data : list byte) : bool :=
  if list_eq_dec Byte.byte_eq_dec MAGIC_7Z (firstn (List.length MAGIC_7Z) data)
  then true else false.

Module OtherInputs.

(** The first bytes of a ZIP archive. *)
Definition zip_bytes : list byte :=
  [x50; x4b; x03; x04; x14; x00; x00; x00].

(** A file cut off inside the magic. *)
Definition cut_off_bytes : list byte := [x37; x7a; xbc].

(** Two stored files in folders of their own, both with a recorded
    CRC, after a directory entry. *)
Definition digest_header : Header.t :=
  Header.mk
    (Some (StreamsInfo.mk
             (PackInfo.mk 0 2 [6%Z; 4%Z] None [0%Z; 6%Z])
             (UnpackInfo.mk 2
                [Folder.mk [Examples.copy_coder] [6%Z] false None;
                 Folder.mk [Examples.copy_coder] [4%Z] false None])
             (SubstreamsInfo.mk [1; 1] (Some [6%Z; 4%Z]) [true; true]
                [0x11111111%Z; 0x22222222%Z])))
    None 0.

Definition digest_records : list FI.t :=
  [ FI.parsed (Some "d"%string) true (Some 0x10%Z) None;
    FI.parsed (Some "d/a"%string) false (Some 0x20%Z) (Some 5%Z);
    FI.parsed (Some "d/b"%string) false (Some 0x21%Z) None ].



(** An entry without attributes. *)
Definition bare_entry : ArchiveFile.t :=
  ArchiveFile.mk 0 (FI.parsed (Some "x"%string) false None None).

(** A small tree on a POSIX system: the directory [src] holds [b.txt],
    [a.txt] and the directory [sub], which holds [c.txt]; [link] is a
    symbolic link to a file. *)
Definition mem_name (s : string) (l : list string) : bool :=
  existsb (String.eqb s) l.

Fixpoint insert_name (s : string) (l : list string) : list string :=
  match l with
  | [] => [s]
  | x :: r => if String.leb s x then s :: l else x :: insert_name s r
  end.

Definition sort_names (l : list string) : list string :=
  fold_right insert_name [] l.

Definition tree : TargetOS :=
  Build_TargetOS true (fun s => s)
    (fun p => mem_name p ["src"; "src/sub"]%string)
    (fun p => String.eqb p "link")
    (fun p => mem_name p ["src/a.txt"; "src/b.txt"; "src/sub/c.txt"]%string)
    (fun _ => 3%Z)
    (fun p nm => (p ++ "/" ++ nm)%string)
    (fun p => if String.eqb p "src" then Ok ["b.txt"; "sub"; "a.txt"]%string
              else if String.eqb p "src/sub" then Ok ["c.txt"%string]
              else Raise (OSError 20))
    sort_names.

(** Collaborators whose header decoder returns [h] for any metadata,
    and the solid example header with its file records attached. *)
Definition decoding (h : Header.t) : Externals :=
  SpecModel.externals (fun _ => Ok (Some h)) (fun _ => Ok []).

Definition solid_with_records : Header.t :=
  Header.mk (Header.main_streams Examples.solid_header)
    (Some (FilesInfo.mk Examples.solid_records)) 0.

End OtherInputs.


(* ================================================================== *)
(** * Properties *)

(** ** Generic facts *)

Ltac break_match_hyp H :=
  match type of H with
  | context [match ?x with _ => _ end] => destruct x eqn:?
  end.

Ltac break_binds H :=
  unfold bind in H;
  repeat (break_match_hyp H; try discriminate H).

Lemma bind_ok {A B : Type} (m : result A) (k : A -> result B) (b : B) :
  bind m k = Ok b -> exists a, m = Ok a /\ k a = Ok b.
Proof.
  destruct m as [a|e]; simpl; intros H; [eauto | discriminate].
Qed.

Lemma index_ok {A : Type} (l : list A) (i : nat) (a : A) :
  index l i = Ok a <-> nth_error l i = Some a.
Proof.
  unfold index. destruct (nth_error l i); split; congruence.
Qed.

Lemma index_lt {A : Type} (l : list A) (i : nat) (a : A) :
  index l i = Ok a -> i < List.length l.
Proof.
  intros H. apply index_ok in H. apply nth_error_Some. congruence.
Qed.

Lemma nth_error_set_nth {A : Type} (l : list A) (i : nat) (v : A) :
  i < List.length l -> nth_error (set_nth l i v) i = Some v.
Proof.
  revert i. induction l as [|h t IH]; intros [|i] Hlt; simpl in *; try lia.
  - reflexivity.
  - apply IH. lia.
Qed.

Lemma length_set_nth {A : Type} (l : list A) (i : nat) (v : A) :
  List.length (set_nth l i v) = List.length l.
Proof.
  revert i. induction l as [|h t IH]; intros [|i]; simpl; auto.
Qed.

Lemma sumZ_singleton (z : Z) : sumZ [z] = z.
Proof. unfold sumZ. simpl. lia. Qed.

Lemma slice_one {A : Type} (l : list A) (i : nat) (a : A) :
  nth_error l i = Some a -> slice l i 1 = [a].
Proof.
  unfold slice. revert i. induction l as [|h t IH]; intros [|i] H; simpl in *;
    try discriminate.
  - injection H as ->. reflexivity.
  - apply IH. exact H.
Qed.

Lemma fold_left_add_repeat (s : Z) (n : nat) (acc : Z) :
  fold_left Z.add (repeat s n) acc = (acc + Z.of_nat n * s)%Z.
Proof.
  revert acc. induction n as [|n IH]; intros acc.
  - simpl. lia.
  - cbn [repeat fold_left]. rewrite IH. lia.
Qed.

(** [reduce(operator.add, [s] * C)] is [C * s] as soon as [C >= 1]. *)
Lemma reduce_add_repeat (s : Z) (C : nat) :
  1 <= C -> reduce_add (repeat s C) = Ok (Z.of_nat C * s)%Z.
Proof.
  destruct C as [|C]; [lia|]. intros _.
  cbn [repeat reduce_add]. rewrite fold_left_add_repeat. f_equal. lia.
Qed.

Lemma reduce_add_nil : reduce_add [] = Raise TypeError.
Proof. reflexivity. Qed.

(** ** Paths *)

Lemma substring_whole (s : string) : substring 0 (String.length s) s = s.
Proof. induction s as [|c r IH]; simpl; [reflexivity|]. rewrite IH. reflexivity. Qed.

Lemma take_drop (n : nat) (s : string) :
  (os_path.take n s ++ os_path.drop n s)%string = s.
Proof.
  unfold os_path.take, os_path.drop. revert n.
  induction s as [|c r IH]; intros [|n]; simpl; try reflexivity.
  - rewrite substring_whole. reflexivity.
  - f_equal. apply IH.
Qed.

Lemma splitext_concat (p : string) :
  (fst (os_path.splitext p) ++ snd (os_path.splitext p))%string = p.
Proof.
  unfold os_path.splitext.
  destruct (os_path.rfind "/" p <? os_path.rfind "." p)%Z.
  - destruct (os_path.has_non_dot _ _ _); simpl.
    + apply take_drop.
    + clear. induction p; simpl; congruence.
  - simpl. clear. induction p; simpl; congruence.
Qed.

(** [rfind] returns the last position, or the default. *)
Lemma rfind_from_spec (c : ascii) (s : string) :
  forall (i found : Z),
    (os_path.rfind_from c s i found = found
     /\ forall k, k < String.length s -> String.get k s <> Some c)
    \/ exists k,
        k < String.length s
        /\ os_path.rfind_from c s i found = (i + Z.of_nat k)%Z
        /\ String.get k s = Some c
        /\ forall j, k < j -> String.get j s <> Some c.
Proof.
  induction s as [|a r IH]; intros i found.
  - left. split; [reflexivity|]. simpl. intros; lia.
  - simpl. destruct (Ascii.eqb a c) eqn:Hac; cbv iota.
    + apply Ascii.eqb_eq in Hac. subst a.
      destruct (IH (i + 1)%Z i)
        as [[Heq Hno]|[k [Hk [Heq [Hget Hlast]]]]].
      * right. exists 0. repeat split; try lia.
        intros [|j] Hj; [lia|]. simpl.
        destruct (Nat.lt_ge_cases j (String.length r)) as [Hlt|Hge].
        -- apply Hno. exact Hlt.
        -- clear - Hge. revert j Hge. induction r as [|b r IHr]; intros j Hge.
           ++ destruct j; discriminate.
           ++ destruct j as [|j]; simpl in *; [lia|]. apply IHr. lia.
      * right. exists (S k). repeat split; try lia; [exact Hget|].
        intros [|j] Hj; [lia|]. simpl. apply Hlast. lia.
    + apply Ascii.eqb_neq in Hac.
      destruct (IH (i + 1)%Z found)
        as [[Heq Hno]|[k [Hk [Heq [Hget Hlast]]]]].
      * left. split; [exact Heq|]. intros [|k] Hk; simpl.
        -- congruence.
        -- apply Hno. lia.
      * right. exists (S k). repeat split; try lia; [exact Hget|].
        intros [|j] Hj; [lia|]. simpl. apply Hlast. lia.
Qed.

Lemma get_drop (n j : nat) (s : string) :
  String.get j (os_path.drop n s) =
  if Nat.ltb (n + j) (String.length s) then String.get (n + j) s else None.
Proof.
  unfold os_path.drop.
  destruct (Nat.ltb_spec (n + j) (String.length s)) as [Hlt|Hge].
  - rewrite substring_correct1 by lia. f_equal. lia.
  - apply substring_correct2. lia.
Qed.

(** The base name holds no slash. *)
Lemma basename_no_slash (p : string) (j : nat) :
  String.get j (os_path.basename p) <> Some "/"%char.
Proof.
  unfold os_path.basename, os_path.rfind. rewrite get_drop.
  destruct (Nat.ltb_spec (Z.to_nat (os_path.rfind_from "/" p 0 (-1) + 1) + j)
              (String.length p)) as [Hlt|Hge]; [|discriminate].
  destruct (rfind_from_spec "/" p 0 (-1))
    as [[Heq Hno]|[k [Hk [Heq [Hget Hlast]]]]].
  - apply Hno. exact Hlt.
  - apply Hlast. rewrite Heq. lia.
Qed.

(** The base name is what follows the last slash. *)
Lemma basename_suffix (p : string) :
  exists d, (d ++ os_path.basename p)%string = p.
Proof.
  exists (os_path.take (Z.to_nat (os_path.rfind "/" p + 1)) p).
  apply take_drop.
Qed.

(** When an extension is split off, it begins with the last dot of the
    name, and that dot is not the first character of the base name. *)
Lemma splitext_ext (p root ext : string) :
  os_path.splitext p = (root, ext) ->
  ext = EmptyString
  \/ (String.get 0 ext = Some "."%char
      /\ forall j, 0 < j -> String.get j ext <> Some "."%char
                            /\ String.get j ext <> Some "/"%char).
Proof.
  unfold os_path.splitext, os_path.rfind.
  destruct (Z.ltb_spec (os_path.rfind_from "/" p 0 (-1))
                       (os_path.rfind_from "." p 0 (-1))) as [Hlt|Hge].
  - destruct (os_path.has_non_dot _ _ _).
    + intros H. injection H as <- <-. right.
      destruct (rfind_from_spec "." p 0 (-1))
        as [[Heq Hno]|[k [Hk [Heq [Hget Hlast]]]]].
      * exfalso. destruct (rfind_from_spec "/" p 0 (-1))
          as [[Heq' _]|[k' [_ [Heq' _]]]]; lia.
      * rewrite Heq. replace (Z.to_nat (0 + Z.of_nat k)) with k by lia.
        split.
        -- rewrite get_drop. replace (k + 0) with k by lia.
           destruct (Nat.ltb_spec k (String.length p)); [exact Hget|lia].
        -- intros j Hj. rewrite get_drop.
           destruct (Nat.ltb_spec (k + j) (String.length p)) as [Hin|Hout];
             [|split; discriminate].
           split; [apply Hlast; lia|].
           destruct (rfind_from_spec "/" p 0 (-1))
             as [[Heq' Hno']|[k' [Hk' [Heq' [_ Hlast']]]]].
           ++ apply Hno'. exact Hin.
           ++ apply Hlast'. lia.
    + intros H. injection H as <- <-. left. reflexivity.
  - intros H. injection H as <- <-. left. reflexivity.
Qed.

Example basename_example :
  os_path.basename "backup/2019/photos.tar.7z" = "photos.tar.7z"%string.
Proof. reflexivity. Qed.

Example splitext_example :
  os_path.splitext "photos.tar.7z" = ("photos.tar", ".7z")%string.
Proof. reflexivity. Qed.

Example splitext_leading_dot : os_path.splitext ".hidden" = (".hidden", EmptyString)%string.
Proof. reflexivity. Qed.

Example splitext_dot_in_directory :
  os_path.splitext "v1.2/readme" = ("v1.2/readme", EmptyString)%string.
Proof. reflexivity. Qed.

(** ** The reconstructor, one record at a time *)

Section RetrieveFacts.
Import Retrieve.

Variable e : env.

Lemma loop_app (pre post : list FI.t) (st : state) (file_id : nat) :
  loop e st file_id (pre ++ post) =
  bind (loop e st file_id pre)
       (fun st1 => loop e st1 (file_id + List.length pre) post).
Proof.
  revert st file_id. induction pre as [|fi pre IH]; intros st file_id.
  - simpl. f_equal. lia.
  - simpl. destruct (step e st file_id fi) as [st1|ex]; simpl; [|reflexivity].
    rewrite IH. replace (S file_id + List.length pre)
      with (file_id + S (List.length pre)) by lia. reflexivity.
Qed.

(** Every round appends exactly one record to [self.files]. *)
Lemma step_appends (st st1 : state) (file_id : nat) (fi : FI.t) :
  step e st file_id fi = Ok st1 ->
  exists fi', files st1 = files st ++ [fi'].
Proof.
  unfold step. intros H.
  destruct (negb (FI.emptystream fi)); [destruct (ms e) as [m|]|].
  - apply bind_ok in H. destruct H as [[[fi1 folder] n] [_ H]].
    unfold finish_stream in H. break_binds H;
      injection H as <-; simpl; eauto.
  - injection H as <-. simpl. eauto.
  - injection H as <-. simpl. eauto.
Qed.

Lemma loop_files_prefix (l : list FI.t) (st stf : state) (file_id : nat) :
  loop e st file_id l = Ok stf ->
  exists added, files stf = files st ++ added
                /\ List.length added = List.length l.
Proof.
  revert st file_id. induction l as [|fi l IH]; intros st file_id H.
  - injection H as <-. exists []. rewrite app_nil_r. auto.
  - simpl in H. apply bind_ok in H. destruct H as [st1 [Hs Hl]].
    destruct (step_appends _ _ _ Hs) as [fi' Hf].
    destruct (IH _ _ Hl) as [added [Ha Hlen]].
    exists (fi' :: added). rewrite Ha, Hf, <- app_assoc. simpl. auto.
Qed.

(** The [k]-th record of a successful run was handled from the state
    that the first [k] records leave, and what that round appended is
    the [k]-th entry of the final list. *)
Lemma loop_nth (records : list FI.t) (st0 stf : state) (k : nat) (fi : FI.t) :
  files st0 = [] ->
  loop e st0 0 records = Ok stf ->
  nth_error records k = Some fi ->
  exists st st1 fi',
    loop e st0 0 (firstn k records) = Ok st
    /\ step e st k fi = Ok st1
    /\ files st1 = files st ++ [fi']
    /\ List.length (files st) = k
    /\ nth_error (files stf) k = Some fi'.
Proof.
  intros Hnil Hloop Hnth.
  assert (Hk : k < List.length records)
    by (apply nth_error_Some; congruence).
  destruct (nth_error_split records k Hnth) as [pre [post [Hrec Hlen]]].
  assert (Hpre : firstn k records = pre).
  { rewrite Hrec, <- Hlen. rewrite firstn_app, firstn_all.
    replace (List.length pre - List.length pre) with 0 by lia.
    simpl. apply app_nil_r. }
  rewrite Hrec, loop_app in Hloop.
  apply bind_ok in Hloop. destruct Hloop as [st [Hst Hrest]].
  simpl in Hrest. apply bind_ok in Hrest. destruct Hrest as [st1 [Hstep Hpost]].
  simpl in Hstep. rewrite Hlen in Hstep.
  destruct (step_appends _ _ _ Hstep) as [fi' Hfi'].
  destruct (loop_files_prefix _ _ _ Hst) as [a1 [Ha1 Hl1]].
  destruct (loop_files_prefix _ _ _ Hpost) as [a2 [Ha2 _]].
  exists st, st1, fi'. rewrite Hpre.
  repeat split; auto.
  - rewrite Ha1, Hnil. simpl. lia.
  - rewrite Ha2, Hfi', <- app_assoc. simpl.
    rewrite nth_error_app2; rewrite Ha1, Hnil; simpl; try lia.
    replace (k - List.length a1) with 0 by lia. reflexivity.
Qed.

End RetrieveFacts.

Section RetrieveStep.
Import Retrieve.

Variable e : env.
Variable m : StreamsInfo.t.
Hypothesis Hms : ms e = Some m.


(** What one round does with a record that has a stream. *)
Lemma step_stream (st st1 : state) (file_id : nat) (fi : FI.t) :
  FI.emptystream fi = false ->
  step e st file_id fi = Ok st1 ->
  exists folder0 n u fi',
    nth_error (folders st) (folder_index st) = Some folder0
    /\ nth_error (SubstreamsInfo.num_unpackstreams_folders (StreamsInfo.substreamsinfo m))
                 (folder_index st) = Some n
    /\ nth_error (unpacksizes e) (output_binary_index st) = Some u
    /\ files st1 = files st ++ [fi']
    /\ FI.emptystream fi' = false
    /\ FI.uncompressed fi' = Some (uncompressed_of u folder0)
    /\ FI.compressed fi' =
         Some (if Nat.ltb 0 (file_in_solid st) then PNone
               else match nth_error (packsizes e) (instreamindex st) with
                    | Some p => PInt p
                    | None => PList (uncompressed_of u folder0)
                    end)
    /\ FI.packsizes fi' =
         Some (slice (packsizes e) (instreamindex st)
                 (max_numinstreams (Folder.coders folder0)))
    /\ FI.folder fi' = Some (Some (folder_index st))
    /\ FI.filename fi' =
         Some (match FI.filename fi with
               | Some name => name
               | None => default_filename (basefilename e)
               end)
    /\ (if Nat.leb n (S (streamidx st)) then
          streamidx st1 = 0 /\ file_in_solid st1 = 0
          /\ folder_index st1 = S (folder_index st)
          /\ instreamindex st1 =
               instreamindex st + max_numinstreams (Folder.coders folder0)
        else
          streamidx st1 = S (streamidx st)
          /\ file_in_solid st1 =
               (if solid_seen st folder0 n then 1 else file_in_solid st)
          /\ folder_index st1 = folder_index st
          /\ instreamindex st1 = instreamindex st
          /\ exists folder1,
               nth_error (folders st1) (folder_index st) = Some folder1
               /\ Folder.solid folder1 = solid_seen st folder0 n).
Proof.
  intros Hempty Hstep. unfold step in Hstep. rewrite Hempty, Hms in Hstep.
  simpl negb in Hstep. cbv iota in Hstep.
  apply bind_ok in Hstep. destruct Hstep as [[[fi1 folder] nin] [Hfill Hfin]].
  unfold fill_stream in Hfill.
  apply bind_ok in Hfill. destruct Hfill as [folder0 [Hf0 Hfill]].
  apply bind_ok in Hfill. destruct Hfill as [folder' [Hfolder Hfill]].
  apply bind_ok in Hfill. destruct Hfill as [maxsize [_ Hfill]].
  apply bind_ok in Hfill. destruct Hfill as [u [Hu Hfill]].
  injection Hfill as Hfi1 Hfold Hnin.
  unfold finish_stream in Hfin.
  apply bind_ok in Hfin. destruct Hfin as [defined [_ Hfin]].
  apply bind_ok in Hfin. destruct Hfin as [fi2 [Hfi2 Hfin]].
  apply bind_ok in Hfin. destruct Hfin as [n [Hn Hfin]].
  assert (Hlt : folder_index st < List.length (folders st))
    by (eapply index_lt; eauto).
  assert (Hsolid : Folder.solid folder = solid_seen st folder0 n
                   /\ Folder.coders folder = Folder.coders folder0).
  { subst folder. unfold solid_seen.
    destruct (Nat.eqb (streamidx st) 0).
    - apply bind_ok in Hfolder. destruct Hfolder as [n' [Hn' Hfolder]].
      rewrite Hn in Hn'. injection Hn' as <-.
      injection Hfolder as <-. simpl. auto.
    - injection Hfolder as <-. auto. }
  destruct Hsolid as [Hsolid Hcoders].
  assert (Hfields :
    FI.emptystream fi2 = false
    /\ FI.uncompressed fi2 = Some (uncompressed_of u folder0)
    /\ FI.compressed fi2 =
         Some (if Nat.ltb 0 (file_in_solid st) then PNone
               else match nth_error (packsizes e) (instreamindex st) with
                    | Some p => PInt p
                    | None => PList (uncompressed_of u folder0)
                    end)
    /\ FI.packsizes fi2 =
         Some (slice (packsizes e) (instreamindex st)
                 (max_numinstreams (Folder.coders folder0)))
    /\ FI.folder fi2 = Some (Some (folder_index st))
    /\ FI.filename fi2 = FI.filename fi).
  { unfold uncompressed_of. rewrite <- Hcoders. subst fi1.
    destruct defined.
    - apply bind_ok in Hfi2. destruct Hfi2 as [d [_ Hfi2]].
      injection Hfi2 as <-. simpl. rewrite Hfold. repeat split; auto.
    - injection Hfi2 as <-. simpl. rewrite Hfold. repeat split; auto. }
  destruct Hfields as [He [Hunc [Hcomp [Hpk [Hfo Hname]]]]].
  exists folder0, n, u, (name_file (basefilename e) fi2).
  apply index_ok in Hf0, Hn, Hu.
  assert (Hnamed : forall f,
    FI.emptystream (name_file (basefilename e) f) = FI.emptystream f
    /\ FI.uncompressed (name_file (basefilename e) f) = FI.uncompressed f
    /\ FI.compressed (name_file (basefilename e) f) = FI.compressed f
    /\ FI.packsizes (name_file (basefilename e) f) = FI.packsizes f
    /\ FI.folder (name_file (basefilename e) f) = FI.folder f
    /\ FI.filename (name_file (basefilename e) f) =
         Some (match FI.filename f with
               | Some name => name
               | None => default_filename (basefilename e)
               end)).
  { intros f. unfold name_file. destruct (FI.filename f) eqn:Hf; simpl;
      repeat split; auto. }
  destruct (Hnamed fi2) as [N1 [N2 [N3 [N4 [N5 N6]]]]].
  rewrite N1, N2, N3, N4, N5, N6, Hname.
  repeat (split; [first [assumption | reflexivity] |]).
  split.
  { destruct (Nat.leb n (S (streamidx st))).
    - apply bind_ok in Hfin. destruct Hfin as [fp1 [_ Hfin]].
      injection Hfin as <-. reflexivity.
    - injection Hfin as <-. reflexivity. }
  repeat (split; [first [assumption | reflexivity] |]).
  destruct (Nat.leb n (S (streamidx st))).
  - apply bind_ok in Hfin. destruct Hfin as [fp1 [_ Hfin]].
    injection Hfin as <-. simpl. rewrite <- Hnin, Hfold, Hcoders. auto.
  - injection Hfin as <-. simpl. rewrite Hsolid.
    repeat split; auto.
    eexists. split.
    + apply nth_error_set_nth. exact Hlt.
    + destruct (Folder.files folder) as [[off l]|]; simpl; exact Hsolid.
Qed.

(** A record without a stream leaves the loop variables alone. *)
Lemma step_empty (st st1 : state) (file_id : nat) (fi : FI.t) :
  FI.emptystream fi = true ->
  step e st file_id fi = Ok st1 ->
  streamidx st1 = streamidx st /\ file_in_solid st1 = file_in_solid st
  /\ folder_index st1 = folder_index st /\ folders st1 = folders st
  /\ instreamindex st1 = instreamindex st
  /\ exists fi', files st1 = files st ++ [fi']
                 /\ FI.compressed fi' = Some (PInt 0)
                 /\ FI.uncompressed fi' = Some [0%Z]
                 /\ FI.folder fi' = Some None.
Proof.
  intros Hempty Hstep. unfold step in Hstep. rewrite Hempty in Hstep.
  simpl in Hstep. injection Hstep as <-. simpl.
  repeat split; auto. eexists. split; [reflexivity|].
  unfold name_file. destruct (FI.filename _); simpl; auto.
Qed.

Lemma step_position_inv (st st1 : state) (file_id : nat) (fi : FI.t) :
  position_inv (SubstreamsInfo.num_unpackstreams_folders (StreamsInfo.substreamsinfo m)) st ->
  step e st file_id fi = Ok st1 ->
  position_inv (SubstreamsInfo.num_unpackstreams_folders (StreamsInfo.substreamsinfo m)) st1.
Proof.
  intros Hinv Hstep. destruct (FI.emptystream fi) eqn:Hempty.
  - destruct (step_empty _ _ _ Hempty Hstep)
      as [H1 [H2 [H3 [H4 _]]]].
    unfold position_inv. rewrite H1, H2, H3, H4. exact Hinv.
  - destruct (step_stream _ _ _ Hempty Hstep)
      as [folder0 [n [u [fi' [Hf0 [Hn [_ [_ [_ [_ [_ [_ [_ [_ Hnext]]]]]]]]]]]]]].
    destruct (Nat.leb n (S (streamidx st))) eqn:Hle.
    + left. tauto.
    + apply Nat.leb_gt in Hle.
      destruct Hnext as [Hs [Hfs [Hfi [_ [folder1 [Hf1 Hsol]]]]]].
      right. rewrite Hs, Hfs, Hfi.
      assert (Hseen : solid_seen st folder0 n = true).
      { unfold solid_seen. destruct Hinv as [[H0 _]|[Hpos [_ Hx]]].
        - rewrite H0. simpl. apply Nat.ltb_lt. lia.
        - destruct Hx as [n' [folder' [_ [_ [Hf' Hsol']]]]].
          destruct (Nat.eqb_spec (streamidx st) 0); [lia|].
          congruence. }
      rewrite Hseen. split; [lia|]. split; [reflexivity|].
      exists n, folder1. rewrite Hsol. auto.
Qed.

Lemma loop_position_inv (l : list FI.t) (st stf : state) (file_id : nat) :
  position_inv (SubstreamsInfo.num_unpackstreams_folders (StreamsInfo.substreamsinfo m)) st ->
  loop e st file_id l = Ok stf ->
  position_inv (SubstreamsInfo.num_unpackstreams_folders (StreamsInfo.substreamsinfo m)) stf.
Proof.
  revert st file_id. induction l as [|fi l IH]; intros st file_id Hinv H.
  - injection H as <-. exact Hinv.
  - simpl in H. apply bind_ok in H. destruct H as [st1 [Hs Hl]].
    eapply IH; [|exact Hl]. eapply step_position_inv; eauto.
Qed.

End RetrieveStep.

(** ** The reconstructor, over a whole run *)

Section RetrieveRun.
Import Retrieve.

Lemma name_file_filename (b : option string) (f : FI.t) :
  FI.filename (name_file b f) =
  Some (match FI.filename f with
        | Some name => name
        | None => default_filename b
        end).
Proof.
  unfold name_file. destruct (FI.filename f) eqn:Hf; [exact Hf | reflexivity].
Qed.

Lemma step_filename (e : env) (st st1 : state) (file_id : nat) (fi : FI.t) :
  step e st file_id fi = Ok st1 ->
  exists fi',
    files st1 = files st ++ [fi']
    /\ FI.filename fi' =
         Some (match FI.filename fi with
               | Some name => name
               | None => default_filename (basefilename e)
               end).
Proof.
  intros Hstep.
  assert (Helse : step e st file_id fi
                  = Ok (finish_empty e st (fill_empty fi)) ->
                  exists fi',
                    files st1 = files st ++ [fi']
                    /\ FI.filename fi' =
                         Some (match FI.filename fi with
                               | Some name => name
                               | None => default_filename (basefilename e)
                               end)).
  { intros Heq. rewrite Heq in Hstep. injection Hstep as <-.
    eexists. split; [reflexivity|]. rewrite name_file_filename.
    reflexivity. }
  destruct (FI.emptystream fi) eqn:Hempty; [|destruct (ms e) as [m|] eqn:Hms].
  - apply Helse. unfold step. rewrite Hempty. reflexivity.
  - destruct (@step_stream e m Hms st st1 file_id fi Hempty Hstep)
      as [f0 [n [u [fi' [_ [_ [_ [Hf [_ [_ [_ [_ [_ [Hname _]]]]]]]]]]]]]].
    eauto.
  - apply Helse. unfold step. rewrite Hempty, Hms. reflexivity.
Qed.

Lemma init_position_inv (num : list nat) (afterheader : Z) (header : Header.t) :
  position_inv num (init_state afterheader header).
Proof. left. split; reflexivity. Qed.

(** Unfolding [_filelist_retrieve] into its loop. *)
Lemma retrieve_loop (name : option string) (afterheader : Z)
      (header : Header.t) (solid0 : bool) (records : list FI.t)
      (out : outcome) :
  _filelist_retrieve name afterheader header solid0 records = Ok out ->
  exists stf,
    loop (init_env name header) (init_state afterheader header) 0 records
    = Ok stf
    /\ out_files out = files stf /\ out_folders out = folders stf.
Proof.
  unfold _filelist_retrieve. intros H. apply bind_ok in H.
  destruct H as [stf [Hl H]]. injection H as <-. simpl. eauto.
Qed.

(** Every record comes out of a round with a name and its sizes. *)
Lemma step_assigned (e : env) (st st1 : state) (file_id : nat) (fi : FI.t) :
  step e st file_id fi = Ok st1 ->
  exists fi', files st1 = files st ++ [fi'] /\ assigned fi'.
Proof.
  intros Hstep.
  assert (Helse : step e st file_id fi
                  = Ok (finish_empty e st (fill_empty fi)) ->
                  exists fi', files st1 = files st ++ [fi'] /\ assigned fi').
  { intros Heq. rewrite Heq in Hstep. injection Hstep as <-.
    eexists. split; [reflexivity|]. unfold assigned.
    rewrite name_file_filename. unfold name_file.
    destruct (FI.filename _); simpl; repeat split; discriminate. }
  destruct (FI.emptystream fi) eqn:Hempty; [|destruct (ms e) as [m|] eqn:Hms].
  - apply Helse. unfold step. rewrite Hempty. reflexivity.
  - destruct (@step_stream e m Hms st st1 file_id fi Hempty Hstep)
      as [f0 [n [u [fi' [_ [_ [_ [Hf [_ [Hu [Hc [_ [_ [Hname _]]]]]]]]]]]]]].
    exists fi'. split; [exact Hf|]. unfold assigned.
    rewrite Hname, Hu, Hc. repeat split; discriminate.
  - apply Helse. unfold step. rewrite Hempty, Hms. reflexivity.
Qed.

Lemma loop_assigned (e : env) (l : list FI.t) :
  forall st stf file_id,
    loop e st file_id l = Ok stf ->
    Forall assigned (files st) -> Forall assigned (files stf).
Proof.
  induction l as [|fi l IH]; intros st stf file_id Hloop Hall.
  - injection Hloop as <-. exact Hall.
  - simpl in Hloop. apply bind_ok in Hloop. destruct Hloop as [st1 [Hs Hl]].
    apply (IH _ _ _ Hl).
    destruct (step_assigned _ _ _ _ Hs) as [fi' [-> Hfi']].
    apply Forall_app. split; [exact Hall|]. constructor; [exact Hfi'|constructor].
Qed.

(** After a successful run every record of [self.files] has a name, a
    list of uncompressed sizes and a compressed size. *)
Lemma retrieve_assigned (name : option string) (afterheader : Z)
      (header : Header.t) (solid0 : bool) (records : list FI.t)
      (out : outcome) :
  _filelist_retrieve name afterheader header solid0 records = Ok out ->
  Forall assigned (out_files out).
Proof.
  intros Hret. destruct (retrieve_loop _ _ _ _ _ Hret) as [stf [Hloop [-> _]]].
  apply (loop_assigned _ _ _ _ Hloop). constructor.
Qed.

End RetrieveRun.

Lemma slice_length_one {A : Type} (l : list A) (i n : nat) (p : A) :
  nth_error l i = Some p -> List.length (slice l i n) = 1 -> slice l i n = [p].
Proof.
  intros Hnth Hlen. unfold slice in *.
  destruct (nth_error_split l i Hnth) as [l1 [l2 [-> Hl1]]].
  rewrite skipn_app, skipn_all2 in * by lia.
  replace (i - List.length l1) with 0 in * by lia. simpl in *.
  destruct n as [|n]; simpl in *; [discriminate|].
  injection Hlen as Hlen. apply length_zero_iff_nil in Hlen.
  rewrite Hlen. reflexivity.
Qed.

(** C1 (as amended).  In an archive with main streams, a record that has a
    stream is handled at some position [streamidx] of its folder, whose
    substream count is [n].  On the first record of a folder, which is
    every record of a folder with at most one substream, [compressed] is
    the size of the pack stream at [instreamindex], the folder's first
    input stream; that is the sum of the folder's pack sizes when the
    folder has a single input stream.  On every later record, which only
    a solid folder has, [compressed] is [None]. *)
Theorem C1_compressed_by_position
        (name : option string) (afterheader : Z) (header : Header.t)
        (solid0 : bool) (records : list FI.t) (out : Retrieve.outcome)
        (m : StreamsInfo.t) (k : nat) (fi : FI.t) :
  Header.main_streams header = Some m ->
  Retrieve._filelist_retrieve name afterheader header solid0 records = Ok out ->
  nth_error records k = Some fi ->
  FI.emptystream fi = false ->
  exists st fi' n,
    Retrieve.loop (Retrieve.init_env name header)
      (Retrieve.init_state afterheader header) 0 (firstn k records) = Ok st
    /\ nth_error (Retrieve.out_files out) k = Some fi'
    /\ FI.folder fi' = Some (Some (Retrieve.folder_index st))
    /\ nth_error (SubstreamsInfo.num_unpackstreams_folders
                    (StreamsInfo.substreamsinfo m))
                 (Retrieve.folder_index st) = Some n
    /\ (n <= 1 -> Retrieve.streamidx st = 0)
    /\ (Retrieve.streamidx st = 0 ->
        forall p,
          nth_error (PackInfo.packsizes (StreamsInfo.packinfo m))
                    (Retrieve.instreamindex st) = Some p ->
          FI.compressed fi' = Some (PInt p)
          /\ forall ps, FI.packsizes fi' = Some ps -> List.length ps = 1 ->
                        FI.compressed fi' = Some (PInt (sumZ ps)))
    /\ (0 < Retrieve.streamidx st ->
        1 < n /\ FI.compressed fi' = Some PNone).
Proof.
  intros Hm Hret Hnth Hempty.
  destruct (retrieve_loop _ _ _ _ _ Hret) as [stf [Hloop [Hfiles _]]].
  set (e := Retrieve.init_env name header) in *.
  assert (Hms : Retrieve.ms e = Some m)
    by (unfold e, Retrieve.init_env; rewrite Hm; reflexivity).
  assert (Hpk : Retrieve.packsizes e = PackInfo.packsizes (StreamsInfo.packinfo m))
    by (unfold e, Retrieve.init_env; rewrite Hm; reflexivity).
  destruct (@loop_nth e records (Retrieve.init_state afterheader header)
              stf k fi eq_refl Hloop Hnth)
    as [st [st1 [fi' [Hpre [Hstep [Happ [_ Hk]]]]]]].
  pose proof (@loop_position_inv e m Hms _ _ _ _
                (init_position_inv _ afterheader header) Hpre) as Hinv.
  destruct (@step_stream e m Hms st st1 k fi Hempty Hstep)
    as [f0 [n [u [fi2 [Hf0 [Hn [_ [Happ2 [_ [_ [Hcomp [Hpks [Hfold _]]]]]]]]]]]]].
  rewrite Happ in Happ2. apply app_inj_tail in Happ2. destruct Happ2 as [_ <-].
  exists st, fi', n. rewrite Hfiles.
  repeat (split; [assumption|]).
  split; [|split].
  - intros Hn1. destruct Hinv as [[H0 _]|[_ [_ [n' [f' [Hn' [Hlt _]]]]]]]; [exact H0|].
    rewrite Hn in Hn'. injection Hn' as <-. lia.
  - intros H0 p Hp.
    assert (Hfs : Retrieve.file_in_solid st = 0).
    { destruct Hinv as [[_ H]|[Hpos _]]; [exact H | lia]. }
    rewrite Hfs, Hpk, Hp in Hcomp. simpl in Hcomp. split; [exact Hcomp|].
    intros ps Hps Hlen. rewrite Hpks in Hps. injection Hps as <-.
    rewrite Hpk in *. rewrite (slice_length_one _ _ _ Hp Hlen).
    rewrite sumZ_singleton. exact Hcomp.
  - intros Hpos.
    destruct Hinv as [[H0 _]|[_ [Hfs [n' [f' [Hn' [Hlt _]]]]]]]; [lia|].
    rewrite Hn in Hn'. injection Hn' as <-. split; [lia|].
    rewrite Hfs in Hcomp. exact Hcomp.
Qed.

(** C8.  A record parsed without a name is stored under the archive's
    base file name with its extension removed, and under the literal
    [contents] when the archive has no name. *)
Theorem C8_default_name
        (name : option string) (afterheader : Z) (header : Header.t)
        (solid0 : bool) (records : list FI.t) (out : Retrieve.outcome)
        (k : nat) (fi : FI.t) :
  Retrieve._filelist_retrieve name afterheader header solid0 records = Ok out ->
  nth_error records k = Some fi ->
  FI.filename fi = None ->
  exists fi',
    nth_error (Retrieve.out_files out) k = Some fi'
    /\ (forall b, name = Some b ->
          FI.filename fi' =
          Some (fst (os_path.splitext (os_path.basename b))))
    /\ (name = None -> FI.filename fi' = Some "contents"%string).
Proof.
  intros Hret Hnth Hnone.
  destruct (retrieve_loop _ _ _ _ _ Hret) as [stf [Hloop [Hfiles _]]].
  destruct (@loop_nth _ records (Retrieve.init_state afterheader header)
              stf k fi eq_refl Hloop Hnth)
    as [st [st1 [fi' [_ [Hstep [Happ [_ Hk]]]]]]].
  destruct (step_filename _ _ _ _ Hstep) as [fi2 [Happ2 Hname]].
  rewrite Happ in Happ2. apply app_inj_tail in Happ2. destruct Happ2 as [_ <-].
  exists fi'. rewrite Hfiles. split; [exact Hk|].
  rewrite Hnone in Hname.
  assert (Hb : Retrieve.basefilename (Retrieve.init_env name header) = name)
    by (unfold Retrieve.init_env; destruct (Header.main_streams header);
        reflexivity).
  rewrite Hb in Hname. split.
  - intros b ->. exact Hname.
  - intros ->. exact Hname.
Qed.

(** C10.  For a record with a stream whose unpack size is the single
    integer [s], in a folder with [C] coders, the stored [uncompressed] is
    [[s] * C]; so [uncompressed_size] is [C * s] (a folder has at least
    one coder). *)
Theorem C10_uncompressed_repeated
        (name : option string) (afterheader : Z) (header : Header.t)
        (solid0 : bool) (records : list FI.t) (out : Retrieve.outcome)
        (m : StreamsInfo.t) (k : nat) (fi : FI.t) :
  Header.main_streams header = Some m ->
  Retrieve._filelist_retrieve name afterheader header solid0 records = Ok out ->
  nth_error records k = Some fi ->
  FI.emptystream fi = false ->
  exists st folder u fi',
    Retrieve.loop (Retrieve.init_env name header)
      (Retrieve.init_state afterheader header) 0 (firstn k records) = Ok st
    /\ nth_error (Retrieve.folders st) (Retrieve.folder_index st) = Some folder
    /\ nth_error (Retrieve.unpacksizes (Retrieve.init_env name header))
                 (Retrieve.output_binary_index st) = Some u
    /\ nth_error (Retrieve.out_files out) k = Some fi'
    /\ FI.folder fi' = Some (Some (Retrieve.folder_index st))
    /\ forall s, u = USingle s ->
         let C := List.length (Folder.coders folder) in
         FI.uncompressed fi' = Some (repeat s C)
         /\ (1 <= C ->
             ArchiveFile.uncompressed_size (ArchiveFile.mk k fi')
             = Ok (Z.of_nat C * s)%Z).
Proof.
  intros Hm Hret Hnth Hempty.
  destruct (retrieve_loop _ _ _ _ _ Hret) as [stf [Hloop [Hfiles _]]].
  set (e := Retrieve.init_env name header) in *.
  assert (Hms : Retrieve.ms e = Some m)
    by (unfold e, Retrieve.init_env; rewrite Hm; reflexivity).
  destruct (@loop_nth e records (Retrieve.init_state afterheader header)
              stf k fi eq_refl Hloop Hnth)
    as [st [st1 [fi' [Hpre [Hstep [Happ [_ Hk]]]]]]].
  destruct (@step_stream e m Hms st st1 k fi Hempty Hstep)
    as [f0 [n [u [fi2 [Hf0 [Hn [Hu [Happ2 [_ [Hunc [_ [_ [Hfold _]]]]]]]]]]]]].
  rewrite Happ in Happ2. apply app_inj_tail in Happ2. destruct Happ2 as [_ <-].
  exists st, f0, u, fi'. rewrite Hfiles.
  repeat (split; [assumption|]).
  intros s -> C. simpl in Hunc. fold C in Hunc. split; [exact Hunc|].
  intros HC. unfold ArchiveFile.uncompressed_size, ArchiveFile.uncompressed.
  simpl. rewrite Hunc. apply reduce_add_repeat. exact HC.
Qed.

(** C1, witness: the second file of the solid example reports no
    compressed size. *)
Lemma C1_compressed_by_position_witness :
  exists out fi',
    Retrieve._filelist_retrieve (Some "ab.7z"%string) 32 Examples.solid_header
      false Examples.solid_records = Ok out
    /\ nth_error (Retrieve.out_files out) 1 = Some fi'
    /\ FI.compressed fi' = Some PNone.
Proof.
  destruct (Retrieve._filelist_retrieve (Some "ab.7z"%string) 32
              Examples.solid_header false Examples.solid_records)
    as [out|ex] eqn:Hret; [|vm_compute in Hret; discriminate Hret].
  destruct (@C1_compressed_by_position (Some "ab.7z"%string) 32
              Examples.solid_header false Examples.solid_records out
              _ 1 _ eq_refl Hret eq_refl eq_refl)
    as [st [fi' [n [Hpre [Hk [_ [_ [_ [_ Hlater]]]]]]]]].
  exists out, fi'. split; [reflexivity|]. split; [exact Hk|].
  vm_compute in Hpre. injection Hpre as <-.
  apply Hlater. simpl. lia.
Defined.

(** C1, counterexample.  The wording of the specification fails twice:
    the first file of the solid example reports 20, not none; and the
    single file of the folder with two input streams (10 and 5 packed
    bytes) reports 10, not 15. *)
Lemma C1_counterexample :
  (exists out,
     Retrieve._filelist_retrieve (Some "ab.7z"%string) 32 Examples.solid_header
       false Examples.solid_records = Ok out
     /\ ~ Retrieve.compressed_as_specified [2] (Retrieve.out_files out))
  /\ (exists out,
        Retrieve._filelist_retrieve (Some "p.7z"%string) 32
          Examples.two_input_header false Examples.two_input_records = Ok out
        /\ ~ Retrieve.compressed_as_specified [1] (Retrieve.out_files out)).
Proof.
  split; eexists; (split; [vm_compute; reflexivity|]); intros Hspec.
  - destruct (Hspec 0 _ 0 2 [20%Z] eq_refl eq_refl eq_refl eq_refl eq_refl)
      as [_ H]. specialize (H ltac:(lia)). discriminate H.
  - destruct (Hspec 0 _ 0 1 [10%Z; 5%Z] eq_refl eq_refl eq_refl eq_refl eq_refl)
      as [H _]. specialize (H eq_refl). discriminate H.
Qed.

(** C8, witness: the unnamed record of [ab.7z] is stored as [ab]. *)
Lemma C8_default_name_witness :
  exists out fi',
    Retrieve._filelist_retrieve (Some "dir/ab.7z"%string) 32
      Examples.solid_header false Examples.solid_records = Ok out
    /\ nth_error (Retrieve.out_files out) 1 = Some fi'
    /\ FI.filename fi' = Some "ab"%string.
Proof.
  destruct (Retrieve._filelist_retrieve (Some "dir/ab.7z"%string) 32
              Examples.solid_header false Examples.solid_records)
    as [out|ex] eqn:Hret; [|vm_compute in Hret; discriminate Hret].
  destruct (@C8_default_name (Some "dir/ab.7z"%string) 32
              Examples.solid_header false Examples.solid_records out
              1 _ Hret eq_refl eq_refl)
    as [fi' [Hk [Hsome _]]].
  exists out, fi'. split; [reflexivity|]. split; [exact Hk|].
  exact (Hsome _ eq_refl).
Defined.

(** C10, witness: the file of the two-coder folder, of unpack size 30,
    stores [[30; 30]] and reports 60. *)
Lemma C10_uncompressed_repeated_witness :
  exists out fi',
    Retrieve._filelist_retrieve (Some "p.7z"%string) 32
      Examples.two_input_header false Examples.two_input_records = Ok out
    /\ nth_error (Retrieve.out_files out) 0 = Some fi'
    /\ FI.uncompressed fi' = Some [30%Z; 30%Z]
    /\ ArchiveFile.uncompressed_size (ArchiveFile.mk 0 fi') = Ok 60%Z.
Proof.
  destruct (Retrieve._filelist_retrieve (Some "p.7z"%string) 32
              Examples.two_input_header false Examples.two_input_records)
    as [out|ex] eqn:Hret; [|vm_compute in Hret; discriminate Hret].
  destruct (@C10_uncompressed_repeated (Some "p.7z"%string) 32
              Examples.two_input_header false Examples.two_input_records out
              _ 0 _ eq_refl Hret eq_refl eq_refl)
    as [st [folder [u [fi' [Hpre [Hfolder [Hu [Hk [_ Hsize]]]]]]]]].
  exists out, fi'. split; [reflexivity|]. split; [exact Hk|].
  vm_compute in Hpre. injection Hpre as <-.
  vm_compute in Hfolder. injection Hfolder as <-.
  vm_compute in Hu. injection Hu as <-.
  destruct (Hsize 30%Z eq_refl) as [H1 H2]. split; [exact H1|].
  apply H2. simpl. lia.
Defined.

(** ** File attributes *)

Lemma land_16_testbit (a : Z) :
  Z.land a 16 = 16%Z <-> Z.testbit a 4 = true.
Proof.
  change 16%Z with (2 ^ 4)%Z. split.
  - intros H.
    assert (Hb : Z.testbit (Z.land a (2 ^ 4)) 4 = true).
    { rewrite H. rewrite Z.pow2_bits_eqb by lia. reflexivity. }
    rewrite Z.land_spec, Z.pow2_bits_eqb in Hb by lia.
    apply andb_true_iff in Hb. tauto.
  - intros H. apply Z.bits_inj'. intros n Hn.
    rewrite Z.land_spec, Z.pow2_bits_eqb by lia.
    destruct (Z.eqb_spec 4 n) as [<-|Hne].
    + rewrite H. reflexivity.
    + apply andb_false_r.
Qed.

(** C6 (as amended).  [is_directory] is true exactly when the entry has
    attributes and their Windows DIRECTORY bit (0x10, bit 4) is set;
    neither [emptystream] nor the POSIX extension is looked at. *)
Theorem C6_is_directory_bit (f : ArchiveFile.t) :
  ArchiveFile.is_directory f = true
  <-> exists attributes,
        FI.attributes (ArchiveFile._file_info f) = Some attributes
        /\ Z.testbit attributes 4 = true.
Proof.
  unfold ArchiveFile.is_directory, ArchiveFile._test_attribute,
    FileAttribute.DIRECTORY.
  destruct (FI.attributes (ArchiveFile._file_info f)) as [a|].
  - rewrite Z.eqb_eq, land_16_testbit. split.
    + intros H. exists a. auto.
    + intros [a' [Ha' H]]. injection Ha' as <-. exact H.
  - split; [discriminate|]. intros [a' [Ha' _]]. discriminate.
Qed.

(** C6, counterexample.  An entry with a stream and the DIRECTORY bit is
    a directory for the code and not for the specification; an
    empty-stream entry marked only by the POSIX extension with [S_IFDIR]
    is a directory for the specification and not for the code. *)
Lemma C6_counterexample :
  ~ (ArchiveFile.is_directory Examples.stream_with_directory_bit = true
     <-> ArchiveFile.directory_as_specified
           Examples.stream_with_directory_bit = true)
  /\ ~ (ArchiveFile.is_directory Examples.posix_only_directory = true
        <-> ArchiveFile.directory_as_specified
              Examples.posix_only_directory = true).
Proof.
  split; intros [H1 H2].
  - specialize (H1 eq_refl). vm_compute in H1. discriminate H1.
  - specialize (H2 eq_refl). vm_compute in H2. discriminate H2.
Qed.

(** ** Listing *)

Lemma iter_from_nth (index offset : nat) (fl : list FI.t) (k : nat) :
  nth_error (ArchiveFileList.iter_from index offset fl) k =
  option_map (ArchiveFile.mk (index + k + offset)) (nth_error fl k).
Proof.
  revert index k. induction fl as [|fi fl IH]; intros index [|k]; simpl; auto.
  - do 2 f_equal. lia.
  - rewrite IH. do 2 f_equal. lia.
Qed.

Lemma iter_from_length (index offset : nat) (fl : list FI.t) :
  List.length (ArchiveFileList.iter_from index offset fl) = List.length fl.
Proof.
  revert index. induction fl as [|fi fl IH]; intros index; simpl; auto.
Qed.

Section Listing.
Context {E : Externals}.

(** The time reported for an entry without [lastwritetime] is what the
    loop variable holds: the converted time of the nearest earlier entry
    that has one, or the value the loop started with. *)
Lemma list_loop_carries (fl : list ArchiveFile.t) :
  forall (c : option datetime) (alist : list (FileInfo.t datetime)),
    SevenZipFile.list_loop fl c = Ok alist ->
    List.length alist = List.length fl
    /\ forall k f r,
        nth_error fl k = Some f ->
        ArchiveFile.lastwritetime f = None ->
        nth_error alist k = Some r ->
        (exists j fj t,
            j < k /\ nth_error fl j = Some fj
            /\ ArchiveFile.lastwritetime fj = Some t
            /\ (forall i f', j < i < k -> nth_error fl i = Some f' ->
                             ArchiveFile.lastwritetime f' = None)
            /\ FileInfo.creationtime r = Some (filetime_to_dt t))
        \/ ((forall i f', i < k -> nth_error fl i = Some f' ->
                          ArchiveFile.lastwritetime f' = None)
            /\ FileInfo.creationtime r = c).
Proof.
  induction fl as [|f0 rest IH]; intros c alist Hloop.
  - injection Hloop as <-. split; [reflexivity|].
    intros [|k] f r H; discriminate H.
  - simpl in Hloop. apply bind_ok in Hloop. destruct Hloop as [u [_ Hloop]].
    apply bind_ok in Hloop. destruct Hloop as [alist' [Hrest Hloop]].
    injection Hloop as <-.
    destruct (IH _ _ Hrest) as [Hlen IHk]. split; [simpl; congruence|].
    intros [|k] f r Hf Hnone Hr; simpl in Hf, Hr.
    + injection Hf as <-. injection Hr as <-. right. split.
      * intros i f' Hi. lia.
      * simpl. rewrite Hnone. reflexivity.
    + destruct (IHk k f r Hf Hnone Hr)
        as [[j [fj [t [Hj [Hfj [Ht [Hbetween Hc]]]]]]]|[Hall Hc]].
      * left. exists (S j), fj, t. repeat split; auto; try lia.
        intros [|i] f' Hi Hf'; [lia|]. simpl in Hf'.
        apply (Hbetween i f'); [lia | exact Hf'].
      * destruct (ArchiveFile.lastwritetime f0) as [t|] eqn:Ht0.
        -- left. exists 0, f0, t. repeat split; auto; try lia.
           intros [|i] f' Hi Hf'; [lia|]. simpl in Hf'.
           apply (Hall i f'); [lia | exact Hf'].
        -- right. split; [|exact Hc].
           intros [|i] f' Hi Hf'; simpl in Hf'.
           ++ injection Hf' as <-. exact Ht0.
           ++ apply (Hall i f'); [lia | exact Hf'].
Qed.

(** The loop returns as soon as every entry has a size to report. *)
Lemma list_loop_returns (fl : list ArchiveFile.t) :
  (forall f, In f fl -> exists u, ArchiveFile.uncompressed_size f = Ok u) ->
  forall c, exists alist, SevenZipFile.list_loop fl c = Ok alist.
Proof.
  induction fl as [|f0 rest IH]; intros Hsizes c.
  - exists []. reflexivity.
  - simpl. destruct (Hsizes f0 (or_introl eq_refl)) as [u ->]. simpl.
    destruct (IH (fun f Hf => Hsizes f (or_intror Hf))
                 (match ArchiveFile.lastwritetime f0 with
                  | Some t => Some (filetime_to_dt t)
                  | None => c
                  end)) as [alist ->].
    simpl. eauto.
Qed.

(** C9.  [list()] returns one row per entry; the time of an entry whose
    [lastwritetime] is absent is the converted [lastwritetime] of the
    nearest preceding entry that has one, and [None] when no preceding
    entry has one.  The entry itself contributes nothing. *)
Theorem C9_list_time_carried (s : SevenZipFile.t) (fl : list FI.t) :
  SevenZipFile.files s = Some fl ->
  (forall fi, In fi fl -> exists x xs, FI.uncompressed fi = Some (x :: xs)) ->
  exists alist,
    SevenZipFile.list_ s = Ok alist
    /\ List.length alist = List.length fl
    /\ forall k fi r,
        nth_error fl k = Some fi ->
        FI.lastwritetime fi = None ->
        nth_error alist k = Some r ->
        (exists j fj t,
            j < k /\ nth_error fl j = Some fj
            /\ FI.lastwritetime fj = Some t
            /\ (forall i fi', j < i < k -> nth_error fl i = Some fi' ->
                              FI.lastwritetime fi' = None)
            /\ FileInfo.creationtime r = Some (filetime_to_dt t))
        \/ ((forall i fi', i < k -> nth_error fl i = Some fi' ->
                           FI.lastwritetime fi' = None)
            /\ FileInfo.creationtime r = None).
Proof.
  intros Hfiles Hsizes.
  unfold SevenZipFile.list_. rewrite Hfiles. simpl.
  set (afl := ArchiveFileList.iter 0 fl).
  assert (Hnth : forall k, nth_error afl k
                           = option_map (ArchiveFile.mk k) (nth_error fl k)).
  { intros k. unfold afl, ArchiveFileList.iter. rewrite iter_from_nth.
    do 2 f_equal. lia. }
  assert (Hret : exists alist, SevenZipFile.list_loop afl None = Ok alist).
  { apply list_loop_returns. intros f Hin.
    apply In_nth_error in Hin. destruct Hin as [k Hk].
    rewrite Hnth in Hk. destruct (nth_error fl k) as [fi|] eqn:Hfi;
      [|discriminate]. injection Hk as <-.
    destruct (Hsizes fi (nth_error_In _ _ Hfi)) as [x [xs Hu]].
    unfold ArchiveFile.uncompressed_size, ArchiveFile.uncompressed.
    simpl. rewrite Hu. simpl. eauto. }
  destruct Hret as [alist Hloop]. exists alist. split; [exact Hloop|].
  destruct (list_loop_carries _ _ Hloop) as [Hlen Hk].
  split; [rewrite Hlen; apply iter_from_length|].
  intros k fi r Hfi Hnone Hr.
  assert (Hafl : nth_error afl k = Some (ArchiveFile.mk k fi))
    by (rewrite Hnth, Hfi; reflexivity).
  destruct (Hk k _ r Hafl Hnone Hr)
    as [[j [fj [t [Hj [Hfj [Ht [Hbetween Hc]]]]]]]|[Hall Hc]].
  - left. rewrite Hnth in Hfj.
    destruct (nth_error fl j) as [fij|] eqn:Hfij; [|discriminate].
    injection Hfj as <-. exists j, fij, t. repeat split; auto; try lia.
    intros i fi' Hi Hfi'.
    apply (Hbetween i (ArchiveFile.mk i fi')); [lia|].
    rewrite Hnth, Hfi'. reflexivity.
  - right. split; [|exact Hc]. intros i fi' Hi Hfi'.
    apply (Hall i (ArchiveFile.mk i fi')); [lia|].
    rewrite Hnth, Hfi'. reflexivity.
Qed.

End Listing.

(** C9, witness: in the solid example only the first record has a
    [lastwritetime]; the second row of the listing shows that time. *)
Lemma C9_list_time_carried_witness :
  exists alist r,
    @SevenZipFile.list_ (ExampleHandles.plain []) ExampleHandles.solid_handle
    = Ok alist
    /\ nth_error alist 1 = Some r
    /\ FileInfo.creationtime r
       = Some (SpecModel.filetime_to_dt 132223104000000000).
Proof.
  assert (Hsizes : forall fi, In fi ExampleHandles.solid_files ->
                              exists x xs, FI.uncompressed fi = Some (x :: xs)).
  { intros fi Hin. vm_compute in Hin.
    destruct Hin as [<-|[<-|[<-|[]]]]; do 2 eexists; reflexivity. }
  destruct (@C9_list_time_carried (ExampleHandles.plain [])
              ExampleHandles.solid_handle ExampleHandles.solid_files
              eq_refl Hsizes)
    as [alist [Hlist [Hlen Hk]]].
  destruct alist as [|r0 [|r1 alist]]; try discriminate Hlen.
  exists (r0 :: r1 :: alist), r1. split; [exact Hlist|]. split; [reflexivity|].
  destruct (nth_error ExampleHandles.solid_files 1) as [fi|] eqn:Hfi;
    [|vm_compute in Hfi; discriminate Hfi].
  assert (Hnone : FI.lastwritetime fi = None).
  { vm_compute in Hfi. injection Hfi as <-. reflexivity. }
  destruct (Hk 1 fi r1 Hfi Hnone eq_refl)
    as [[j [fj [t [Hj [Hfj [Ht [_ Hc]]]]]]]|[Hall _]].
  - assert (j = 0) by lia. subst j.
    vm_compute in Hfj. injection Hfj as <-.
    simpl in Ht. injection Ht as <-. exact Hc.
  - specialize (Hall 0 _ ltac:(lia) eq_refl). vm_compute in Hall.
    discriminate Hall.
Defined.

(** ** Opening an archive *)

Section Opening.
Context {E : Externals}.

(** When the CRC of the metadata bytes agrees with the signature
    header, [_read_header_data] hands the bytes on. *)
Lemma _read_header_data_match (sig : SignatureHeader.t) (f1 : File.t) :
  (0 <= File.pos f1 + SignatureHeader.nextheaderofs sig)%Z ->
  let buffer :=
    firstn (Z.to_nat (SignatureHeader.nextheadersize sig))
      (skipn (Z.to_nat (File.pos f1 + SignatureHeader.nextheaderofs sig))
         (File.content f1)) in
  calculate_crc32 buffer None = SignatureHeader.nextheadercrc sig ->
  exists f2, SevenZipFile._read_header_data sig f1 = (Ok buffer, f2).
Proof.
  intros Hpos buffer Hcrc.
  unfold SevenZipFile._read_header_data, File.seek_cur, File.seek.
  destruct (Z.ltb_spec (File.pos f1 + SignatureHeader.nextheaderofs sig) 0);
    [lia|].
  unfold File.read. simpl File.pos. simpl File.content. fold buffer.
  rewrite Hcrc, Z.eqb_refl. simpl. eauto.
Qed.

(** C5.  In read mode, once the magic and the signature header have
    been accepted, the CRC-32 of the metadata bytes, the
    [nextheadersize] bytes found [nextheaderofs] bytes after the
    signature header, is compared with [nextheadercrc]; when they
    differ the constructor raises [Bad7zFile('invalid header data')],
    which is how this code reports corruption.  No handle is returned,
    and the file is closed unless the caller passed it in. *)
Theorem C5_header_crc_mismatch
        (f f0 f1 : File.t) (filePassed : bool) (name : option string)
        (sig : SignatureHeader.t) :
  SevenZipFile._check_7zfile f = (Ok true, f0) ->
  SignatureHeader_retrieve f0 = (Ok sig, f1) ->
  (0 <= File.pos f1 + SignatureHeader.nextheaderofs sig)%Z ->
  let buffer :=
    firstn (Z.to_nat (SignatureHeader.nextheadersize sig))
      (skipn (Z.to_nat (File.pos f1 + SignatureHeader.nextheaderofs sig))
         (File.content f1)) in
  calculate_crc32 buffer None <> SignatureHeader.nextheadercrc sig ->
  exists f2,
    SevenZipFile.__init__ f filePassed name mode_r
    = (Raise (Bad7zFile "invalid header data"), f2)
    /\ File.closed f2 = (negb filePassed || File.closed f1)%bool.
Proof.
  intros Hmagic Hsig Hpos buffer Hcrc.
  unfold SevenZipFile.__init__, SevenZipFile._real_get_contents.
  cbn [SevenZipFile.fp]. rewrite Hmagic, Hsig.
  unfold SevenZipFile._read_header_data, File.seek_cur, File.seek.
  destruct (Z.ltb_spec (File.pos f1 + SignatureHeader.nextheaderofs sig) 0);
    [lia|].
  unfold File.read. simpl File.pos. simpl File.content. fold buffer.
  destruct (Z.eqb_spec (SignatureHeader.nextheadercrc sig)
                       (calculate_crc32 buffer None)) as [Heq|Hne];
    [congruence|].
  simpl. eexists. split; [reflexivity|].
  unfold SevenZipFile._fpclose. simpl.
  destruct filePassed; reflexivity.
Qed.

(** Every handle that the constructor returns in read mode has its file
    list, and every record of it has a name and its sizes. *)
Lemma opened_files_assigned (f f' : File.t) (filePassed : bool)
      (name : option string) (s : SevenZipFile.t) :
  SevenZipFile.__init__ f filePassed name mode_r = (Ok s, f') ->
  exists fl, SevenZipFile.files s = Some fl /\ Forall Retrieve.assigned fl.
Proof.
  unfold SevenZipFile.__init__.
  destruct (SevenZipFile._real_get_contents _) as [[s1|ex] f1] eqn:Hget;
    [|intros H; discriminate H].
  destruct (SevenZipFile.reset s1) as [s2|ex] eqn:Hreset;
    [|intros H; discriminate H].
  intros H. injection H as <- _.
  unfold SevenZipFile.reset, SevenZipFile.attr in Hreset.
  destruct (SevenZipFile.afterheader s1) as [ah|]; [|discriminate Hreset].
  simpl in Hreset.
  destruct (File.seek ah (SevenZipFile.fp s1)) as [g|]; [|discriminate Hreset].
  simpl in Hreset.
  destruct (SevenZipFile.files s1) as [fl|] eqn:Hfl; [|discriminate Hreset].
  destruct (SevenZipFile.header s1) as [h|] eqn:Hh; [|discriminate Hreset].
  simpl in Hreset. injection Hreset as <-. simpl. rewrite Hfl.
  exists fl. split; [reflexivity|].
  revert Hget. unfold SevenZipFile._real_get_contents. cbn [SevenZipFile.fp].
  destruct (SevenZipFile._check_7zfile f) as [[[|]|] f0];
    try (intros Hget; discriminate Hget).
  destruct (SignatureHeader_retrieve f0) as [[sig|] g1];
    [|intros Hget; discriminate Hget].
  destruct (SevenZipFile._read_header_data sig g1) as [[buffer|] g2];
    [|intros Hget; discriminate Hget].
  destruct (Header_retrieve g2 buffer (File.tell g1)) as [[[h0|]|] g3];
    [| |intros Hget; discriminate Hget].
  - unfold SevenZipFile._assign_contents.
    destruct (Header.files_info h0) as [finfo|].
    + destruct (Retrieve._filelist_retrieve _ (File.tell g1) h0 false
                  (FilesInfo.files finfo)) as [out|] eqn:Hret; simpl;
        intros Hget; [|discriminate Hget].
      injection Hget as <- _. simpl in Hfl.
      injection Hfl as <-. eapply retrieve_assigned. exact Hret.
    + intros Hget. injection Hget as <- _. simpl in Hfl.
      injection Hfl as <-. constructor.
  - intros Hget. injection Hget as <- _. simpl in Hfl. discriminate Hfl.
Qed.

End Opening.

(** C5, witness: a well-formed signature header followed by metadata
    whose CRC is not the announced one. *)
Lemma C5_header_crc_mismatch_witness :
  exists f2,
    @SevenZipFile.__init__ (ExampleHandles.plain [])
      (File.opened ExampleArchives.bad_header_crc_archive) false
      (Some "bad.7z"%string) mode_r
    = (Raise (Bad7zFile "invalid header data"), f2)
    /\ File.closed f2 = true.
Proof.
  destruct (@C5_header_crc_mismatch (ExampleHandles.plain [])
              (File.opened ExampleArchives.bad_header_crc_archive)
              (File.opened ExampleArchives.bad_header_crc_archive)
              (File.mk ExampleArchives.bad_header_crc_archive 32 false)
              false (Some "bad.7z"%string)
              (SignatureHeader.mk (0, 4) 3824026898 0 2 0)%Z
              eq_refl eq_refl ltac:(simpl; lia)
              ltac:(vm_compute; discriminate))
    as [f2 [Hinit Hclosed]].
  exists f2. split; [exact Hinit | exact Hclosed].
Defined.

(** ** Extraction *)

Section Extraction.
Context {E : Externals}.
Import SevenZipFile.

Lemma reset_ok (s s1 : t) :
  reset s = Ok s1 ->
  exists ah fl h,
    afterheader s = Some ah /\ files s = Some fl /\ header s = Some h
    /\ files s1 = Some fl /\ header s1 = Some h
    /\ worker s1 = Some (Worker.mk fl ah h []).
Proof.
  unfold reset, attr. intros H.
  destruct (afterheader s) as [ah|]; [|discriminate].
  simpl in H. destruct (File.seek ah (fp s)) as [f|]; [|discriminate].
  simpl in H. destruct (files s) as [fl|] eqn:Hfl; [|discriminate].
  destruct (header s) as [h|] eqn:Hh; [|discriminate].
  simpl in H. injection H as <-. exists ah, fl, h. simpl.
  rewrite Hfl, Hh. repeat split; reflexivity.
Qed.

(** A round of the loop either raises or goes on; it never touches the
    file system.  It raises exactly for an entry without a name
    ([AttributeError]) or with a name that begins with [../]
    ([Bad7zFile]). *)
Lemma extract_step_cases (path : option string) (f : ArchiveFile.t)
      (l : locals) (w : fs) :
  match ArchiveFile.filename f with
  | None => extract_step path f l w = (Raise AttributeError, w)
  | Some name =>
      if startswith_dotdot name
      then extract_step path f l w = (Raise (Bad7zFile EmptyString), w)
      else exists l1,
          extract_step path f l w = (Ok l1, w)
          /\ fnames l1 = fnames l ++ [name]
          /\ multi_thread l1 =
               (if in_dec string_dec name (fnames l) then false
                else multi_thread l)
    end.
Proof.
  unfold extract_step, mbind, lift, attr, query, mret.
  destruct (ArchiveFile.filename f) as [name|]; [|reflexivity].
  destruct (startswith_dotdot name); [reflexivity|].
  destruct (ArchiveFile.is_directory f).
  - destruct (path_exists _ w); eexists; repeat split; reflexivity.
  - destruct (ArchiveFile.is_socket f);
      [|destruct (ArchiveFile.is_symlink f)];
      eexists; repeat split; reflexivity.
Qed.

Lemma extract_loop_fs (path : option string) (fl : list ArchiveFile.t) :
  forall l w, snd (extract_loop path fl l w) = w.
Proof.
  induction fl as [|f rest IH]; intros l w; [reflexivity|].
  simpl. unfold mbind.
  pose proof (extract_step_cases path f l w) as Hc.
  destruct (ArchiveFile.filename f) as [name|]; [|rewrite Hc; reflexivity].
  destruct (startswith_dotdot name); [rewrite Hc; reflexivity|].
  destruct Hc as [l1 [-> _]]. apply IH.
Qed.

(** With an entry whose name begins with [../] the loop raises, and it
    raises [Bad7zFile] when every entry has a name. *)
Lemma extract_loop_dotdot (path : option string) (fl : list ArchiveFile.t) :
  (exists f name, In f fl /\ ArchiveFile.filename f = Some name
                  /\ startswith_dotdot name = true) ->
  forall l w,
    (exists ex, extract_loop path fl l w = (Raise ex, w))
    /\ ((forall f, In f fl -> ArchiveFile.filename f <> None) ->
        extract_loop path fl l w = (Raise (Bad7zFile EmptyString), w)).
Proof.
  induction fl as [|f rest IH]; intros [f' [name' [Hin [Hname Hdd]]]] l w.
  - destruct Hin.
  - simpl. unfold mbind.
    pose proof (extract_step_cases path f l w) as Hc.
    destruct (ArchiveFile.filename f) as [name|] eqn:Hfn.
    + destruct (startswith_dotdot name) eqn:Hs.
      * rewrite Hc. split; [eauto | reflexivity].
      * destruct Hc as [l1 [-> _]].
        assert (Hrest : exists f0 name0,
                   In f0 rest /\ ArchiveFile.filename f0 = Some name0
                   /\ startswith_dotdot name0 = true).
        { destruct Hin as [<-|Hin]; [congruence|]. eauto. }
        destruct (IH Hrest l1 w) as [H1 H2]. split; [exact H1|].
        intros Hnamed. apply H2. intros f0 Hf0. apply Hnamed. right. exact Hf0.
    + rewrite Hc. split; [eauto|].
      intros Hnamed. exfalso. apply (Hnamed f (or_introl eq_refl)). exact Hfn.
Qed.

Lemma In_iter (fl : list FI.t) (f : ArchiveFile.t) :
  In f (ArchiveFileList.iter 0 fl) ->
  exists k fi, nth_error fl k = Some fi /\ f = ArchiveFile.mk k fi.
Proof.
  intros Hin. apply In_nth_error in Hin. destruct Hin as [k Hk].
  unfold ArchiveFileList.iter in Hk. rewrite iter_from_nth in Hk.
  destruct (nth_error fl k) as [fi|] eqn:Hfi; [|discriminate].
  injection Hk as <-. exists k, fi. split; [exact Hfi|].
  f_equal. lia.
Qed.

Lemma iter_In (fl : list FI.t) (fi : FI.t) :
  In fi fl -> exists k, In (ArchiveFile.mk k fi) (ArchiveFileList.iter 0 fl).
Proof.
  intros Hin. apply In_nth_error in Hin. destruct Hin as [k Hk].
  exists k. apply nth_error_In with (n := k).
  unfold ArchiveFileList.iter. rewrite iter_from_nth, Hk. simpl.
  do 2 f_equal. lia.
Qed.

(** C2.  When some entry's name begins with [../], [extractall] never
    returns normally and nothing is extracted: the file system is left
    as the call found it or, at most, with the target directory made.
    Once the preliminaries have passed ([reset], making the target
    directory, reading the header's main streams), the exception is
    [Bad7zFile], the one archive error of this code, raised before any
    directory is made, any file written or any link created. *)
Theorem C2_dotdot_never_extracts
        (s : t) (path : option string) (w : fs) (fl : list FI.t) :
  files s = Some fl ->
  (exists fi name, In fi fl /\ FI.filename fi = Some name
                   /\ String.prefix "../" name = true) ->
  (exists ex w', extractall s path w = (Raise ex, w')
                 /\ (w' = w \/ w' = snd (make_root path w)))
  /\ (forall s1 w1 h m,
        (forall fi, In fi fl -> FI.filename fi <> None) ->
        reset s = Ok s1 ->
        make_root path w = (Ok tt, w1) ->
        header s = Some h ->
        Header.main_streams h = Some m ->
        extractall s path w = (Raise (Bad7zFile EmptyString), w1)).
Proof.
  intros Hfiles [fi [name [Hin [Hname Hdd]]]].
  assert (Hbad : exists f name0,
             In f (ArchiveFileList.iter 0 fl)
             /\ ArchiveFile.filename f = Some name0
             /\ startswith_dotdot name0 = true).
  { destruct (iter_In _ _ Hin) as [k Hk]. exists (ArchiveFile.mk k fi), name.
    repeat split; assumption. }
  split.
  - unfold extractall, extract_prepare, mbind, lift.
    destruct (reset s) as [s1|ex] eqn:Hreset; [|eauto].
    destruct (reset_ok _ Hreset) as [ah [fl' [h [_ [Hfl' [_ [Hf1 [Hh1 Hw1]]]]]]]].
    rewrite Hfiles in Hfl'. injection Hfl' as <-.
    destruct (make_root path w) as [[[]|ex] w1] eqn:Hroot;
      [|exists ex, w1; simpl; auto].
    rewrite Hh1. simpl.
    destruct (Header.main_streams h) as [m|];
      [|exists AttributeError, w1; simpl; auto].
    simpl. rewrite Hw1, Hf1. simpl.
    destruct (@extract_loop_dotdot path (ArchiveFileList.iter 0 fl) Hbad
                (mk_locals (Worker.mk fl ah h []) (initial_multi_thread m)
                   [] [] [] []) w1) as [[ex Hex] _].
    rewrite Hex. exists ex, w1. simpl. auto.
  - intros s1 w1 h m Hnamed Hreset Hroot Hh Hm.
    unfold extractall, extract_prepare, mbind, lift.
    rewrite Hreset.
    destruct (reset_ok _ Hreset) as [ah [fl' [h' [_ [Hfl' [Hh' [Hf1 [Hh1 Hw1]]]]]]]].
    rewrite Hfiles in Hfl'. injection Hfl' as <-.
    rewrite Hh in Hh'. injection Hh' as <-.
    rewrite Hroot, Hh1. simpl. rewrite Hm. simpl. rewrite Hw1, Hf1. simpl.
    destruct (@extract_loop_dotdot path (ArchiveFileList.iter 0 fl) Hbad
                (mk_locals (Worker.mk fl ah h []) (initial_multi_thread m)
                   [] [] [] []) w1) as [_ Hraise].
    rewrite Hraise; [reflexivity|].
    intros f Hf. destruct (In_iter _ _ Hf) as [k [fi' [Hk ->]]].
    apply Hnamed. eapply nth_error_In. exact Hk.
Qed.

End Extraction.

(** C2, witness: scenario S6.  The second entry is [../evil]; extracting
    into [out] makes the directory [out] and nothing else, and raises. *)
Lemma C2_dotdot_never_extracts_witness :
  @SevenZipFile.extractall (ExampleHandles.plain [x48])
    ExampleHandles.escape_handle (Some "out"%string) []
  = (Raise (Bad7zFile EmptyString), [("out"%string, SpecModel.Dir)]).
Proof.
  destruct (@C2_dotdot_never_extracts (ExampleHandles.plain [x48])
              ExampleHandles.escape_handle (Some "out"%string) []
              _ eq_refl) as [_ H].
  - exists (FI.mk (Some "../evil"%string) false (Some 32%Z) None (Some PNone)
              (Some (PInt 4)) (Some [4%Z]) (Some [4%Z]) (Some (Some 1)) None),
           "../evil"%string.
    split; [right; left; reflexivity|]. split; reflexivity.
  - eapply H.
    + intros fi Hin. vm_compute in Hin.
      destruct Hin as [<-|[<-|[]]]; discriminate.
    + reflexivity.
    + reflexivity.
    + reflexivity.
    + reflexivity.
Defined.

(** ** The multithread flag *)

Section MultiThread.
Context {E : Externals}.
Import SevenZipFile.

(** Once switched off, the flag stays off. *)
Lemma extract_loop_flag_off (path : option string) (fl : list ArchiveFile.t) :
  forall l0 l w w',
    extract_loop path fl l0 w = (Ok l, w') ->
    multi_thread l0 = false -> multi_thread l = false.
Proof.
  induction fl as [|f rest IH]; intros l0 l w w' Hloop Hoff.
  - injection Hloop as <- _. exact Hoff.
  - simpl in Hloop. unfold mbind in Hloop.
    pose proof (extract_step_cases path f l0 w) as Hc.
    destruct (ArchiveFile.filename f) as [name|];
      [|rewrite Hc in Hloop; discriminate].
    destruct (startswith_dotdot name); [rewrite Hc in Hloop; discriminate|].
    destruct Hc as [l1 [Hstep [_ Hflag]]]. rewrite Hstep in Hloop.
    apply (IH _ _ _ _ Hloop). rewrite Hflag, Hoff.
    destruct (in_dec string_dec name (fnames l0)); reflexivity.
Qed.

(** A loop that goes through has seen a name on every entry. *)
Lemma extract_loop_names (path : option string) (fl : list ArchiveFile.t) :
  forall l0 l w w',
    extract_loop path fl l0 w = (Ok l, w') ->
    exists names,
      map ArchiveFile.filename fl = map Some names
      /\ fnames l = fnames l0 ++ names.
Proof.
  induction fl as [|f rest IH]; intros l0 l w w' Hloop.
  - injection Hloop as <- _. exists []. rewrite app_nil_r. auto.
  - simpl in Hloop. unfold mbind in Hloop.
    pose proof (extract_step_cases path f l0 w) as Hc.
    destruct (ArchiveFile.filename f) as [name|] eqn:Hname;
      [|rewrite Hc in Hloop; discriminate].
    destruct (startswith_dotdot name); [rewrite Hc in Hloop; discriminate|].
    destruct Hc as [l1 [Hstep [Hfn _]]]. rewrite Hstep in Hloop.
    destruct (IH _ _ _ _ Hloop) as [names [Hm Hf]].
    exists (name :: names). simpl. rewrite Hname, Hm, Hf, Hfn, <- app_assoc.
    auto.
Qed.

(** The loop leaves the flag on exactly when it was on and no name
    repeats, among the entries or against the names seen before. *)
Lemma extract_loop_flag (path : option string) (fl : list ArchiveFile.t) :
  forall l0 l w w',
    extract_loop path fl l0 w = (Ok l, w') ->
    NoDup (fnames l0) ->
    exists names,
      map ArchiveFile.filename fl = map Some names
      /\ fnames l = fnames l0 ++ names
      /\ (multi_thread l = true
          <-> multi_thread l0 = true /\ NoDup (fnames l0 ++ names)).
Proof.
  induction fl as [|f rest IH]; intros l0 l w w' Hloop Hnd.
  - injection Hloop as <- _. exists []. rewrite app_nil_r.
    repeat split; tauto.
  - simpl in Hloop. unfold mbind in Hloop.
    pose proof (extract_step_cases path f l0 w) as Hc.
    destruct (ArchiveFile.filename f) as [name|] eqn:Hname;
      [|rewrite Hc in Hloop; discriminate].
    destruct (startswith_dotdot name); [rewrite Hc in Hloop; discriminate|].
    destruct Hc as [l1 [Hstep [Hfn Hflag]]]. rewrite Hstep in Hloop.
    destruct (in_dec string_dec name (fnames l0)) as [Hin|Hnin].
    + (* a repeated name *)
      pose proof (extract_loop_flag_off _ _ _ _ Hloop Hflag) as Hoff.
      destruct (extract_loop_names _ _ _ _ Hloop) as [names [Hm Hf]].
      exists (name :: names). simpl. rewrite Hname, Hm, Hf, Hfn, <- app_assoc.
      repeat split; auto.
      * congruence.
      * congruence.
      * intros [_ Hnd']. exfalso.
        apply NoDup_remove_2 in Hnd'. apply Hnd'.
        apply in_or_app. left. exact Hin.
    + assert (Hnd1 : NoDup (fnames l1)).
      { rewrite Hfn. apply NoDup_app; auto.
        - constructor; [intros []|constructor].
        - intros x Hx [<-|[]]. exact (Hnin Hx). }
      destruct (IH _ _ _ _ Hloop Hnd1) as [names [Hm [Hf Hiff]]].
      exists (name :: names). simpl. rewrite Hname, Hm, Hf, Hfn, <- app_assoc.
      rewrite Hflag, Hfn, <- app_assoc in Hiff. simpl in Hiff.
      repeat split; auto; tauto.
Qed.
End MultiThread.

(** ** Registration order *)

Lemma dict_set_fresh (d : list (nat * Worker.sink)) (id : nat) (s : Worker.sink) :
  Forall (fun k => k < id) (map fst d) ->
  Worker.dict_set d id s = d ++ [(id, s)].
Proof.
  induction d as [|[k v] d IH]; intros Hall; [reflexivity|].
  simpl in *. inversion Hall as [|? ? Hk Hrest]; subst.
  destruct (Nat.eqb_spec k id); [lia|]. rewrite IH by exact Hrest.
  reflexivity.
Qed.

Lemma StronglySorted_snoc (l : list nat) (x : nat) :
  StronglySorted lt l -> Forall (fun k => k < x) l ->
  StronglySorted lt (l ++ [x]).
Proof.
  induction l as [|a l IH]; intros Hs Hall; simpl.
  - constructor; constructor.
  - inversion Hs as [|? ? Hsl Ha]; subst.
    inversion Hall as [|? ? Hax Hlx]; subst.
    constructor; [apply IH; assumption|].
    apply Forall_app. split; [exact Ha|]. constructor; [exact Hax|constructor].
Qed.

Section Registration.
Context {E : Externals}.
Import SevenZipFile.

Lemma extract_step_worker (path : option string) (f : ArchiveFile.t)
      (l l1 : locals) (w w' : fs) :
  extract_step path f l w = (Ok l1, w') ->
  l_worker l1 = l_worker l
  \/ exists s, l_worker l1
               = Worker.register_filelike (ArchiveFile.id f) s (l_worker l).
Proof.
  unfold extract_step, mbind, lift, attr, query, mret.
  destruct (ArchiveFile.filename f) as [name|]; [|discriminate].
  destruct (startswith_dotdot name); [discriminate|].
  destruct (ArchiveFile.is_directory f).
  - destruct (path_exists _ w); intros H; injection H as <- _; auto.
  - destruct (ArchiveFile.is_socket f);
      [|destruct (ArchiveFile.is_symlink f)];
      intros H; injection H as <- _; simpl; eauto.
Qed.

(** The sinks are registered in header order: the file ids in
    [target_filepath] increase. *)
Lemma extract_loop_order (path : option string) (fl : list FI.t) :
  forall index l0 l w w',
    extract_loop path (ArchiveFileList.iter_from index 0 fl) l0 w
    = (Ok l, w') ->
    StronglySorted lt (map fst (Worker.target_filepath (l_worker l0))) ->
    Forall (fun k => k < index)
           (map fst (Worker.target_filepath (l_worker l0))) ->
    StronglySorted lt (map fst (Worker.target_filepath (l_worker l))).
Proof.
  induction fl as [|fi rest IH]; intros index l0 l w w' Hloop Hs Hall.
  - injection Hloop as <- _. exact Hs.
  - simpl in Hloop. unfold mbind in Hloop.
    destruct (extract_step path (ArchiveFile.mk (index + 0) fi) l0 w)
      as [[l1|ex] w1] eqn:Hstep; [|discriminate].
    apply (IH _ _ _ _ _ Hloop).
    + destruct (extract_step_worker _ _ _ _ Hstep) as [->|[s ->]];
        [exact Hs|].
      simpl. rewrite dict_set_fresh.
      * rewrite map_app. simpl. apply StronglySorted_snoc; [exact Hs|].
        eapply Forall_impl; [|exact Hall]. simpl. intros; lia.
      * eapply Forall_impl; [|exact Hall]. simpl. intros; lia.
    + destruct (extract_step_worker _ _ _ _ Hstep) as [->|[s ->]].
      * eapply Forall_impl; [|exact Hall]. simpl. intros; lia.
      * simpl. rewrite dict_set_fresh.
        -- rewrite map_app. apply Forall_app. split.
           ++ eapply Forall_impl; [|exact Hall]. simpl. intros; lia.
           ++ constructor; [simpl; lia|constructor].
        -- eapply Forall_impl; [|exact Hall]. simpl. intros; lia.
Qed.
End Registration.

(** ** The sequential worker of the specification *)

Lemma lookup_write_other (p q : string) (data : list byte) (w : SpecModel.fs) :
  q <> p ->
  SpecModel.lookup p (SpecModel.write_file q data w) = SpecModel.lookup p w.
Proof.
  intros Hne. simpl. destruct (String.eqb_spec q p); [contradiction|reflexivity].
Qed.

Lemma lookup_write_same (p : string) (data : list byte) (w : SpecModel.fs) :
  SpecModel.lookup p (SpecModel.write_file p data w) = Some (SpecModel.Reg data).
Proof. simpl. rewrite String.eqb_refl. reflexivity. Qed.

(** Sinks on other paths leave the file at [p] alone. *)
Lemma sequential_extract_other (payload : nat -> result (list byte))
      (p : string) (regs : list (nat * Worker.sink)) :
  ~ In p (Worker.paths_of regs) ->
  (forall i s, In (i, s) regs -> exists d, payload i = Ok d) ->
  forall b w, exists b' w',
    SpecModel.sequential_extract payload regs b w = (Ok b', w')
    /\ SpecModel.lookup p w' = SpecModel.lookup p w.
Proof.
  induction regs as [|[i s] regs IH]; intros Hnot Hok b w.
  - exists b, w. auto.
  - simpl. destruct (Hok i s (or_introl eq_refl)) as [d ->].
    assert (Hok' : forall i' s', In (i', s') regs -> exists d', payload i' = Ok d')
      by (intros; eapply Hok; right; eauto).
    destruct s as [|q|]; simpl in Hnot.
    + apply IH; assumption.
    + destruct (IH (fun H => Hnot (or_intror H)) Hok' b
                   (SpecModel.write_file q d w)) as [b' [w' [Hrun Hlk]]].
      exists b', w'. split; [exact Hrun|]. rewrite Hlk.
      apply lookup_write_other. intros ->. apply Hnot. left. reflexivity.
    + apply IH; assumption.
Qed.

(** Written in registration order, a path holds the bytes of the last
    entry registered for it. *)
Lemma sequential_extract_last_wins (payload : nat -> result (list byte))
      (p : string) (id : nat) (data : list byte)
      (r1 r2 : list (nat * Worker.sink)) :
  ~ In p (Worker.paths_of r2) ->
  (forall i s, In (i, s) (r1 ++ (id, Worker.SinkPath p) :: r2) ->
               exists d, payload i = Ok d) ->
  payload id = Ok data ->
  forall b w, exists b' w',
    SpecModel.sequential_extract payload
      (r1 ++ (id, Worker.SinkPath p) :: r2) b w = (Ok b', w')
    /\ SpecModel.lookup p w' = Some (SpecModel.Reg data).
Proof.
  intros Hlast. induction r1 as [|[i s] r1 IH]; intros Hok Hdata b w.
  - simpl. rewrite Hdata.
    destruct (@sequential_extract_other payload p r2 Hlast
                (fun i s H => Hok i s (or_intror H)) b
                (SpecModel.write_file p data w)) as [b' [w' [Hrun Hlk]]].
    exists b', w'. split; [exact Hrun|]. rewrite Hlk.
    apply lookup_write_same.
  - simpl. destruct (Hok i s (or_introl eq_refl)) as [d ->].
    assert (Hok' : forall i' s',
               In (i', s') (r1 ++ (id, Worker.SinkPath p) :: r2) ->
               exists d', payload i' = Ok d')
      by (intros; eapply Hok; right; eauto).
    destruct s as [|q|]; apply IH; assumption.
Qed.

Lemma map_filename_iter (index offset : nat) (fl : list FI.t) :
  map ArchiveFile.filename (ArchiveFileList.iter_from index offset fl)
  = map FI.filename fl.
Proof.
  revert index. induction fl as [|fi fl IH]; intros index; simpl;
    [reflexivity|]. rewrite IH. reflexivity.
Qed.

Lemma NoDup_map_Some {A : Type} (l : list A) :
  NoDup (map Some l) <-> NoDup l.
Proof.
  split.
  - apply NoDup_map_inv.
  - induction 1 as [|x l Hx Hl IH]; simpl; constructor; [|exact IH].
    intros Hin. apply in_map_iff in Hin. destruct Hin as [y [Hy Hin]].
    injection Hy as ->. exact (Hx Hin).
Qed.

Section Concurrency.
Context {E : Externals}.
Import SevenZipFile.

(** C7 (as amended).  [extractall] asks the worker for concurrent
    decompression exactly when there is more than one folder, there are
    as many pack streams as folders, and no two entries of the archive,
    of whatever kind, have the same name; otherwise it asks for
    sequential extraction.  The sinks are registered in header order,
    and a worker that serves them sequentially in that order, as the
    specification describes it, leaves at a path registered more than
    once the bytes of the last entry registered for it. *)
Theorem C7_multi_thread_by_names
        (s s1 : t) (path : option string) (w w1 : fs) (l : locals)
        (fl : list FI.t) (h : Header.t) (m : StreamsInfo.t) :
  extract_prepare s path w = (Ok (s1, l), w1) ->
  files s = Some fl ->
  header s = Some h ->
  Header.main_streams h = Some m ->
  (multi_thread l = true
   <-> 1 < UnpackInfo.numfolders (StreamsInfo.unpackinfo m)
       /\ PackInfo.numstreams (StreamsInfo.packinfo m)
          = UnpackInfo.numfolders (StreamsInfo.unpackinfo m)
       /\ NoDup (map FI.filename fl))
  /\ extractall s path w = extract_finish path s1 l w1
  /\ StronglySorted lt (map fst (Worker.target_filepath (l_worker l)))
  /\ (forall payload p id data r1 r2,
        Worker.target_filepath (l_worker l)
        = r1 ++ (id, Worker.SinkPath p) :: r2 ->
        ~ In p (Worker.paths_of r2) ->
        (forall i sk, In (i, sk) (Worker.target_filepath (l_worker l)) ->
                      exists d, payload i = Ok d) ->
        payload id = Ok data ->
        forall b w0, exists b' w',
          SpecModel.sequential_extract payload
            (Worker.target_filepath (l_worker l)) b w0 = (Ok b', w')
          /\ SpecModel.lookup p w' = Some (SpecModel.Reg data)).
Proof.
  intros Hprep Hfiles Hh Hm.
  assert (Hext : extractall s path w = extract_finish path s1 l w1).
  { unfold extractall, mbind. rewrite Hprep. reflexivity. }
  unfold extract_prepare, mbind, lift in Hprep.
  destruct (reset s) as [s1'|] eqn:Hreset; [|discriminate].
  destruct (reset_ok _ Hreset) as [ah [fl' [h' [_ [Hfl' [Hh' [Hf1 [Hh1 Hw1]]]]]]]].
  rewrite Hfiles in Hfl'. injection Hfl' as <-.
  rewrite Hh in Hh'. injection Hh' as <-.
  destruct (make_root path w) as [[[]|] w0]; [|discriminate].
  rewrite Hh1 in Hprep. simpl in Hprep. rewrite Hm in Hprep.
  simpl in Hprep. rewrite Hw1, Hf1 in Hprep. simpl in Hprep.
  destruct (extract_loop path (ArchiveFileList.iter 0 fl) _ w0)
    as [[l'|] w2] eqn:Hloop; [|discriminate].
  unfold mret in Hprep. injection Hprep as -> -> ->.
  split; [|split; [exact Hext|split]].
  - destruct (@extract_loop_flag E path _ _ _ _ _ Hloop (NoDup_nil _))
      as [names [Hnames [_ Hiff]]].
    simpl in Hiff. unfold ArchiveFileList.iter in Hnames.
    rewrite map_filename_iter in Hnames. rewrite Hnames, NoDup_map_Some.
    rewrite Hiff. unfold initial_multi_thread.
    rewrite andb_true_iff, Nat.ltb_lt, Nat.eqb_eq. tauto.
  - apply (@extract_loop_order E path fl 0 _ _ _ _ Hloop); simpl; constructor.
  - intros payload p id data r1 r2 Hregs Hlast Hok Hdata b w0'.
    rewrite Hregs in *.
    apply sequential_extract_last_wins; assumption.
Qed.

End Concurrency.

(** C7, witness: two files named [a] in two folders.  The flag is off,
    and the sequential worker leaves at [out/a] the bytes of the second
    file. *)
Lemma C7_multi_thread_by_names_witness :
  exists s1 l w1,
    @SevenZipFile.extract_prepare ExampleHandles.numbered
      ExampleHandles.same_name_handle (Some "out"%string) []
    = (Ok (s1, l), w1)
    /\ SevenZipFile.multi_thread l = false
    /\ exists b' w',
        SpecModel.sequential_extract (fun i => Ok (repeat x41 i))
          (Worker.target_filepath (SevenZipFile.l_worker l)) (fun _ => []) w1
        = (Ok b', w')
        /\ SpecModel.lookup "out/a"%string w' = Some (SpecModel.Reg [x41]).
Proof.
  destruct (@SevenZipFile.extract_prepare ExampleHandles.numbered
              ExampleHandles.same_name_handle (Some "out"%string) [])
    as [[[s1 l]|ex] w1] eqn:Hprep; [|vm_compute in Hprep; discriminate Hprep].
  destruct (@C7_multi_thread_by_names ExampleHandles.numbered
              ExampleHandles.same_name_handle s1 (Some "out"%string) [] w1 l
              _ _ _ Hprep eq_refl eq_refl eq_refl)
    as [Hflag [_ [_ Hlast]]].
  exists s1, l, w1. split; [reflexivity|].
  vm_compute in Hprep. injection Hprep as <- <- <-.
  split; [reflexivity|].
  apply (Hlast (fun i => Ok (repeat x41 i)) "out/a"%string 1 [x41]
               [(0, Worker.SinkPath "out/a"%string)] []).
  - reflexivity.
  - intros [].
  - intros i sk _. eexists. reflexivity.
  - reflexivity.
Defined.

(** C7, counterexample.  Two folders, two pack streams, the directory
    [d] listed twice and the files [a] and [b]: no two registered
    entries share an output path (directories are not registered at
    all), yet the flag is off. *)
Lemma C7_counterexample :
  exists s1 l w1,
    @SevenZipFile.extract_prepare (ExampleHandles.plain [x48])
      ExampleHandles.twice_dir_handle (Some "out"%string) []
    = (Ok (s1, l), w1)
    /\ ~ SevenZipFile.multi_thread_as_specified Examples.two_folder_streams l.
Proof.
  do 3 eexists. split; [vm_compute; reflexivity|].
  intros [_ Hon].
  assert (Hoff : true = false); [|discriminate Hoff].
  rewrite <- Hon; [reflexivity|].
  split; [simpl; lia|]. split; [reflexivity|].
  vm_compute. constructor.
  - intros [H|[]]. discriminate H.
  - constructor; [intros []|constructor].
Qed.

(** ** Integrity test *)

Lemma firstn_chunks {A : Type} (l : list A) (b r : nat) :
  b <= r ->
  firstn b l ++ firstn (r - b) (skipn (List.length (firstn b l)) l)
  = firstn r l.
Proof.
  revert b r. induction l as [|x l IH]; intros b r Hbr.
  - rewrite !firstn_nil. reflexivity.
  - destruct b as [|b].
    + simpl. rewrite Nat.sub_0_r. reflexivity.
    + destruct r as [|r]; [lia|]. simpl. f_equal. apply IH. lia.
Qed.

Section IntegrityTest.
Context {E : Externals}.
Import SevenZipFile.

(** With fuel for [remaining_size] rounds the loop function obeys the
    equation of the [while] loop. *)
Lemma _test_digest_raw_loop_eq (fuel : nat) (remaining_size : Z)
      (digest : option Z) (f : File.t) :
  Z.to_nat remaining_size <= fuel ->
  _test_digest_raw_loop fuel remaining_size digest f =
  if (0 <? remaining_size)%Z then
    let block := Z.min (Z.pos read_blocksize) remaining_size in
    let '(data, f1) := File.read block f in
    _test_digest_raw_loop (Nat.pred fuel) (remaining_size - block)
      (Some (calculate_crc32 data digest)) f1
  else (digest, f).
Proof.
  intros Hfuel. destruct fuel as [|fuel]; simpl.
  - destruct (Z.ltb_spec 0 remaining_size); [lia|reflexivity].
  - reflexivity.
Qed.

(** A region of no bytes never passes: [digest] is still [None] when it
    is compared with the recorded CRC. *)
Lemma _test_digest_raw_empty (pos size crc : Z) (f : File.t) :
  (0 <= pos)%Z -> (size <= 0)%Z ->
  _test_digest_raw pos size crc f
  = Ok (false, File.mk (File.content f) pos (File.closed f)).
Proof.
  intros Hpos Hsize. unfold _test_digest_raw, File.seek.
  destruct (Z.ltb_spec pos 0); [lia|]. simpl.
  rewrite _test_digest_raw_loop_eq by lia.
  destruct (Z.ltb_spec 0 size); [lia|]. reflexivity.
Qed.

(** From here on the CRC of the collaborator can be continued:
    feeding [b] after [a] is feeding [a ++ b]. *)
Hypothesis calculate_crc32_continues :
  forall (a b : list byte) (v : option Z),
    calculate_crc32 b (Some (calculate_crc32 a v)) = calculate_crc32 (a ++ b) v.

Lemma _test_digest_raw_loop_crc (fuel : nat) :
  forall (remaining_size : Z) (acc : list byte) (v : option Z) (f : File.t),
    Z.to_nat remaining_size <= fuel ->
    (0 <= File.pos f)%Z ->
    fst (_test_digest_raw_loop fuel remaining_size
           (Some (calculate_crc32 acc v)) f)
    = Some (calculate_crc32
              (acc ++ firstn (Z.to_nat remaining_size)
                        (skipn (Z.to_nat (File.pos f)) (File.content f)))
              v).
Proof.
  induction fuel as [|fuel IH]; intros remaining_size acc v f Hfuel Hpos.
  - simpl. replace (Z.to_nat remaining_size) with 0 by lia.
    simpl. rewrite app_nil_r. reflexivity.
  - simpl. destruct (Z.ltb_spec 0 remaining_size) as [Hrem|Hrem].
    + set (block := Z.min (Z.pos read_blocksize) remaining_size).
      assert (Hblock : (1 <= block <= remaining_size)%Z)
        by (unfold block; lia).
      unfold File.read.
      set (L := skipn (Z.to_nat (File.pos f)) (File.content f)).
      set (data := firstn (Z.to_nat block) L).
      rewrite calculate_crc32_continues.
      rewrite IH; simpl File.pos; simpl File.content; try lia.
      f_equal. rewrite <- app_assoc. do 2 f_equal.
      replace (Z.to_nat (File.pos f + Z.of_nat (List.length data)))
        with (List.length data + Z.to_nat (File.pos f)) by lia.
      rewrite <- skipn_skipn. fold L.
      replace (Z.to_nat (remaining_size - block))
        with (Z.to_nat remaining_size - Z.to_nat block) by lia.
      unfold data. apply firstn_chunks. lia.
    + simpl. replace (Z.to_nat remaining_size) with 0 by lia.
      simpl. rewrite app_nil_r. reflexivity.
Qed.

(** On a region of at least one byte, [_test_digest_raw] compares the
    recorded CRC with the CRC-32 of the bytes that the file holds from
    [pos] on, [size] of them or as many as are left. *)
Lemma _test_digest_raw_crc (pos size crc : Z) (f : File.t) :
  (0 <= pos)%Z -> (0 < size)%Z ->
  exists f',
    _test_digest_raw pos size crc f
    = Ok (Z.eqb (calculate_crc32
                   (firstn (Z.to_nat size)
                      (skipn (Z.to_nat pos) (File.content f))) None)
                crc, f').
Proof.
  intros Hpos Hsize. unfold _test_digest_raw, File.seek.
  destruct (Z.ltb_spec pos 0); [lia|]. simpl.
  rewrite _test_digest_raw_loop_eq by lia.
  destruct (Z.ltb_spec 0 size); [|lia].
  set (block := Z.min (Z.pos read_blocksize) size).
  assert (Hblock : (1 <= block <= size)%Z) by (unfold block; lia).
  unfold File.read. simpl File.pos. simpl File.content.
  set (L := skipn (Z.to_nat pos) (File.content f)).
  set (data := firstn (Z.to_nat block) L).
  match goal with
  | |- context [_test_digest_raw_loop ?n ?r ?d ?g] =>
      pose proof (@_test_digest_raw_loop_crc n r data None g) as Hloop;
      destruct (_test_digest_raw_loop n r d g) as [digest f2] eqn:Hrun
  end.
  simpl in Hloop. rewrite Hloop by lia.
  exists f2. unfold digest_eq.
  replace (Z.to_nat (pos + Z.of_nat (List.length data)))
    with (List.length data + Z.to_nat pos) by lia.
  rewrite <- skipn_skipn. fold L.
  replace (Z.to_nat (size - block))
    with (Z.to_nat size - Z.to_nat block) by lia.
  unfold data. rewrite firstn_chunks by lia. reflexivity.
Qed.

End IntegrityTest.

(** The CRC-32 of [SpecModel] can be continued. *)
Lemma SpecModel_crc32_continues (a b : list byte) (v : option Z) :
  SpecModel.calculate_crc32 b (Some (SpecModel.calculate_crc32 a v))
  = SpecModel.calculate_crc32 (a ++ b) v.
Proof.
  unfold SpecModel.calculate_crc32, SpecModel.crc32.
  rewrite fold_left_app. do 2 f_equal.
  rewrite Z.lxor_assoc, Z.lxor_nilpotent, Z.lxor_0_r. reflexivity.
Qed.

Section TestOutcome.
Context {E : Externals}.
Import SevenZipFile.

(** A failed pack-stream check makes [test()] return [False] at once. *)
Lemma test_false_on_pack_mismatch (s s1 : t) (w : fs) :
  _test_pack_digest s = Ok (false, s1) ->
  test s w = (Ok (false, s1), w).
Proof.
  intros H. unfold test, _test_digests. rewrite H. reflexivity.
Qed.

(** Without pack CRCs the pack-stream check passes. *)
Lemma _test_pack_digest_no_crcs (s s1 : t) (h : Header.t) (m : StreamsInfo.t) :
  reset s = Ok s1 ->
  header s = Some h ->
  Header.main_streams h = Some m ->
  PackInfo.crcs (StreamsInfo.packinfo m) = None
  \/ PackInfo.crcs (StreamsInfo.packinfo m) = Some [] ->
  _test_pack_digest s = Ok (true, s1).
Proof.
  intros Hreset Hh Hm Hcrcs. unfold _test_pack_digest. rewrite Hreset. simpl.
  destruct (reset_ok _ Hreset) as [ah [fl [h' [_ [_ [Hh' [_ [Hh1 _]]]]]]]].
  rewrite Hh in Hh'. injection Hh' as <-. rewrite Hh1. simpl.
  rewrite Hm. simpl. destruct Hcrcs as [-> | ->]; reflexivity.
Qed.

(** Once the pack streams have passed, [test()] is decided by the
    worker: [True] when it returns, [False] when it raises
    [Bad7zFile], which is caught; any other exception propagates. *)
Lemma test_decided_by_worker (s s1 s2 : t) (w : fs) (fl : list FI.t)
      (wk : Worker.t) :
  _test_pack_digest s = Ok (true, s1) ->
  reset s1 = Ok s2 ->
  files s2 = Some fl ->
  worker s2 = Some wk ->
  let wk1 := register_all_none (ArchiveFileList.iter 0 fl) wk in
  match Worker_extract wk1 (fp s2) None w with
  | (Ok _, f, w') =>
      test s w = (Ok (true, set_fp f (set_worker wk1 s2)), w')
  | (Raise (Bad7zFile _), f, w') =>
      test s w = (Ok (false, set_fp f (set_worker wk1 s2)), w')
  | (Raise ex, _, w') => test s w = (Raise ex, w')
  end.
Proof.
  intros Hpack Hreset Hfl Hwk wk1.
  unfold test, _test_digests, _test_unpack_digest.
  rewrite Hpack, Hreset, Hfl, Hwk. simpl. fold wk1.
  destruct (Worker_extract wk1 (fp s2) None w) as [[[b|ex] f] w'];
    [reflexivity|].
  destruct ex; reflexivity.
Qed.

(** A handle whose header has no main streams cannot be tested: the
    attribute is read without a guard. *)
Lemma test_without_main_streams (s s1 : t) (h : Header.t) (w : fs) :
  reset s = Ok s1 ->
  header s = Some h ->
  Header.main_streams h = None ->
  test s w = (Raise AttributeError, w).
Proof.
  intros Hreset Hh Hm. unfold test, _test_digests, _test_pack_digest.
  rewrite Hreset. simpl.
  destruct (reset_ok _ Hreset) as [ah [fl [h' [_ [_ [Hh' [_ [Hh1 _]]]]]]]].
  rewrite Hh in Hh'. injection Hh' as <-. rewrite Hh1. simpl.
  rewrite Hm. reflexivity.
Qed.

(** An empty first pack stream with a recorded CRC makes [test()]
    return [False], whatever the CRC and whatever the worker would do. *)
Lemma test_false_on_empty_pack_stream (s s1 : t) (h : Header.t)
      (m : StreamsInfo.t) (w : fs) (c p : Z) (cs ps sizes : list Z) :
  reset s = Ok s1 ->
  header s = Some h ->
  Header.main_streams h = Some m ->
  PackInfo.crcs (StreamsInfo.packinfo m) = Some (c :: cs) ->
  PackInfo.packpositions (StreamsInfo.packinfo m) = p :: ps ->
  PackInfo.packsizes (StreamsInfo.packinfo m) = 0%Z :: sizes ->
  (0 <= p)%Z ->
  exists s2, test s w = (Ok (false, s2), w).
Proof.
  intros Hreset Hh Hm Hcrcs Hpos Hsizes Hp.
  unfold test, _test_digests, _test_pack_digest. rewrite Hreset. simpl.
  destruct (reset_ok _ Hreset) as [ah [fl [h' [_ [_ [Hh' [_ [Hh1 _]]]]]]]].
  rewrite Hh in Hh'. injection Hh' as <-. rewrite Hh1. simpl.
  rewrite Hm. simpl. rewrite Hcrcs, Hpos. simpl. rewrite Hsizes. simpl.
  rewrite _test_digest_raw_empty by lia. simpl. eauto.
Qed.

End TestOutcome.

(** C3 (code defect).  An archive whose one pack stream is empty and
    whose recorded pack CRC is 0: the CRC-32 of the empty pack region is
    0, so no pack CRC mismatches, and the worker decompresses every
    folder without reporting corruption; yet [test()] returns [False].
    [_test_digest_raw] leaves [digest] at [None] when there is nothing
    to read, and [None == crc] is false for every recorded CRC. *)
Theorem C3_empty_pack_stream_fails_test :
  SpecModel.calculate_crc32 [] None = 0%Z
  /\ (exists s, fst (@SevenZipFile._test_unpack_digest (ExampleHandles.plain [])
                       ExampleHandles.zero_pack_handle [])
                = Ok (true, s))
  /\ (exists s, @SevenZipFile.test (ExampleHandles.plain [])
                  ExampleHandles.zero_pack_handle []
                = (Ok (false, s), [])).
Proof.
  split; [reflexivity|]. split; eexists; vm_compute; reflexivity.
Qed.

(** ** The empty archive *)

Section EmptyArchive.
Context {E : Externals}.
Import SevenZipFile.

(** C4 (code defect).  The minimal empty archive has no metadata
    bytes, so whatever the decoder makes of them has no main streams: it
    raises, or returns no header at all, or a header without sections.
    If it raises, so does the constructor.  With no header,
    [_real_get_contents] returns early, [self.files] and [self.header]
    are never assigned, and [reset()] makes the constructor fail with
    [AttributeError].  With a header without sections the archive opens,
    [getnames()] and [list()] return the empty list, and [test()] raises
    [AttributeError] on [self.header.main_streams].  In no case does
    [test()] return [True]. *)
Theorem C4_empty_archive_test_never_true
        (f f0 f1 f3 : File.t) (filePassed : bool) (name : option string)
        (sig : SignatureHeader.t) (decoded : result (option Header.t)) :
  _check_7zfile f = (Ok true, f0) ->
  SignatureHeader_retrieve f0 = (Ok sig, f1) ->
  SignatureHeader.nextheaderofs sig = 0%Z ->
  SignatureHeader.nextheadersize sig = 0%Z ->
  SignatureHeader.nextheadercrc sig = calculate_crc32 [] None ->
  (0 <= File.pos f1)%Z ->
  Header_retrieve f1 [] (File.tell f1) = (decoded, f3) ->
  match decoded with
  | Raise ex =>
      exists f', __init__ f filePassed name mode_r = (Raise ex, f')
  | Ok None =>
      exists f', __init__ f filePassed name mode_r = (Raise AttributeError, f')
  | Ok (Some h) =>
      Header.main_streams h = None ->
      Header.files_info h = None ->
      exists s f',
        __init__ f filePassed name mode_r = (Ok s, f')
        /\ getnames s = Ok []
        /\ list_ s = Ok []
        /\ forall w, test s w = (Raise AttributeError, w)
  end.
Proof.
  intros Hmagic Hsig Hofs Hsize Hcrc Hpos Hdec.
  assert (Hread : _read_header_data sig f1 = (Ok [], f1)).
  { unfold _read_header_data, File.seek_cur, File.seek, File.read.
    rewrite Hofs, Hsize, Hcrc, Z.add_0_r.
    destruct (Z.ltb_spec (File.pos f1) 0); [lia|].
    simpl. rewrite Z.eqb_refl, Z.add_0_r. simpl.
    destruct f1; reflexivity. }
  assert (Hseek : forall g, File.seek (File.tell f1) g
                            = Ok (File.mk (File.content g) (File.tell f1)
                                          (File.closed g))).
  { intros g. unfold File.seek, File.tell.
    destruct (Z.ltb_spec (File.pos f1) 0); [lia|reflexivity]. }
  destruct decoded as [[h|]|ex].
  - intros Hm Hfi.
    unfold __init__, _real_get_contents. cbn [fp].
    rewrite Hmagic, Hsig, Hread, Hdec.
    unfold _assign_contents. rewrite Hfi.
    unfold reset at 1, attr. cbn -[File.seek File.tell]. rewrite Hseek.
    cbn -[File.tell test].
    do 2 eexists. split; [reflexivity|].
    split; [reflexivity|]. split; [reflexivity|].
    intros w. eapply test_without_main_streams.
    + unfold reset, attr. cbn -[File.seek File.tell]. rewrite Hseek.
      cbn -[File.tell]. reflexivity.
    + reflexivity.
    + exact Hm.
  - unfold __init__, _real_get_contents. cbn [fp].
    rewrite Hmagic, Hsig, Hread, Hdec.
    unfold reset, attr. cbn -[File.seek File.tell]. rewrite Hseek.
    cbn. eauto.
  - unfold __init__, _real_get_contents. cbn [fp].
    rewrite Hmagic, Hsig, Hread, Hdec. cbn. eauto.
Qed.

End EmptyArchive.

(** C4, witness: the 32 bytes of the empty archive, with a decoder that
    returns no header for no metadata, and with one that returns a
    header without sections. *)
Lemma C4_empty_archive_test_never_true_witness :
  (exists f',
     @SevenZipFile.__init__
       (SpecModel.externals (fun _ => Ok None) (fun _ => Ok []))
       (File.opened ExampleArchives.empty_archive) false
       (Some "empty.7z"%string) mode_r
     = (Raise AttributeError, f'))
  /\ (exists s f',
        @SevenZipFile.__init__
          (SpecModel.externals (fun _ => Ok (Some (Header.mk None None 0)))
             (fun _ => Ok []))
          (File.opened ExampleArchives.empty_archive) false
          (Some "empty.7z"%string) mode_r
        = (Ok s, f')
        /\ SevenZipFile.getnames s = Ok []
        /\ @SevenZipFile.test
             (SpecModel.externals (fun _ => Ok (Some (Header.mk None None 0)))
                (fun _ => Ok []))
             s []
           = (Raise AttributeError, [])).
Proof.
  split.
  - exact (@C4_empty_archive_test_never_true
             (SpecModel.externals (fun _ => Ok None) (fun _ => Ok []))
             (File.opened ExampleArchives.empty_archive)
             (File.opened ExampleArchives.empty_archive)
             (File.mk ExampleArchives.empty_archive 32 false)
             (File.mk ExampleArchives.empty_archive 32 false)
             false (Some "empty.7z"%string)
             (SignatureHeader.mk (0, 4) 265657229 0 0 0)%Z (Ok None)
             eq_refl eq_refl eq_refl eq_refl eq_refl
             ltac:(simpl; lia) eq_refl).
  - destruct (@C4_empty_archive_test_never_true
                (SpecModel.externals
                   (fun _ => Ok (Some (Header.mk None None 0)))
                   (fun _ => Ok []))
                (File.opened ExampleArchives.empty_archive)
                (File.opened ExampleArchives.empty_archive)
                (File.mk ExampleArchives.empty_archive 32 false)
                (File.mk ExampleArchives.empty_archive 32 false)
                false (Some "empty.7z"%string)
                (SignatureHeader.mk (0, 4) 265657229 0 0 0)%Z
                (Ok (Some (Header.mk None None 0)))
                eq_refl eq_refl eq_refl eq_refl eq_refl
                ltac:(simpl; lia) eq_refl eq_refl eq_refl)
      as [s [f' [Hopen [Hnames [_ Htest]]]]].
    exists s, f'. split; [exact Hopen|]. split; [exact Hnames|].
    apply Htest.
Defined.

(* ------------------------------------------------------------------ *)
(** ** The magic check and the constructor's failures *)

Lemma skipn_firstn_six (data : list byte) :
  firstn 6 (firstn 6 data) = firstn 6 data.
Proof. rewrite firstn_firstn. reflexivity. Qed.

Lemma magic_needs_six (data : list byte) :
  List.length data < 6 -> starts_with_magic data = false.
Proof.
  intros Hlen. unfold starts_with_magic.
  destruct (list_eq_dec Byte.byte_eq_dec MAGIC_7Z
              (firstn (List.length MAGIC_7Z) data)) as [Heq|]; [|reflexivity].
  apply (f_equal (@List.length byte)) in Heq.
  rewrite length_firstn in Heq. unfold MAGIC_7Z in Heq.
  cbn [List.length] in Heq. lia.
Qed.

(** The check, by the number of bytes that remain after the position. *)
Lemma _check_7zfile_cases (f : File.t) :
  (0 <= File.pos f)%Z ->
  let rest := skipn (Z.to_nat (File.pos f)) (File.content f) in
  let k := Z.of_nat (Nat.min 6 (List.length rest)) in
  SevenZipFile._check_7zfile f =
  if (File.pos f + k - 6 <? 0)%Z
  then (Raise (OSError EINVAL),
        File.mk (File.content f) (File.pos f + k) (File.closed f))
  else (Ok (starts_with_magic rest),
        File.mk (File.content f) (File.pos f + k - 6) (File.closed f)).
Proof.
  intros Hpos rest k. unfold SevenZipFile._check_7zfile, File.read.
  change (Z.of_nat (List.length MAGIC_7Z)) with 6%Z.
  change (Z.to_nat 6) with 6. fold rest.
  rewrite length_firstn. fold k.
  unfold File.seek_cur, File.seek. cbn [File.pos File.content File.closed].
  replace (File.pos f + k + - (6))%Z with (File.pos f + k - 6)%Z by lia.
  destruct (File.pos f + k - 6 <? 0)%Z; [reflexivity|].
  unfold starts_with_magic. change (List.length MAGIC_7Z) with 6.
  rewrite skipn_firstn_six. reflexivity.
Qed.

Lemma _check_7zfile_fresh (content : list byte) :
  SevenZipFile._check_7zfile (File.opened content) =
  if Nat.ltb (List.length content) 6
  then (Raise (OSError EINVAL),
        File.mk content (Z.of_nat (List.length content)) false)
  else (Ok (starts_with_magic content), File.opened content).
Proof.
  rewrite _check_7zfile_cases by (simpl; lia).
  unfold File.opened. cbn [File.pos File.content File.closed].
  change (Z.to_nat 0) with 0. rewrite skipn_O.
  destruct (Nat.ltb_spec (List.length content) 6) as [Hlt|Hge].
  - rewrite Nat.min_r by lia.
    destruct (Z.ltb_spec (0 + Z.of_nat (List.length content) - 6) 0); [|lia].
    reflexivity.
  - rewrite Nat.min_l by lia.
    destruct (Z.ltb_spec (0 + Z.of_nat 6 - 6) 0); [lia|]. reflexivity.
Qed.

(** X1. On an open file with at least six bytes after the current
    position, [_check_7zfile] tells whether they are the magic and leaves
    the file object exactly as it was. *)
Theorem X1_check_7zfile_restores_position (f : File.t) :
  File.closed f = false ->
  (0 <= File.pos f)%Z ->
  (File.pos f + 6 <= Z.of_nat (List.length (File.content f)))%Z ->
  SevenZipFile._check_7zfile f
  = (Ok (starts_with_magic (skipn (Z.to_nat (File.pos f)) (File.content f))),
     f).
Proof.
  intros _ Hpos Hlen. rewrite _check_7zfile_cases by assumption.
  rewrite length_skipn. rewrite Nat.min_l by lia.
  destruct (Z.ltb_spec (File.pos f + Z.of_nat 6 - 6) 0); [lia|].
  replace (File.pos f + Z.of_nat 6 - 6)%Z with (File.pos f) by lia.
  destruct f; reflexivity.
Qed.

Lemma X1_check_7zfile_restores_position_witness :
  SevenZipFile._check_7zfile (File.mk OtherInputs.zip_bytes 2 false)
  = (Ok false, File.mk OtherInputs.zip_bytes 2 false).
Proof.
  apply (X1_check_7zfile_restores_position
           (File.mk OtherInputs.zip_bytes 2 false));
    [reflexivity | simpl; lia | simpl; lia].
Defined.

(** X2. On an open file with fewer than six bytes after the current
    position, [_check_7zfile] still steps back by six from where the read
    ended: the answer is [False] and the position ends before the one it
    started from, or, when that would be before the start of the file,
    the seek raises [OSError] and the position is left after the bytes
    read. *)
Theorem X2_check_7zfile_short_read (f : File.t) (k : nat) :
  File.closed f = false ->
  (0 <= File.pos f)%Z ->
  List.length (skipn (Z.to_nat (File.pos f)) (File.content f)) = k ->
  k < 6 ->
  SevenZipFile._check_7zfile f =
  if (File.pos f + Z.of_nat k <? 6)%Z
  then (Raise (OSError EINVAL),
        File.mk (File.content f) (File.pos f + Z.of_nat k) (File.closed f))
  else (Ok false,
        File.mk (File.content f) (File.pos f + Z.of_nat k - 6) (File.closed f)).
Proof.
  intros _ Hpos Hk Hlt. rewrite _check_7zfile_cases by assumption.
  rewrite Hk, Nat.min_r by lia.
  rewrite magic_needs_six by lia.
  destruct (Z.ltb_spec (File.pos f + Z.of_nat k - 6) 0);
    destruct (Z.ltb_spec (File.pos f + Z.of_nat k) 6); try lia; reflexivity.
Qed.

Lemma X2_check_7zfile_short_read_witness :
  SevenZipFile._check_7zfile (File.mk OtherInputs.zip_bytes 7 false)
  = (Ok false, File.mk OtherInputs.zip_bytes 2 false).
Proof.
  apply (X2_check_7zfile_short_read (File.mk OtherInputs.zip_bytes 7 false)
           (k := 1)); [reflexivity | simpl; lia | reflexivity | lia].
Defined.

Lemma is_7zfile_checked_ok (f : File.t) :
  exists b, is_7zfile_checked f = Ok b.
Proof.
  unfold is_7zfile_checked, SevenZipFile._check_7zfile.
  destruct (File.read _ f) as [data f1].
  unfold File.seek_cur, File.seek.
  destruct (_ <? 0)%Z; eauto.
Qed.

(** X3. Given an open file object, or a name, [is_7zfile] raises in
    two cases only: the argument is neither a file object, a string nor a
    path ([TypeError]), or opening the named file raised something other
    than an [OSError], which is passed on.  Whatever the check itself
    meets on the open file ends in an answer. *)
Theorem X3_is_7zfile_raises_only (file : is_7zfile_arg) (e : exn) :
  match file with
  | ArgFileObject f => File.closed f = false
  | _ => True
  end ->
  is_7zfile file = Raise e ->
  (file = ArgOther /\ e = TypeError)
  \/ ((file = ArgStr (Raise e) \/ file = ArgPath (Raise e))
      /\ forall errno, e <> OSError errno).
Proof.
  intros _. destruct file as [f|opened|opened|]; simpl.
  - destruct (is_7zfile_checked_ok f) as [b ->]. discriminate.
  - destruct opened as [f|e0]; simpl.
    + destruct (is_7zfile_checked_ok f) as [b ->]. discriminate.
    + destruct e0; intros H; inversion H; subst;
        right; (split; [left; reflexivity | intros errno' Hn; discriminate Hn]).
  - destruct opened as [f|e0]; simpl.
    + destruct (is_7zfile_checked_ok f) as [b ->]. discriminate.
    + destruct e0; intros H; inversion H; subst;
        right; (split; [right; reflexivity | intros errno' Hn; discriminate Hn]).
  - intros H; inversion H. left. split; reflexivity.
Qed.

Lemma X3_is_7zfile_raises_only_witness :
  (ArgOther = ArgOther /\ TypeError = TypeError)
  \/ ((ArgOther = ArgStr (Raise TypeError)
       \/ ArgOther = ArgPath (Raise TypeError))
      /\ forall errno, TypeError <> OSError errno).
Proof.
  apply (X3_is_7zfile_raises_only ArgOther); [exact I | reflexivity].
Defined.

(** X4. On a file object positioned at its start, or on the name of a
    file that opens, [is_7zfile] answers whether the content begins with
    the six magic bytes; a content shorter than six bytes gives [False]
    (the [OSError] of the backward seek is swallowed), and so does a name
    that cannot be opened. *)
Theorem X4_is_7zfile_fresh (content : list byte) (errno : Z) :
  is_7zfile (ArgFileObject (File.opened content))
  = Ok (starts_with_magic content)
  /\ is_7zfile (ArgStr (Ok (File.opened content)))
     = Ok (starts_with_magic content)
  /\ is_7zfile (ArgPath (Ok (File.opened content)))
     = Ok (starts_with_magic content)
  /\ is_7zfile (ArgStr (Raise (OSError errno))) = Ok false
  /\ is_7zfile (ArgPath (Raise (OSError errno))) = Ok false.
Proof.
  assert (H : is_7zfile_checked (File.opened content)
              = Ok (starts_with_magic content)).
  { unfold is_7zfile_checked. rewrite _check_7zfile_fresh.
    destruct (Nat.ltb_spec (List.length content) 6) as [Hlt|Hge].
    - rewrite magic_needs_six by assumption. reflexivity.
    - reflexivity. }
  repeat split; simpl; try assumption; reflexivity.
Qed.

Section Constructor.
Context {E : Externals}.
Import SevenZipFile.

(** Reading the contents leaves the reference count and the ownership
    of the file object alone. *)
Lemma _real_get_contents_keeps (s s1 : t) (f : File.t) :
  _real_get_contents s = (Ok s1, f) ->
  _filePassed s1 = _filePassed s /\ _fileRefCnt s1 = _fileRefCnt s.
Proof.
  unfold _real_get_contents.
  destruct (_check_7zfile (fp s)) as [[[|]|e0] f0]; try discriminate.
  destruct (SignatureHeader_retrieve f0) as [[sig|e1] f1]; try discriminate.
  destruct (_read_header_data sig f1) as [[buffer|e2] f2]; try discriminate.
  destruct (Header_retrieve f2 buffer (File.tell f1)) as [[[h|]|e3] f3];
    try discriminate.
  - unfold _assign_contents.
    destruct (Header.files_info h) as [finfo|].
    + destruct (Retrieve._filelist_retrieve _ _ _ _ _) as [out|e4];
        simpl; intros H; inversion H; subst; simpl; split; reflexivity.
    + intros H; inversion H; subst; simpl; split; reflexivity.
  - intros H; inversion H; subst; simpl; split; reflexivity.
Qed.



(** X6. Whatever the mode and whatever makes the constructor fail, a
    file object that the constructor opened itself is closed when the
    exception leaves it. *)
Theorem X6_init_failure_closes_owned_file
        (f f' : File.t) (name : option string) (m : open_mode) (e : exn) :
  __init__ f false name m = (Raise e, f') ->
  File.closed f' = true.
Proof.
  unfold __init__. destruct m.
  - destruct (_real_get_contents _) as [[s1|e1] f1] eqn:Hget.
    + destruct (reset s1) as [s2|e2] eqn:Hreset; [discriminate|].
      apply _real_get_contents_keeps in Hget. cbn in Hget.
      destruct Hget as [Hp Hc].
      intros H; inversion H; subst. unfold _fpclose, set_fp. cbn.
      rewrite Hp, Hc. reflexivity.
    + intros H; inversion H; subst. reflexivity.
  - discriminate.
  - intros H; inversion H; subst. reflexivity.
  - intros H; inversion H; subst. reflexivity.
Qed.

(** X7. [reset] replaces the worker, so a handle can be used again:
    the outcomes of [test] and of [extractall] do not depend on what an
    earlier call has registered with the worker. *)
Theorem X7_reset_forgets_registrations
        (s : t) (wk : Worker.t) (path : option string) (w : fs) :
  reset (set_worker wk s) = reset s
  /\ test (set_worker wk s) w = test s w
  /\ extractall (set_worker wk s) path w = extractall s path w.
Proof.
  assert (Hreset : reset (set_worker wk s) = reset s) by reflexivity.
  split; [exact Hreset|]. split.
  - unfold test, _test_digests, _test_pack_digest. rewrite Hreset. reflexivity.
  - unfold extractall, extract_prepare. rewrite Hreset. reflexivity.
Qed.

End Constructor.


Lemma X6_init_failure_closes_owned_file_witness :
  File.closed (File.close (File.opened OtherInputs.zip_bytes)) = true.
Proof.
  apply (@X6_init_failure_closes_owned_file (ExampleHandles.plain [])
           (File.opened OtherInputs.zip_bytes)
           (File.close (File.opened OtherInputs.zip_bytes))
           None mode_a NotImplementedError).
  reflexivity.
Defined.

(* ------------------------------------------------------------------ *)
(** ** More on the reconstructor *)

Lemma nth_error_set_nth_other {A : Type} (l : list A) (i j : nat) (v : A) :
  i <> j -> nth_error (set_nth l i v) j = nth_error l j.
Proof.
  revert i j. induction l as [|a l IH]; intros [|i] [|j] Hne;
    simpl; try reflexivity; try congruence.
  apply IH. congruence.
Qed.

Section RetrieveMore.
Import Retrieve.

Variable e : env.

Lemma name_file_fields (f : FI.t) :
  FI.emptystream (name_file (basefilename e) f) = FI.emptystream f
  /\ FI.attributes (name_file (basefilename e) f) = FI.attributes f
  /\ FI.lastwritetime (name_file (basefilename e) f) = FI.lastwritetime f
  /\ FI.folder (name_file (basefilename e) f) = FI.folder f
  /\ FI.digest (name_file (basefilename e) f) = FI.digest f
  /\ FI.uncompressed (name_file (basefilename e) f) = FI.uncompressed f
  /\ FI.filename (name_file (basefilename e) f) =
       Some (match FI.filename f with
             | Some name => name
             | None => default_filename (basefilename e)
             end).
Proof.
  unfold name_file. destruct (FI.filename f) eqn:Hf; simpl; repeat split; auto.
Qed.

(** The [else] branch of the loop body. *)
Lemma step_without_stream (st : state) (file_id : nat) (fi : FI.t) :
  FI.emptystream fi = true \/ ms e = None ->
  step e st file_id fi
  = Ok (mk_state (folder_index st) (output_binary_index st) (streamidx st)
          (file_in_solid st) (instreamindex st) (folder_pos st)
          (src_pos st + 0)%Z (folders st)
          (files st ++ [stored_without_stream (basefilename e) fi])).
Proof.
  intros [Hempty|Hms]; unfold step.
  - rewrite Hempty. reflexivity.
  - rewrite Hms. destruct (negb (FI.emptystream fi)); reflexivity.
Qed.

Lemma stored_without_stream_fields (fi : FI.t) :
  same_parsed_fields (basefilename e) fi
    (stored_without_stream (basefilename e) fi)
  /\ FI.folder (stored_without_stream (basefilename e) fi) = Some None
  /\ FI.digest (stored_without_stream (basefilename e) fi) = FI.digest fi.
Proof.
  unfold stored_without_stream, same_parsed_fields.
  destruct (name_file_fields (FI.set_folder None (fill_empty fi)))
    as [N1 [N2 [N3 [N4 [N5 [N6 N7]]]]]].
  rewrite N1, N2, N3, N4, N5, N7. simpl. repeat split; reflexivity.
Qed.







End RetrieveMore.

Section RetrieveStreams.
Import Retrieve.

Variable e : env.
Variable m : StreamsInfo.t.
Hypothesis Hms : ms e = Some m.

(** More of what one round does with a record that has a stream: the
    counters, the parsed fields, the digest and the folder store. *)
Lemma step_stream_more (st st1 : state) (file_id : nat) (fi : FI.t) :
  FI.emptystream fi = false ->
  step e st file_id fi = Ok st1 ->
  exists folder0 n defined fi',
    nth_error (folders st) (folder_index st) = Some folder0
    /\ nth_error (SubstreamsInfo.num_unpackstreams_folders
                    (StreamsInfo.substreamsinfo m))
                 (folder_index st) = Some n
    /\ nth_error (SubstreamsInfo.digestsdefined (StreamsInfo.substreamsinfo m))
                 (output_binary_index st) = Some defined
    /\ files st1 = files st ++ [fi']
    /\ output_binary_index st1 = S (output_binary_index st)
    /\ same_parsed_fields (basefilename e) fi fi'
    /\ FI.folder fi' = Some (Some (folder_index st))
    /\ (if defined : bool
        then exists d,
            nth_error (SubstreamsInfo.digests (StreamsInfo.substreamsinfo m))
                      (output_binary_index st) = Some d
            /\ FI.digest fi' = Some d
        else FI.digest fi' = FI.digest fi)
    /\ folders st1 =
         set_nth (folders st) (folder_index st)
           (Folder.mk (Folder.coders folder0) (Folder.unpacksizes folder0)
              (solid_seen st folder0 n)
              (Some (match Folder.files folder0 with
                     | None => (file_id, [file_id])
                     | Some (off, l) => (off, l ++ [file_id])
                     end))).
Proof.
  intros Hempty Hstep. unfold step in Hstep. rewrite Hempty, Hms in Hstep.
  simpl negb in Hstep. cbv iota in Hstep.
  apply bind_ok in Hstep. destruct Hstep as [[[fi1 folder] nin] [Hfill Hfin]].
  unfold fill_stream in Hfill.
  apply bind_ok in Hfill. destruct Hfill as [folder0 [Hf0 Hfill]].
  apply bind_ok in Hfill. destruct Hfill as [folder' [Hfolder Hfill]].
  apply bind_ok in Hfill. destruct Hfill as [maxsize [_ Hfill]].
  apply bind_ok in Hfill. destruct Hfill as [u [Hu Hfill]].
  injection Hfill as Hfi1 Hfold Hnin.
  unfold finish_stream in Hfin.
  apply bind_ok in Hfin. destruct Hfin as [defined [Hdef Hfin]].
  apply bind_ok in Hfin. destruct Hfin as [fi2 [Hfi2 Hfin]].
  apply bind_ok in Hfin. destruct Hfin as [n [Hn Hfin]].
  assert (Hfolder_eq :
    folder = Folder.mk (Folder.coders folder0) (Folder.unpacksizes folder0)
               (solid_seen st folder0 n) (Folder.files folder0)).
  { subst folder. unfold solid_seen.
    destruct (Nat.eqb (streamidx st) 0).
    - apply bind_ok in Hfolder. destruct Hfolder as [n' [Hn' Hfolder]].
      rewrite Hn in Hn'. injection Hn' as <-.
      injection Hfolder as <-. reflexivity.
    - injection Hfolder as <-. destruct folder0; reflexivity. }
  assert (Hfields :
    FI.emptystream fi2 = FI.emptystream fi
    /\ FI.attributes fi2 = FI.attributes fi
    /\ FI.lastwritetime fi2 = FI.lastwritetime fi
    /\ FI.filename fi2 = FI.filename fi
    /\ FI.folder fi2 = Some (Some (folder_index st))
    /\ (if defined : bool
        then exists d,
            nth_error (SubstreamsInfo.digests (StreamsInfo.substreamsinfo m))
                      (output_binary_index st) = Some d
            /\ FI.digest fi2 = Some d
        else FI.digest fi2 = FI.digest fi)).
  { subst fi1. destruct defined.
    - apply bind_ok in Hfi2. destruct Hfi2 as [d [Hd Hfi2]].
      injection Hfi2 as <-. simpl. repeat split; auto.
      exists d. split; [apply index_ok; exact Hd | reflexivity].
    - injection Hfi2 as <-. simpl. repeat split; auto. }
  destruct Hfields as [F1 [F2 [F3 [F4 [F5 F6]]]]].
  destruct (name_file_fields e fi2) as [N1 [N2 [N3 [N4 [N5 [_ N7]]]]]].
  apply index_ok in Hf0, Hn, Hdef.
  exists folder0, n, defined, (name_file (basefilename e) fi2).
  assert (Hst1 :
    files st1 = files st ++ [name_file (basefilename e) fi2]
    /\ output_binary_index st1 = S (output_binary_index st)
    /\ folders st1 =
         set_nth (folders st) (folder_index st)
           match Folder.files folder with
           | Some (offset, l) => Folder.set_files (offset, l ++ [file_id]) folder
           | None => Folder.set_files (file_id, [file_id]) folder
           end).
  { destruct (Nat.leb n (S (streamidx st))).
    - apply bind_ok in Hfin. destruct Hfin as [fp1 [_ Hfin]].
      injection Hfin as <-. simpl. auto.
    - injection Hfin as <-. simpl. auto. }
  destruct Hst1 as [S1 [S2 S3]].
  repeat (split; [first [assumption | reflexivity] |]).
  split.
  { unfold same_parsed_fields. rewrite N1, N2, N3, N7, F1, F2, F3, F4.
    repeat split; reflexivity. }
  split; [rewrite N4; exact F5|].
  split.
  { rewrite N5. exact F6. }
  rewrite S3, Hfolder_eq. simpl.
  destruct (Folder.files folder0) as [[off l]|]; reflexivity.
Qed.

(** [output_binary_index] counts the records with a stream. *)
Lemma loop_output_binary_index (l : list FI.t) :
  forall (st stf : state) (file_id : nat),
    loop e st file_id l = Ok stf ->
    output_binary_index stf
    = output_binary_index st + List.length (filter has_stream l).
Proof.
  induction l as [|fi l IH]; intros st stf file_id H; simpl in H.
  - injection H as <-. simpl. lia.
  - apply bind_ok in H. destruct H as [st1 [Hstep Hloop]].
    apply IH in Hloop. rewrite Hloop. simpl. unfold has_stream at 2.
    destruct (FI.emptystream fi) eqn:Hempty; simpl.
    + rewrite step_without_stream in Hstep by (left; exact Hempty).
      injection Hstep as <-. reflexivity.
    + destruct (step_stream_more _ _ _ Hempty Hstep)
        as [f0 [n [d [fi' [_ [_ [_ [_ [Hobi _]]]]]]]]].
      rewrite Hobi. lia.
Qed.

End RetrieveStreams.

Section RetrieveWhole.
Import Retrieve.

Lemma init_env_basefilename (name : option string) (header : Header.t) :
  basefilename (init_env name header) = name.
Proof. unfold init_env. destruct (Header.main_streams header); reflexivity. Qed.

Lemma init_env_ms (name : option string) (header : Header.t) :
  ms (init_env name header) = Header.main_streams header.
Proof. unfold init_env. destruct (Header.main_streams header); reflexivity. Qed.

Lemma step_same_parsed_fields (e : env) (st st1 : state) (file_id : nat)
      (fi fi' : FI.t) :
  step e st file_id fi = Ok st1 ->
  files st1 = files st ++ [fi'] ->
  same_parsed_fields (basefilename e) fi fi'.
Proof.
  intros Hstep Hfiles.
  destruct (FI.emptystream fi) eqn:Hempty; [|destruct (ms e) as [m|] eqn:Hms].
  - rewrite step_without_stream in Hstep by (left; exact Hempty).
    injection Hstep as <-. simpl in Hfiles.
    apply app_inj_tail in Hfiles. destruct Hfiles as [_ <-].
    apply stored_without_stream_fields.
  - destruct (@step_stream_more _ _ Hms _ _ _ _ Hempty Hstep)
      as [f0 [n [d [fi'' [_ [_ [_ [Hf [_ [Hsame _]]]]]]]]]].
    rewrite Hf in Hfiles. apply app_inj_tail in Hfiles.
    destruct Hfiles as [_ <-]. exact Hsame.
  - rewrite step_without_stream in Hstep by (right; exact Hms).
    injection Hstep as <-. simpl in Hfiles.
    apply app_inj_tail in Hfiles. destruct Hfiles as [_ <-].
    apply stored_without_stream_fields.
Qed.

(** X8. The reconstructor keeps the records: the file list it leaves
    has one record for each parsed record, in the same order, with the
    same [emptystream], [attributes] and [lastwritetime], and with the
    same name when the parsed record has one (the generated name
    otherwise). *)
Theorem X8_records_kept_in_order
        (name : option string) (afterheader : Z) (header : Header.t)
        (solid0 : bool) (records : list FI.t) (out : outcome) :
  _filelist_retrieve name afterheader header solid0 records = Ok out ->
  List.length (out_files out) = List.length records
  /\ forall k fi,
       nth_error records k = Some fi ->
       exists fi',
         nth_error (out_files out) k = Some fi'
         /\ same_parsed_fields name fi fi'.
Proof.
  intros Hret. destruct (@retrieve_loop _ _ _ _ _ _ Hret) as [stf [Hloop [Hf _]]].
  rewrite Hf. split.
  - destruct (@loop_files_prefix _ _ _ _ _ Hloop) as [added [Ha Hlen]].
    rewrite Ha. simpl. exact Hlen.
  - intros k fi Hk.
    destruct (@loop_nth (init_env name header) records
              (init_state afterheader header) stf k fi eq_refl Hloop Hk)
      as [st [st1 [fi' [_ [Hstep [Hfiles [_ Hnth]]]]]]].
    exists fi'. split; [exact Hnth|].
    rewrite <- (init_env_basefilename name header).
    eapply step_same_parsed_fields; eassumption.
Qed.

(** X9. Streams are handed out in order: in an archive with main
    streams, a record with a stream takes the unpack size and the digest
    of substream [j], where [j] is the number of records with a stream
    before it.  Records without a stream do not use up a substream. *)
Theorem X9_streams_taken_in_order
        (name : option string) (afterheader : Z) (header : Header.t)
        (m : StreamsInfo.t) (solid0 : bool) (records : list FI.t)
        (out : outcome) (k : nat) (fi : FI.t) :
  Header.main_streams header = Some m ->
  _filelist_retrieve name afterheader header solid0 records = Ok out ->
  nth_error records k = Some fi ->
  FI.emptystream fi = false ->
  exists fi' u defined,
    nth_error (out_files out) k = Some fi'
    /\ nth_error (unpacksizes (init_env name header))
                 (streams_before k records) = Some u
    /\ nth_error (SubstreamsInfo.digestsdefined (StreamsInfo.substreamsinfo m))
                 (streams_before k records) = Some defined
    /\ match u with
       | UList l => FI.uncompressed fi' = Some l
       | USingle s => exists c, FI.uncompressed fi' = Some (repeat s c)
       end
    /\ (if defined : bool
        then exists d,
            nth_error (SubstreamsInfo.digests (StreamsInfo.substreamsinfo m))
                      (streams_before k records) = Some d
            /\ FI.digest fi' = Some d
        else FI.digest fi' = FI.digest fi).
Proof.
  intros Hm Hret Hk Hempty.
  destruct (@retrieve_loop _ _ _ _ _ _ Hret) as [stf [Hloop [Hf _]]].
  destruct (@loop_nth (init_env name header) records
              (init_state afterheader header) stf k fi eq_refl Hloop Hk)
    as [st [st1 [fi' [Hpre [Hstep [Hfiles [_ Hnth]]]]]]].
  assert (Hms : ms (init_env name header) = Some m)
    by (rewrite init_env_ms; exact Hm).
  pose proof (@loop_output_binary_index _ _ Hms _ _ _ _ Hpre) as Hobi.
  simpl in Hobi. fold (streams_before k records) in Hobi.
  destruct (@step_stream_more _ _ Hms _ _ _ _ Hempty Hstep)
    as [f0 [n [defined [fi1 [_ [_ [Hdef [Hf1 [_ [_ [_ [Hdig _]]]]]]]]]]]].
  destruct (@step_stream _ _ Hms _ _ _ _ Hempty Hstep)
    as [f0' [n' [u [fi2 [_ [_ [Hu [Hf2 [_ [Hunc _]]]]]]]]]].
  rewrite Hfiles in Hf1, Hf2.
  apply app_inj_tail in Hf1. destruct Hf1 as [_ <-].
  apply app_inj_tail in Hf2. destruct Hf2 as [_ <-].
  rewrite Hobi in Hdef, Hu, Hdig.
  exists fi', u, defined. rewrite Hf.
  repeat (split; [assumption|]). split; [|exact Hdig].
  unfold uncompressed_of in Hunc. destruct u as [s|l]; [eauto|exact Hunc].
Qed.



End RetrieveWhole.

Lemma X8_records_kept_in_order_witness :
  exists out,
    Retrieve._filelist_retrieve (Some "ab.7z"%string) 32 Examples.solid_header
      false Examples.solid_records = Ok out
    /\ List.length (Retrieve.out_files out) = 3.
Proof.
  destruct (Retrieve._filelist_retrieve (Some "ab.7z"%string) 32
              Examples.solid_header false Examples.solid_records)
    as [out|ex] eqn:Hret; [|vm_compute in Hret; discriminate Hret].
  exists out. split; [reflexivity|].
  exact (proj1 (@X8_records_kept_in_order _ _ _ _ _ _ Hret)).
Defined.

Lemma X9_streams_taken_in_order_witness :
  exists out fi',
    Retrieve._filelist_retrieve (Some "crc.7z"%string) 32
      OtherInputs.digest_header false OtherInputs.digest_records = Ok out
    /\ nth_error (Retrieve.out_files out) 2 = Some fi'
    /\ FI.digest fi' = Some 0x22222222%Z.
Proof.
  destruct (Retrieve._filelist_retrieve (Some "crc.7z"%string) 32
              OtherInputs.digest_header false OtherInputs.digest_records)
    as [out|ex] eqn:Hret; [|vm_compute in Hret; discriminate Hret].
  destruct (@X9_streams_taken_in_order (Some "crc.7z"%string) 32
              OtherInputs.digest_header _ false OtherInputs.digest_records
              out 2 _ eq_refl Hret eq_refl eq_refl)
    as [fi' [u [defined [Hk [_ [Hdef [_ Hdig]]]]]]].
  exists out, fi'. split; [reflexivity|]. split; [exact Hk|].
  vm_compute in Hdef. injection Hdef as <-.
  destruct Hdig as [d [Hd ->]]. vm_compute in Hd. injection Hd as <-.
  reflexivity.
Defined.



(** ** The folders' file lists *)

Lemma positions_in_folder_snoc (j : nat) (fl : list FI.t) (x : FI.t) :
  Retrieve.positions_in_folder j (fl ++ [x])
  = Retrieve.positions_in_folder j fl
    ++ (if Retrieve.in_folder j x then [List.length fl] else []).
Proof.
  unfold Retrieve.positions_in_folder.
  rewrite length_app. simpl List.length.
  rewrite seq_app, filter_app. simpl seq. f_equal.
  - apply filter_ext_in. intros k Hin. apply in_seq in Hin.
    rewrite nth_error_app1 by lia. reflexivity.
  - simpl. rewrite nth_error_app2 by lia. rewrite Nat.sub_diag. simpl.
    reflexivity.
Qed.

Lemma file_refs_snoc (ps : list nat) (id : nat) :
  Retrieve.file_refs (ps ++ [id])
  = Some (match Retrieve.file_refs ps with
          | None => (id, [id])
          | Some (off, l) => (off, l ++ [id])
          end).
Proof. destruct ps; reflexivity. Qed.

Section FolderLists.
Import Retrieve.

Variable e : env.

Lemma step_length (st st1 : state) (file_id : nat) (fi : FI.t) :
  step e st file_id fi = Ok st1 ->
  List.length (files st1) = S (List.length (files st)).
Proof.
  intros Hstep. destruct (@step_appends e _ _ _ _ Hstep) as [fi' ->].
  rewrite length_app. simpl. lia.
Qed.

Lemma step_file_refs (st st1 : state) (fi : FI.t) :
  (forall j fo, nth_error (folders st) j = Some fo ->
                Folder.files fo = file_refs (positions_in_folder j (files st))) ->
  step e st (List.length (files st)) fi = Ok st1 ->
  forall j fo, nth_error (folders st1) j = Some fo ->
               Folder.files fo = file_refs (positions_in_folder j (files st1)).
Proof.
  intros Hinv Hstep.
  assert (Helse :
    step e st (List.length (files st)) fi
    = Ok (mk_state (folder_index st) (output_binary_index st) (streamidx st)
            (file_in_solid st) (instreamindex st) (folder_pos st)
            (src_pos st + 0)%Z (folders st)
            (files st ++ [stored_without_stream (basefilename e) fi])) ->
    forall j fo, nth_error (folders st1) j = Some fo ->
                 Folder.files fo
                 = file_refs (positions_in_folder j (files st1))).
  { intros Heq. rewrite Heq in Hstep. injection Hstep as <-. simpl.
    intros j fo Hfo. rewrite positions_in_folder_snoc.
    destruct (stored_without_stream_fields e fi) as [_ [Hfolder _]].
    unfold in_folder. rewrite Hfolder. rewrite app_nil_r.
    apply Hinv. exact Hfo. }
  destruct (FI.emptystream fi) eqn:Hempty; [|destruct (ms e) as [m|] eqn:Hms].
  - apply Helse. apply step_without_stream. left. exact Hempty.
  - clear Helse.
    destruct (@step_stream_more _ _ Hms _ _ _ _ Hempty Hstep)
      as [f0 [n [d [fi' [Hf0 [_ [_ [Hfiles [_ [_ [Hfolder [_ Hfolders]]]]]]]]]]]].
    intros j fo Hfo. rewrite Hfiles, positions_in_folder_snoc.
    unfold in_folder at 1. rewrite Hfolder.
    rewrite Hfolders in Hfo.
    destruct (Nat.eqb_spec (folder_index st) j) as [<-|Hne].
    + rewrite nth_error_set_nth in Hfo
        by (apply nth_error_Some; rewrite Hf0; discriminate).
      injection Hfo as <-. simpl.
      rewrite file_refs_snoc. rewrite <- (Hinv _ _ Hf0). reflexivity.
    + rewrite nth_error_set_nth_other in Hfo by exact Hne.
      rewrite app_nil_r. apply Hinv. exact Hfo.
  - apply Helse. apply step_without_stream. right. exact Hms.
Qed.

Lemma loop_file_refs (l : list FI.t) :
  forall (st stf : state),
    (forall j fo, nth_error (folders st) j = Some fo ->
                  Folder.files fo
                  = file_refs (positions_in_folder j (files st))) ->
    loop e st (List.length (files st)) l = Ok stf ->
    forall j fo, nth_error (folders stf) j = Some fo ->
                 Folder.files fo = file_refs (positions_in_folder j (files stf)).
Proof.
  induction l as [|fi l IH]; intros st stf Hinv H.
  - injection H as <-. exact Hinv.
  - simpl in H. apply bind_ok in H. destruct H as [st1 [Hstep Hloop]].
    rewrite <- (@step_length _ _ _ _ Hstep) in Hloop.
    eapply IH; [|exact Hloop].
    eapply step_file_refs; eassumption.
Qed.

End FolderLists.

(** X12. The two directions of the record/folder relation agree.  When
    the decoder hands over folders without a file list, then after the
    reconstructor has run the file list of every folder holds exactly the
    positions of the records whose ['folder'] is that folder, in
    increasing order, with the first of them as the list's offset; a
    folder that no record refers to still has no file list. *)
Theorem X12_folder_lists_its_records
        (name : option string) (afterheader : Z) (header : Header.t)
        (solid0 : bool) (records : list FI.t) (out : Retrieve.outcome) :
  (forall m, Header.main_streams header = Some m ->
             Forall (fun fo => Folder.files fo = None)
                    (UnpackInfo.folders (StreamsInfo.unpackinfo m))) ->
  Retrieve._filelist_retrieve name afterheader header solid0 records = Ok out ->
  forall j fo,
    nth_error (Retrieve.out_folders out) j = Some fo ->
    Folder.files fo
    = Retrieve.file_refs
        (Retrieve.positions_in_folder j (Retrieve.out_files out)).
Proof.
  intros Hinit Hret.
  destruct (@retrieve_loop _ _ _ _ _ _ Hret) as [stf [Hloop [Hf Hfo]]].
  rewrite Hf, Hfo.
  apply (@loop_file_refs (Retrieve.init_env name header) records
           (Retrieve.init_state afterheader header) stf); [|exact Hloop].
  intros j fo Hj. simpl in Hj |- *.
  destruct (Header.main_streams header) as [m|] eqn:Hm.
  - specialize (Hinit m eq_refl). rewrite Forall_forall in Hinit.
    apply Hinit. eapply nth_error_In; eassumption.
  - destruct j; discriminate Hj.
Qed.

Lemma X12_folder_lists_its_records_witness :
  exists out fo,
    Retrieve._filelist_retrieve (Some "ab.7z"%string) 32 Examples.solid_header
      false Examples.solid_records = Ok out
    /\ nth_error (Retrieve.out_folders out) 0 = Some fo
    /\ Folder.files fo = Some (0, [0; 1]).
Proof.
  destruct (Retrieve._filelist_retrieve (Some "ab.7z"%string) 32
              Examples.solid_header false Examples.solid_records)
    as [out|ex] eqn:Hret; [|vm_compute in Hret; discriminate Hret].
  assert (Hfo : exists fo, nth_error (Retrieve.out_folders out) 0 = Some fo).
  { pose proof Hret as H2. vm_compute in H2. injection H2 as <-.
    eexists. reflexivity. }
  destruct Hfo as [fo Hfo].
  exists out, fo. split; [reflexivity|]. split; [exact Hfo|].
  assert (Hinit : forall m,
            Header.main_streams Examples.solid_header = Some m ->
            Forall (fun fo => Folder.files fo = None)
                   (UnpackInfo.folders (StreamsInfo.unpackinfo m))).
  { intros m Hm. injection Hm as <-. repeat constructor. }
  rewrite (@X12_folder_lists_its_records (Some "ab.7z"%string) 32
             Examples.solid_header false Examples.solid_records out
             Hinit Hret 0 fo Hfo).
  pose proof Hret as H2. vm_compute in H2. injection H2 as <-. reflexivity.
Defined.

Section FoldersKept.
Import Retrieve.

Variable e : env.
Variable m : StreamsInfo.t.
Hypothesis Hms : ms e = Some m.
Variable F0 : list Folder.t.

(** A folder of the store, against the folder the decoder put at the
    same index: same coders and sizes, and either untouched or given a
    file list and a [solid] flag computed from the header. *)
Lemma step_folders_kept (st st1 : state) (file_id : nat) (fi : FI.t) :
  position_inv (SubstreamsInfo.num_unpackstreams_folders
                  (StreamsInfo.substreamsinfo m)) st ->
  (forall j fo,
     nth_error (folders st) j = Some fo ->
     exists fo0,
       nth_error F0 j = Some fo0
       /\ Folder.coders fo = Folder.coders fo0
       /\ Folder.unpacksizes fo = Folder.unpacksizes fo0
       /\ (fo = fo0
           \/ (Folder.files fo <> None
               /\ exists n,
                   nth_error (SubstreamsInfo.num_unpackstreams_folders
                                (StreamsInfo.substreamsinfo m)) j = Some n
                   /\ Folder.solid fo = Nat.ltb 1 n))) ->
  step e st file_id fi = Ok st1 ->
  List.length (folders st1) = List.length (folders st)
  /\ forall j fo,
       nth_error (folders st1) j = Some fo ->
       exists fo0,
         nth_error F0 j = Some fo0
         /\ Folder.coders fo = Folder.coders fo0
         /\ Folder.unpacksizes fo = Folder.unpacksizes fo0
         /\ (fo = fo0
             \/ (Folder.files fo <> None
                 /\ exists n,
                     nth_error (SubstreamsInfo.num_unpackstreams_folders
                                  (StreamsInfo.substreamsinfo m)) j = Some n
                     /\ Folder.solid fo = Nat.ltb 1 n)).
Proof.
  intros Hpos Hinv Hstep.
  destruct (FI.emptystream fi) eqn:Hempty.
  - rewrite step_without_stream in Hstep by (left; exact Hempty).
    injection Hstep as <-. simpl. split; [reflexivity|exact Hinv].
  - destruct (@step_stream_more _ _ Hms _ _ _ _ Hempty Hstep)
      as [f0 [n [d [fi' [Hf0 [Hn [_ [_ [_ [_ [_ [_ Hfolders]]]]]]]]]]]].
    rewrite Hfolders. split; [apply length_set_nth|].
    intros j fo Hfo.
    destruct (Nat.eqb_spec (folder_index st) j) as [<-|Hne].
    + rewrite nth_error_set_nth in Hfo
        by (apply nth_error_Some; rewrite Hf0; discriminate).
      injection Hfo as <-. simpl.
      destruct (Hinv _ _ Hf0) as [fo0 [H0 [Hc [Hu _]]]].
      exists fo0. repeat (split; [assumption|]).
      right. split; [discriminate|]. exists n. split; [exact Hn|].
      unfold solid_seen.
      destruct (Nat.eqb_spec (streamidx st) 0) as [Hz|Hnz]; [reflexivity|].
      destruct Hpos as [[Hz _]|[_ [_ [n' [f' [Hn' [Hlt [Hf' Hsolid]]]]]]]];
        [contradiction|].
      rewrite Hn in Hn'. injection Hn' as <-.
      rewrite Hf0 in Hf'. injection Hf' as <-.
      rewrite Hsolid. symmetry. apply Nat.ltb_lt. lia.
    + rewrite nth_error_set_nth_other in Hfo by exact Hne.
      apply Hinv. exact Hfo.
Qed.

Lemma loop_folders_kept (l : list FI.t) :
  forall (st stf : state) (file_id : nat),
    position_inv (SubstreamsInfo.num_unpackstreams_folders
                    (StreamsInfo.substreamsinfo m)) st ->
    (forall j fo,
       nth_error (folders st) j = Some fo ->
       exists fo0,
         nth_error F0 j = Some fo0
         /\ Folder.coders fo = Folder.coders fo0
         /\ Folder.unpacksizes fo = Folder.unpacksizes fo0
         /\ (fo = fo0
             \/ (Folder.files fo <> None
                 /\ exists n,
                     nth_error (SubstreamsInfo.num_unpackstreams_folders
                                  (StreamsInfo.substreamsinfo m)) j = Some n
                     /\ Folder.solid fo = Nat.ltb 1 n))) ->
    loop e st file_id l = Ok stf ->
    List.length (folders stf) = List.length (folders st)
    /\ forall j fo,
         nth_error (folders stf) j = Some fo ->
         exists fo0,
           nth_error F0 j = Some fo0
           /\ Folder.coders fo = Folder.coders fo0
           /\ Folder.unpacksizes fo = Folder.unpacksizes fo0
           /\ (fo = fo0
               \/ (Folder.files fo <> None
                   /\ exists n,
                       nth_error (SubstreamsInfo.num_unpackstreams_folders
                                    (StreamsInfo.substreamsinfo m)) j = Some n
                       /\ Folder.solid fo = Nat.ltb 1 n)).
Proof.
  induction l as [|fi l IH]; intros st stf file_id Hpos Hinv H.
  - injection H as <-. split; [reflexivity|exact Hinv].
  - simpl in H. apply bind_ok in H. destruct H as [st1 [Hstep Hloop]].
    destruct (step_folders_kept _ _ Hpos Hinv Hstep) as [Hlen Hinv1].
    pose proof (@step_position_inv _ _ Hms _ _ _ _ Hpos Hstep) as Hpos1.
    destruct (IH _ _ _ Hpos1 Hinv1 Hloop) as [Hlen2 Hinv2].
    split; [congruence|exact Hinv2].
Qed.

End FoldersKept.

(** X13. The reconstructor neither adds nor removes folders and never
    changes a folder's coders or unpack sizes.  A folder comes out either
    exactly as the decoder left it, or with a file list and with [solid]
    telling whether the header announces more than one substream for
    it. *)
Theorem X13_folders_kept
        (name : option string) (afterheader : Z) (header : Header.t)
        (m : StreamsInfo.t) (solid0 : bool) (records : list FI.t)
        (out : Retrieve.outcome) :
  Header.main_streams header = Some m ->
  Retrieve._filelist_retrieve name afterheader header solid0 records = Ok out ->
  List.length (Retrieve.out_folders out)
  = List.length (UnpackInfo.folders (StreamsInfo.unpackinfo m))
  /\ forall j fo,
       nth_error (Retrieve.out_folders out) j = Some fo ->
       exists fo0,
         nth_error (UnpackInfo.folders (StreamsInfo.unpackinfo m)) j = Some fo0
         /\ Folder.coders fo = Folder.coders fo0
         /\ Folder.unpacksizes fo = Folder.unpacksizes fo0
         /\ (fo = fo0
             \/ (Folder.files fo <> None
                 /\ exists n,
                     nth_error (SubstreamsInfo.num_unpackstreams_folders
                                  (StreamsInfo.substreamsinfo m)) j = Some n
                     /\ Folder.solid fo = Nat.ltb 1 n)).
Proof.
  intros Hm Hret.
  destruct (@retrieve_loop _ _ _ _ _ _ Hret) as [stf [Hloop [_ Hfo]]].
  rewrite Hfo.
  assert (Hms : Retrieve.ms (Retrieve.init_env name header) = Some m)
    by (rewrite init_env_ms; exact Hm).
  assert (Hfolders0 :
    Retrieve.folders (Retrieve.init_state afterheader header)
    = UnpackInfo.folders (StreamsInfo.unpackinfo m))
    by (simpl; rewrite Hm; reflexivity).
  destruct (@loop_folders_kept _ _ Hms
              (UnpackInfo.folders (StreamsInfo.unpackinfo m)) records
              _ stf 0 (init_position_inv _ afterheader header))
    as [Hlen Hinv]; [|exact Hloop|].
  - intros j fo Hj. rewrite Hfolders0 in Hj. exists fo. auto.
  - rewrite Hlen, Hfolders0. split; [reflexivity|exact Hinv].
Qed.

Lemma X13_folders_kept_witness :
  exists out,
    Retrieve._filelist_retrieve (Some "ab.7z"%string) 32 Examples.solid_header
      false Examples.solid_records = Ok out
    /\ List.length (Retrieve.out_folders out) = 1.
Proof.
  destruct (Retrieve._filelist_retrieve (Some "ab.7z"%string) 32
              Examples.solid_header false Examples.solid_records)
    as [out|ex] eqn:Hret; [|vm_compute in Hret; discriminate Hret].
  exists out. split; [reflexivity|].
  exact (proj1 (@X13_folders_kept (Some "ab.7z"%string) 32
                  Examples.solid_header _ false Examples.solid_records out
                  eq_refl Hret)).
Defined.

(* ------------------------------------------------------------------ *)
(** ** Attributes of an entry *)

(** X14. What the attribute word can and cannot say.  [posix_mode] is
    always within the twelve permission bits; no entry is both a symbolic
    link and a socket; and without the UNIX_EXTENSION bit (or without
    attributes at all) an entry is neither, and has no POSIX mode or file
    type, whatever its upper sixteen bits hold. *)
Theorem X14_posix_attributes (f : ArchiveFile.t) :
  (forall p, ArchiveFile.posix_mode f = Some p -> (0 <= p <= 4095)%Z)
  /\ ArchiveFile.is_symlink f && ArchiveFile.is_socket f = false
  /\ (ArchiveFile._test_attribute f FileAttribute.UNIX_EXTENSION = false ->
      ArchiveFile.is_symlink f = false
      /\ ArchiveFile.is_socket f = false
      /\ ArchiveFile.posix_mode f = None
      /\ ArchiveFile.st_fmt f = None)
  /\ (FI.attributes (ArchiveFile._file_info f) = None ->
      ArchiveFile._test_attribute f FileAttribute.UNIX_EXTENSION = false
      /\ ArchiveFile.is_directory f = false
      /\ ArchiveFile.archivable f = false
      /\ ArchiveFile.readonly f = false).
Proof.
  unfold ArchiveFile.posix_mode, ArchiveFile.is_symlink, ArchiveFile.is_socket,
    ArchiveFile.st_fmt, ArchiveFile.is_directory, ArchiveFile.archivable,
    ArchiveFile.readonly.
  split; [|split; [|split]].
  - intros p Hp.
    destruct (ArchiveFile._get_unix_extension f) as [x|]; [|discriminate].
    injection Hp as <-. unfold stat.S_IMODE.
    change (Z.land x 0xFFF) with (Z.land x (Z.ones 12)).
    rewrite Z.land_ones by lia. change (2 ^ 12)%Z with 4096%Z.
    pose proof (Z.mod_pos_bound x 4096 eq_refl). lia.
  - destruct (ArchiveFile._get_unix_extension f) as [x|]; [|reflexivity].
    unfold stat.S_ISLNK, stat.S_ISSOCK, stat.S_IFLNK, stat.S_IFSOCK.
    destruct (Z.eqb_spec (stat.S_IFMT x) 40960); [|reflexivity].
    destruct (Z.eqb_spec (stat.S_IFMT x) 49152); [lia|reflexivity].
  - unfold ArchiveFile._get_unix_extension. intros ->. auto.
  - unfold ArchiveFile._test_attribute. intros ->. auto.
Qed.

(* ------------------------------------------------------------------ *)
(** ** The generated name *)

Lemma get_take (n j : nat) (s : string) (c : ascii) :
  String.get j (os_path.take n s) = Some c -> String.get j s = Some c.
Proof.
  unfold os_path.take. intros H.
  destruct (Nat.lt_ge_cases j n) as [Hlt|Hge].
  - rewrite substring_correct1 in H by exact Hlt.
    rewrite Nat.add_0_r in H. exact H.
  - rewrite substring_correct2 in H by exact Hge. discriminate.
Qed.

Lemma prefix_dotdot_slash (s : string) :
  String.prefix "../" s = true -> String.get 2 s = Some "/"%char.
Proof.
  intros H. apply prefix_correct in H. simpl String.length in H.
  pose proof (substring_correct1 s 0 3 2 ltac:(lia)) as G.
  rewrite H in G. simpl in G. symmetry. exact G.
Qed.

(** X15. The name generated for a record stored without one never
    contains a slash, whatever the archive is called; so it names an
    entry directly in the target directory and is never refused by the
    ['../'] check of [extractall]. *)
Theorem X15_default_name_has_no_slash (basefilename : option string) :
  (forall j,
     String.get j (Retrieve.default_filename basefilename) <> Some "/"%char)
  /\ SevenZipFile.startswith_dotdot (Retrieve.default_filename basefilename)
     = false.
Proof.
  assert (Hno : forall j,
    String.get j (Retrieve.default_filename basefilename) <> Some "/"%char).
  { intros j. destruct basefilename as [b|]; unfold Retrieve.default_filename.
    - unfold os_path.splitext.
      destruct (_ <? _)%Z; [|apply basename_no_slash].
      destruct (os_path.has_non_dot _ _ _); [|apply basename_no_slash].
      simpl. intros H. apply get_take in H.
      exact (basename_no_slash _ _ H).
    - do 9 (destruct j as [|j]; [simpl; discriminate|]). simpl. discriminate. }
  split; [exact Hno|].
  unfold SevenZipFile.startswith_dotdot.
  destruct (String.prefix "../" _) eqn:Hp; [|reflexivity].
  apply prefix_dotdot_slash in Hp. exfalso. exact (Hno _ Hp).
Qed.

(* ------------------------------------------------------------------ *)
(** ** The writer's records *)

Lemma prefix_app (a b : string) : String.prefix a (a ++ b) = true.
Proof.
  induction a as [|c a IH]; simpl; [destruct b; reflexivity|].
  destruct (Ascii.ascii_dec c c); [exact IH|congruence].
Qed.

Lemma prefix_refl (a : string) : String.prefix a a = true.
Proof.
  induction a as [|c a IH]; simpl; [reflexivity|].
  destruct (Ascii.ascii_dec c c); [exact IH|congruence].
Qed.

Lemma prefix_trans (a : string) :
  forall b c, String.prefix a b = true -> String.prefix b c = true ->
              String.prefix a c = true.
Proof.
  induction a as [|x a IH]; intros b c Hab Hbc; [destruct c; reflexivity|].
  destruct b as [|y b]; [discriminate|].
  destruct c as [|z c]; [discriminate|].
  simpl in *.
  destruct (Ascii.ascii_dec x y); [|discriminate].
  destruct (Ascii.ascii_dec y z); [|discriminate].
  destruct (Ascii.ascii_dec x z); [|congruence].
  eapply IH; eassumption.
Qed.

Lemma prefix_join (a nm : string) :
  String.prefix "/" nm = false ->
  String.prefix a (os_path.join a nm) = true.
Proof.
  intros Hrel. unfold os_path.join. rewrite Hrel.
  destruct a as [|c a]; [destruct nm; reflexivity|].
  destruct (os_path.ends_with_slash (String c a)); apply prefix_app.
Qed.

Section WriterFacts.
Context {T : TargetOS}.
Import Writer.

(** X16. How the kinds of target that [_make_file_info] tells apart
    read back: an entry holding the attributes it computed is a directory
    for the reader exactly when the target was one (a symbolic link to a
    directory counts as a directory, because [is_dir] is asked first); it
    is a symbolic link for the reader when the target was a link and the
    writer ran on POSIX, and on other systems a link comes out as a plain
    entry.  No permission bits are recorded: the POSIX mode read back
    from a directory or a link is 0, and a regular file has none. *)
Theorem X16_written_kinds_read_back
        (target : string) (arcname : option string) (f : ArchiveFile.t) :
  FI.attributes (ArchiveFile._file_info f)
  = WriteInfo.attributes (_make_file_info target arcname) ->
  ArchiveFile.is_directory f = target_is_dir target
  /\ ArchiveFile.is_symlink f
     = negb (target_is_dir target) && target_is_symlink target && target_posix
  /\ ArchiveFile.is_socket f = false
  /\ ArchiveFile.posix_mode f
     = (if (target_is_dir target || target_is_symlink target) && target_posix
        then Some 0%Z else None).
Proof.
  unfold _make_file_info, ArchiveFile.is_directory, ArchiveFile.is_symlink,
    ArchiveFile.is_socket, ArchiveFile.posix_mode,
    ArchiveFile._get_unix_extension, ArchiveFile._test_attribute.
  intros ->.
  destruct (target_is_dir target); [|destruct (target_is_symlink target);
                                     [|destruct (target_is_file target)]];
    destruct target_posix; cbn [WriteInfo.attributes];
    repeat split; reflexivity.
Qed.

Lemma write_path (p : string) (arcname : option string)
      (files : list WriteInfo.t) :
  write (FilePath p) arcname files = Ok (files ++ [_make_file_info p arcname]).
Proof. reflexivity. Qed.

Lemma _make_file_info_names (p : string) (arcname : option string) :
  WriteInfo.origin (_make_file_info p arcname) = p
  /\ WriteInfo.filename (_make_file_info p arcname)
     = match arcname with Some a => a | None => p end.
Proof.
  unfold _make_file_info.
  destruct (target_is_dir p); [|destruct (target_is_symlink p);
                                [|destruct (target_is_file p)]];
    split; reflexivity.
Qed.

(** X17. [writeall] without an archive name records regular files
    only: every record it appends was made by [_make_file_info] from a
    path for which [is_file()] holds, and is named by that path.  The
    directories it walks through, and whatever is neither a file nor a
    directory, leave no record, so a directory without files leaves no
    trace in the list. *)
Theorem X17_writeall_without_arcname (fuel : nat) :
  forall (path : string) (files files' : list WriteInfo.t),
    writeall fuel path None files = Some (Ok files') ->
    exists added,
      files' = files ++ added
      /\ Forall (fun r => target_is_file (WriteInfo.origin r) = true
                          /\ r = _make_file_info (WriteInfo.origin r) None
                          /\ WriteInfo.filename r = WriteInfo.origin r)
                added.
Proof.
  induction fuel as [|fuel IH]; intros path files files' H; [discriminate|].
  simpl in H.
  destruct (target_is_file path) eqn:Hfile.
  - injection H as <-. eexists. split; [reflexivity|].
    constructor; [|constructor].
    destruct (_make_file_info_names path None) as [Ho Hn].
    rewrite Ho, Hn. auto.
  - destruct (target_is_dir path).
    + destruct (listdir path) as [names|x]; [|discriminate].
      revert files H. generalize (sorted_names names) as l.
      induction l as [|nm l IHl]; intros files H.
      * injection H as <-. exists []. rewrite app_nil_r. auto.
      * destruct (writeall fuel (target_joinpath path nm) None files)
          as [[files2|x]|] eqn:Hrec; try discriminate.
        apply IH in Hrec. destruct Hrec as [a1 [-> Ha1]].
        apply IHl in H. destruct H as [a2 [-> Ha2]].
        exists (a1 ++ a2). rewrite app_assoc. split; [reflexivity|].
        apply Forall_app. auto.
    + injection H as <-. exists []. rewrite app_nil_r. auto.
Qed.

(** X18. [writeall] with an archive name puts everything under that
    name: provided the directory listings hold no name that begins with a
    slash, every record appended has a [filename] that begins with
    [arcname]. *)
Theorem X18_writeall_under_arcname (fuel : nat) :
  (forall p names nm,
     listdir p = Ok names -> In nm (sorted_names names) ->
     String.prefix "/" nm = false) ->
  forall (path arcname : string) (files files' : list WriteInfo.t),
    writeall fuel path (Some arcname) files = Some (Ok files') ->
    exists added,
      files' = files ++ added
      /\ Forall (fun r => String.prefix arcname (WriteInfo.filename r) = true)
                added.
Proof.
  intros Hrel.
  induction fuel as [|fuel IH]; intros path arcname files files' H;
    [discriminate|].
  assert (Hself : String.prefix arcname
                    (WriteInfo.filename (_make_file_info path (Some arcname)))
                  = true).
  { destruct (_make_file_info_names path (Some arcname)) as [_ ->].
    apply prefix_refl. }
  simpl in H.
  destruct (target_is_file path) eqn:Hfile.
  - injection H as <-. eexists. split; [reflexivity|].
    constructor; [exact Hself|constructor].
  - destruct (target_is_dir path).
    + destruct (listdir path) as [names|x] eqn:Hls; [|discriminate].
      assert (Hnames : forall nm, In nm (sorted_names names) ->
                                  String.prefix "/" nm = false)
        by (intros nm Hin; eapply Hrel; eassumption).
      clear Hls.
      assert (Hloop : forall l files0 files1,
        (forall nm, In nm l -> String.prefix "/" nm = false) ->
        (fix each (names0 : list string) (files2 : list WriteInfo.t)
           {struct names0} : option (result (list WriteInfo.t)) :=
           match names0 with
           | [] => Some (Ok files2)
           | nm :: rest =>
               match writeall fuel (target_joinpath path nm)
                       (Some (os_path.join arcname nm)) files2 with
               | Some (Ok files3) => each rest files3
               | r => r
               end
           end) l files0 = Some (Ok files1) ->
        exists added,
          files1 = files0 ++ added
          /\ Forall (fun r => String.prefix arcname (WriteInfo.filename r)
                              = true) added).
      { induction l as [|nm l IHl]; intros files0 files1 Hl Hrun.
        - injection Hrun as <-. exists []. rewrite app_nil_r. auto.
        - destruct (writeall fuel (target_joinpath path nm)
                      (Some (os_path.join arcname nm)) files0)
            as [[files2|x]|] eqn:Hrec; try discriminate.
          apply IH in Hrec. destruct Hrec as [a1 [-> Ha1]].
          apply IHl in Hrun; [|intros nm' Hin; apply Hl; right; exact Hin].
          destruct Hrun as [a2 [-> Ha2]].
          exists (a1 ++ a2). rewrite app_assoc. split; [reflexivity|].
          apply Forall_app. split; [|exact Ha2].
          eapply Forall_impl; [|exact Ha1].
          intros r Hr. simpl in Hr.
          eapply prefix_trans; [|exact Hr].
          apply prefix_join. apply Hl. left. reflexivity. }
      apply Hloop in H; [|exact Hnames].
      destruct H as [added [-> Hadded]].
      exists (_make_file_info path (Some arcname) :: added).
      rewrite <- app_assoc. split; [reflexivity|].
      constructor; assumption.
    + injection H as <-. exists []. rewrite app_nil_r. auto.
Qed.

End WriterFacts.

Lemma X16_written_kinds_read_back_witness :
  ArchiveFile.is_directory
    (ArchiveFile.mk 0
       (FI.parsed (Some "src"%string) true
          (WriteInfo.attributes
             (@Writer._make_file_info OtherInputs.tree "src" None))
          None))
  = true.
Proof.
  exact (proj1 (@X16_written_kinds_read_back OtherInputs.tree
                  "src" None
                  (ArchiveFile.mk 0
                     (FI.parsed (Some "src"%string) true
                        (WriteInfo.attributes
                           (@Writer._make_file_info OtherInputs.tree
                              "src" None))
                        None))
                  eq_refl)).
Defined.

Lemma X17_writeall_without_arcname_witness :
  exists files',
    @Writer.writeall OtherInputs.tree 3 "src" None [] = Some (Ok files')
    /\ List.length files' = 3.
Proof.
  destruct (@Writer.writeall OtherInputs.tree 3 "src" None [])
    as [[files'|x]|] eqn:H;
    [|vm_compute in H; discriminate H|vm_compute in H; discriminate H].
  exists files'. split; [reflexivity|].
  destruct (@X17_writeall_without_arcname OtherInputs.tree 3 "src" [] files' H)
    as [added [-> _]].
  vm_compute in H. injection H as <-. reflexivity.
Defined.

Lemma X18_writeall_under_arcname_witness :
  exists files',
    @Writer.writeall OtherInputs.tree 3 "src" (Some "pkg"%string) []
    = Some (Ok files')
    /\ Forall (fun r => String.prefix "pkg" (WriteInfo.filename r) = true)
              files'.
Proof.
  destruct (@Writer.writeall OtherInputs.tree 3 "src" (Some "pkg"%string) [])
    as [[files'|x]|] eqn:H;
    [|vm_compute in H; discriminate H|vm_compute in H; discriminate H].
  exists files'. split; [reflexivity|].
  assert (Hrel : forall p names nm,
            @listdir OtherInputs.tree p = Ok names ->
            In nm (@sorted_names OtherInputs.tree names) ->
            String.prefix "/" nm = false).
  { intros p names nm Hls Hin. simpl in Hls.
    destruct (String.eqb p "src").
    - injection Hls as <-. vm_compute in Hin.
      destruct Hin as [<-|[<-|[<-|[]]]]; reflexivity.
    - destruct (String.eqb p "src/sub"); [|discriminate Hls].
      injection Hls as <-. vm_compute in Hin.
      destruct Hin as [<-|[]]; reflexivity. }
  destruct (@X18_writeall_under_arcname OtherInputs.tree 3 Hrel
              "src" "pkg" [] files' H) as [added [-> Hall]].
  exact Hall.
Defined.

(* ------------------------------------------------------------------ *)
(** ** The pack-stream check of [test] *)

Lemma skipn_nth_error {A : Type} (l : list A) (i : nat) (a : A) :
  nth_error l i = Some a -> skipn i l = a :: skipn (S i) l.
Proof.
  revert i. induction l as [|x l IH]; intros [|i] H; simpl in *;
    try discriminate.
  - injection H as <-. reflexivity.
  - apply IH. exact H.
Qed.

Section PackDigests.
Context {E : Externals}.
Import SevenZipFile.

Lemma _test_digest_raw_loop_content (fuel : nat) :
  forall (remaining_size : Z) (digest : option Z) (f : File.t),
    File.content (snd (_test_digest_raw_loop fuel remaining_size digest f))
    = File.content f
    /\ File.closed (snd (_test_digest_raw_loop fuel remaining_size digest f))
       = File.closed f.
Proof.
  induction fuel as [|fuel IH]; intros r d f; simpl; [auto|].
  destruct (0 <? r)%Z; [|auto].
  unfold File.read.
  match goal with
  | |- context [_test_digest_raw_loop fuel ?r' ?d' ?f'] =>
      destruct (IH r' d' f') as [H1 H2]; rewrite H1, H2; auto
  end.
Qed.

Lemma _test_digest_raw_content (pos size crc : Z) (f f' : File.t) (b : bool) :
  _test_digest_raw pos size crc f = Ok (b, f') ->
  File.content f' = File.content f /\ File.closed f' = File.closed f.
Proof.
  unfold _test_digest_raw, File.seek.
  destruct (pos <? 0)%Z; [discriminate|]. simpl.
  destruct (_test_digest_raw_loop _ _ _ _) as [d f2] eqn:Hloop.
  intros H. injection H as _ <-.
  pose proof (_test_digest_raw_loop_content (Z.to_nat size) size None
                (File.mk (File.content f) pos (File.closed f))) as Hc.
  rewrite Hloop in Hc. exact Hc.
Qed.

Hypothesis calculate_crc32_continues :
  forall (a b : list byte) (v : option Z),
    calculate_crc32 b (Some (calculate_crc32 a v)) = calculate_crc32 (a ++ b) v.

Lemma _test_digest_raw_verdict (pos size crc : Z) (f : File.t) :
  (0 <= pos)%Z ->
  exists f',
    _test_digest_raw pos size crc f
    = Ok (pack_stream_ok (File.content f) pos size crc, f')
    /\ File.content f' = File.content f
    /\ File.closed f' = File.closed f.
Proof.
  intros Hpos. unfold pack_stream_ok.
  destruct (Z.ltb_spec 0 size) as [Hsize|Hsize].
  - destruct (@_test_digest_raw_crc E calculate_crc32_continues
                pos size crc f Hpos Hsize) as [f' Hraw].
    exists f'. split; [exact Hraw|].
    eapply _test_digest_raw_content; exact Hraw.
  - rewrite _test_digest_raw_empty by lia.
    eexists. split; [reflexivity|]. split; reflexivity.
Qed.

Lemma pack_digest_loop_verdict (packinfo : PackInfo.t) (crcs : list Z)
      (positions : list Z) :
  forall (i : nat) (f : File.t),
    Forall (fun p => (0 <= p)%Z) positions ->
    i + List.length positions <= List.length (PackInfo.packsizes packinfo) ->
    i + List.length positions <= List.length crcs ->
    exists f',
      pack_digest_loop packinfo crcs i positions f
      = Ok (forallb (fun x => pack_stream_ok (File.content f)
                                (fst x) (fst (snd x)) (snd (snd x)))
              (combine positions
                 (combine (skipn i (PackInfo.packsizes packinfo))
                          (skipn i crcs))),
            f')
      /\ File.content f' = File.content f.
Proof.
  induction positions as [|p rest IH]; intros i f Hpos Hs Hc.
  - exists f. split; reflexivity.
  - simpl in Hs, Hc.
    destruct (nth_error (PackInfo.packsizes packinfo) i) as [size|] eqn:Hsize;
      [|apply nth_error_None in Hsize; lia].
    destruct (nth_error crcs i) as [crc|] eqn:Hcrc;
      [|apply nth_error_None in Hcrc; lia].
    rewrite (skipn_nth_error _ _ Hsize), (skipn_nth_error _ _ Hcrc).
    cbn [pack_digest_loop combine forallb fst snd].
    unfold index. rewrite Hsize, Hcrc. cbn [bind].
    inversion Hpos as [|? ? Hp Hrest]; subst.
    destruct (_test_digest_raw_verdict size crc f Hp) as [f1 [-> [Hcont _]]].
    cbn [bind].
    destruct (pack_stream_ok (File.content f) p size crc).
    + destruct (IH (S i) f1 Hrest ltac:(lia) ltac:(lia)) as [f' [-> Hc']].
      rewrite Hcont. exists f'. split; [reflexivity|]. congruence.
    + exists f1. split; [reflexivity|exact Hcont].
Qed.

(** X19. [_test_digest_raw] judges a region by its bytes alone: on an
    open file and for a position that is not negative it answers whether
    the region is not empty and the CRC of its bytes (those that exist,
    if the file ends early) equals the expected one, whatever the block
    size of the reads and wherever the file was positioned before; the
    file object keeps its content and stays open or closed as it was.
    This needs a CRC that can be continued block after block. *)
Theorem X19_test_digest_raw_by_content (pos size crc : Z) (f : File.t) :
  File.closed f = false ->
  (0 <= pos)%Z ->
  exists f',
    _test_digest_raw pos size crc f
    = Ok (pack_stream_ok (File.content f) pos size crc, f')
    /\ File.content f' = File.content f
    /\ File.closed f' = File.closed f.
Proof. intros _. apply _test_digest_raw_verdict. Qed.

(** X20. The loop of [_test_pack_digest] answers the conjunction of the
    verdicts on the pack streams, taken with the sizes and CRCs at the
    same index: on an open file, when the size and CRC tables are long
    enough and no position is negative, it does not raise, it returns [True] exactly
    when every pack stream is non-empty and has the recorded CRC, and it
    leaves the content of the file as it was. *)
Theorem X20_pack_digest_loop_conjunction
        (packinfo : PackInfo.t) (crcs : list Z) (positions : list Z)
        (f : File.t) :
  File.closed f = false ->
  Forall (fun p => (0 <= p)%Z) positions ->
  List.length positions <= List.length (PackInfo.packsizes packinfo) ->
  List.length positions <= List.length crcs ->
  exists f',
    pack_digest_loop packinfo crcs 0 positions f
    = Ok (forallb (fun x => pack_stream_ok (File.content f)
                              (fst x) (fst (snd x)) (snd (snd x)))
            (combine positions (combine (PackInfo.packsizes packinfo) crcs)),
          f')
    /\ File.content f' = File.content f.
Proof.
  intros _ Hpos Hs Hc.
  apply (pack_digest_loop_verdict packinfo crcs 0 f Hpos); simpl; assumption.
Qed.

End PackDigests.

Lemma X19_test_digest_raw_by_content_witness :
  exists f',
    @SevenZipFile._test_digest_raw (ExampleHandles.plain []) 2 4 0
      (File.opened OtherInputs.zip_bytes)
    = Ok (@SevenZipFile.pack_stream_ok (ExampleHandles.plain [])
            OtherInputs.zip_bytes 2 4 0, f')
    /\ File.content f' = OtherInputs.zip_bytes
    /\ File.closed f' = false.
Proof.
  apply (@X19_test_digest_raw_by_content (ExampleHandles.plain [])
           SpecModel_crc32_continues 2 4 0
           (File.opened OtherInputs.zip_bytes)); [reflexivity | lia].
Defined.

Lemma X20_pack_digest_loop_conjunction_witness :
  exists f',
    @SevenZipFile.pack_digest_loop (ExampleHandles.plain [])
      (PackInfo.mk 0 2 [2%Z; 3%Z] (Some [0%Z; 0%Z]) [0%Z; 2%Z]) [0%Z; 0%Z] 0
      [0%Z; 2%Z] (File.opened OtherInputs.zip_bytes)
    = Ok (false, f')
    /\ File.content f' = OtherInputs.zip_bytes.
Proof.
  apply (@X20_pack_digest_loop_conjunction (ExampleHandles.plain [])
           SpecModel_crc32_continues
           (PackInfo.mk 0 2 [2%Z; 3%Z] (Some [0%Z; 0%Z]) [0%Z; 2%Z])
           [0%Z; 0%Z] [0%Z; 2%Z] (File.opened OtherInputs.zip_bytes)).
  - reflexivity.
  - repeat constructor; lia.
  - simpl. lia.
  - simpl. lia.
Defined.

(* ------------------------------------------------------------------ *)
(** ** A handle after opening *)

Lemma assigned_names (fl : list FI.t) :
  Forall Retrieve.assigned fl ->
  exists names, map FI.filename fl = map Some names.
Proof.
  induction 1 as [|fi fl [Hname _] _ [names IH]].
  - exists []. reflexivity.
  - destruct (FI.filename fi) as [n|] eqn:Hn; [|contradiction].
    exists (n :: names). simpl. rewrite Hn, IH. reflexivity.
Qed.

Section OpenedHandle.
Context {E : Externals}.
Import SevenZipFile.

(** X21. What [SevenZipFile(file, 'r')] hands back when it succeeds:
    a header and a file list are there; [_num_files()] is the length of
    the file list and [getnames()] returns its names in the same order,
    every record having one; the worker is fresh, with no sink
    registered; the file object is positioned at [afterheader]; and the
    handle holds one reference to it. *)
Theorem X21_opened_handle
        (f f' : File.t) (filePassed : bool) (name : option string) (s : t) :
  __init__ f filePassed name mode_r = (Ok s, f') ->
  exists fl h ah names,
    files s = Some fl /\ header s = Some h /\ afterheader s = Some ah
    /\ _num_files s = Ok (List.length fl)
    /\ getnames s = Ok (map Some names)
    /\ map FI.filename fl = map Some names
    /\ worker s = Some (Worker.mk fl ah h [])
    /\ f' = fp s
    /\ File.pos (fp s) = ah
    /\ _fileRefCnt s = 1
    /\ _filePassed s = filePassed
    /\ filename s = name.
Proof.
  unfold __init__.
  destruct (_real_get_contents _) as [[s1|ex] f1] eqn:Hget;
    [|intros H; discriminate H].
  destruct (reset s1) as [s2|ex] eqn:Hreset; [|intros H; discriminate H].
  intros H. injection H as <- <-.
  unfold reset, attr in Hreset.
  destruct (afterheader s1) as [ah|] eqn:Hah; [|discriminate Hreset].
  simpl in Hreset. unfold File.seek in Hreset.
  destruct (ah <? 0)%Z; [discriminate Hreset|]. simpl in Hreset.
  destruct (files s1) as [fl|] eqn:Hfl; [|discriminate Hreset].
  destruct (header s1) as [h|] eqn:Hh; [|discriminate Hreset].
  simpl in Hreset. injection Hreset as <-.
  assert (Hs1 :
    (exists names, map FI.filename fl = map Some names)
    /\ match Header.files_info h with
       | Some finfo => List.length (FilesInfo.files finfo)
       | None => 0
       end = List.length fl
    /\ _fileRefCnt s1 = 1 /\ _filePassed s1 = filePassed
    /\ filename s1 = name).
  { revert Hget. unfold _real_get_contents. cbn [fp].
    destruct (_check_7zfile f) as [[[|]|] f0];
      try (intros Hget; discriminate Hget).
    destruct (SignatureHeader_retrieve f0) as [[sig|] g1];
      [|intros Hget; discriminate Hget].
    destruct (_read_header_data sig g1) as [[buffer|] g2];
      [|intros Hget; discriminate Hget].
    destruct (Header_retrieve g2 buffer (File.tell g1)) as [[[h0|]|] g3];
      [| |intros Hget; discriminate Hget].
    - unfold _assign_contents.
      destruct (Header.files_info h0) as [finfo|] eqn:Hfi.
      + destruct (Retrieve._filelist_retrieve _ (File.tell g1) h0 false
                    (FilesInfo.files finfo)) as [out|] eqn:Hret; simpl;
          intros Hget; [|discriminate Hget].
        injection Hget as <- _. simpl in Hfl, Hh |- *.
        injection Hfl as <-. injection Hh as <-. simpl.
        split; [|auto].
        apply assigned_names. eapply retrieve_assigned. exact Hret.
      + intros Hget. injection Hget as <- _. simpl in Hfl, Hh |- *.
        injection Hfl as <-. injection Hh as <-. rewrite Hfi.
        split; [exists []; reflexivity|auto].
    - intros Hget. injection Hget as <- _. simpl in Hfl. discriminate Hfl. }
  destruct Hs1 as [[names Hnames] [Hlen [Hc [Hp Hn]]]].
  exists fl, h, ah, names.
  unfold _num_files, getnames, attr. simpl. rewrite Hfl, Hh, Hah. simpl.
  unfold ArchiveFileList.iter. rewrite map_filename_iter, Hnames, Hlen.
  repeat split; auto.
Qed.

End OpenedHandle.

(* ------------------------------------------------------------------ *)
(** ** What [extractall] registers with the worker *)

Section Registered.
Context {E : Externals}.
Import SevenZipFile.

Lemma extract_step_registers (path : option string) (f : ArchiveFile.t)
      (l l1 : locals) (w w' : fs) :
  extract_step path f l w = (Ok l1, w') ->
  Worker.target_filepath (l_worker l1)
  = if reaches_worker f
    then Worker.dict_set (Worker.target_filepath (l_worker l))
           (ArchiveFile.id f) (sink_for path f)
    else Worker.target_filepath (l_worker l).
Proof.
  unfold extract_step, mbind, lift, attr, query, mret, reaches_worker,
    sink_for, outfilename.
  destruct (ArchiveFile.filename f) as [name|]; [|discriminate].
  destruct (startswith_dotdot name); [discriminate|].
  destruct (ArchiveFile.is_directory f).
  - destruct (path_exists _ w); intros H; injection H as <- _; reflexivity.
  - destruct (ArchiveFile.is_socket f);
      [|destruct (ArchiveFile.is_symlink f)];
      intros H; injection H as <- _; reflexivity.
Qed.

Lemma extract_loop_registers (path : option string) (fl : list FI.t) :
  forall index l0 l w w',
    extract_loop path (ArchiveFileList.iter_from index 0 fl) l0 w
    = (Ok l, w') ->
    Forall (fun k => k < index)
           (map fst (Worker.target_filepath (l_worker l0))) ->
    Worker.target_filepath (l_worker l)
    = Worker.target_filepath (l_worker l0)
      ++ map (fun f => (ArchiveFile.id f, sink_for path f))
           (filter reaches_worker (ArchiveFileList.iter_from index 0 fl)).
Proof.
  induction fl as [|fi rest IH]; intros index l0 l w w' Hloop Hall.
  - injection Hloop as <- _. simpl. rewrite app_nil_r. reflexivity.
  - simpl in Hloop. unfold mbind in Hloop.
    destruct (extract_step path (ArchiveFile.mk (index + 0) fi) l0 w)
      as [[l1|ex] w1] eqn:Hstep; [|discriminate].
    pose proof (extract_step_registers _ _ _ _ Hstep) as Hreg.
    assert (Hfresh : Forall (fun k => k < index + 0)
                       (map fst (Worker.target_filepath (l_worker l0))))
      by (eapply Forall_impl; [|exact Hall]; simpl; intros; lia).
    cbn [ArchiveFile.id] in Hreg.
    rewrite dict_set_fresh in Hreg by exact Hfresh.
    rewrite (IH _ _ _ _ _ Hloop).
    + rewrite Hreg. cbn [ArchiveFileList.iter_from filter].
      destruct (reaches_worker (ArchiveFile.mk (index + 0) fi)).
      * rewrite <- app_assoc. reflexivity.
      * reflexivity.
    + rewrite Hreg.
      destruct (reaches_worker (ArchiveFile.mk (index + 0) fi)).
      * rewrite map_app. apply Forall_app. split.
        -- eapply Forall_impl; [|exact Hall]. simpl. intros; lia.
        -- constructor; [simpl; lia|constructor].
      * eapply Forall_impl; [|exact Hall]. simpl. intros; lia.
Qed.

(** X22. The sinks that [extractall] has registered when it starts the
    worker are exactly these, in header order: one for each entry that is
    neither a directory nor a socket, under the entry's position in the
    file list, and it is an in-memory buffer for a symbolic link and the
    entry's output path otherwise.  Directories and sockets are never
    handed to the worker, and nothing registered by an earlier call is
    left. *)
Theorem X22_registered_entries
        (s s1 : t) (path : option string) (w w1 : fs) (l : locals)
        (fl : list FI.t) :
  extract_prepare s path w = (Ok (s1, l), w1) ->
  files s = Some fl ->
  Worker.target_filepath (l_worker l)
  = map (fun f => (ArchiveFile.id f, sink_for path f))
      (filter reaches_worker (ArchiveFileList.iter 0 fl)).
Proof.
  intros Hprep Hfiles.
  unfold extract_prepare, mbind, lift in Hprep.
  destruct (reset s) as [s1'|] eqn:Hreset; [|discriminate].
  destruct (reset_ok _ Hreset)
    as [ah [fl' [h' [_ [Hfl' [Hh' [Hf1 [Hh1 Hw1]]]]]]]].
  rewrite Hfiles in Hfl'. injection Hfl' as <-.
  destruct (make_root path w) as [[[]|] w0]; [|discriminate].
  rewrite Hh1 in Hprep. simpl in Hprep.
  destruct (Header.main_streams h') as [m|]; [|discriminate].
  simpl in Hprep. rewrite Hw1, Hf1 in Hprep. simpl in Hprep.
  destruct (extract_loop path (ArchiveFileList.iter 0 fl) _ w0)
    as [[l'|] w2] eqn:Hloop; [|discriminate].
  unfold mret in Hprep. injection Hprep as -> -> ->.
  rewrite (@extract_loop_registers path fl 0 _ _ _ _ Hloop); simpl;
    [reflexivity|constructor].
Qed.

End Registered.

Lemma X21_opened_handle_witness :
  exists s f',
    @SevenZipFile.__init__
      (OtherInputs.decoding OtherInputs.solid_with_records)
      (File.opened ExampleArchives.empty_archive) false
      (Some "ab.7z"%string) mode_r = (Ok s, f')
    /\ SevenZipFile._num_files s = Ok 3.
Proof.
  destruct (@SevenZipFile.__init__
              (OtherInputs.decoding OtherInputs.solid_with_records)
              (File.opened ExampleArchives.empty_archive) false
              (Some "ab.7z"%string) mode_r)
    as [[s|ex] f'] eqn:Hinit; [|vm_compute in Hinit; discriminate Hinit].
  exists s, f'. split; [reflexivity|].
  destruct (@X21_opened_handle
              (OtherInputs.decoding OtherInputs.solid_with_records)
              _ _ _ _ _ Hinit)
    as [fl [h [ah [names [Hfl [_ [_ [Hnum _]]]]]]]].
  rewrite Hnum. vm_compute in Hinit. injection Hinit as <- _.
  simpl in Hfl. injection Hfl as <-. reflexivity.
Defined.

Lemma X22_registered_entries_witness :
  exists s1 l w1,
    @SevenZipFile.extract_prepare ExampleHandles.numbered
      ExampleHandles.twice_dir_handle (Some "out"%string) []
    = (Ok (s1, l), w1)
    /\ Worker.target_filepath (SevenZipFile.l_worker l)
       = [(2, Worker.SinkPath "out/a"%string);
          (3, Worker.SinkPath "out/b"%string)].
Proof.
  destruct (@SevenZipFile.extract_prepare ExampleHandles.numbered
              ExampleHandles.twice_dir_handle (Some "out"%string) [])
    as [[[s1 l]|ex] w1] eqn:Hprep; [|vm_compute in Hprep; discriminate Hprep].
  exists s1, l, w1. split; [reflexivity|].
  assert (Hfiles : exists fl,
            SevenZipFile.files ExampleHandles.twice_dir_handle = Some fl)
    by (eexists; reflexivity).
  destruct Hfiles as [fl Hfiles].
  rewrite (@X22_registered_entries ExampleHandles.numbered
             ExampleHandles.twice_dir_handle s1 (Some "out"%string) [] w1 l
             fl Hprep Hfiles).
  vm_compute in Hfiles. injection Hfiles as <-. reflexivity.
Defined.

(* ------------------------------------------------------------------ *)
(** ** What [extractall] does after the worker *)

Section Targets.
Context {E : Externals}.
Import SevenZipFile.

Lemma extract_step_targets (path : option string) (f : ArchiveFile.t)
      (l l1 : locals) (w w' : fs) :
  extract_step path f l w = (Ok l1, w') ->
  w' = w
  /\ target_files l1
     = target_files l
       ++ (if gets_properties path w f
           then [(outfilename path f, file_properties f)] else [])
  /\ target_dirs l1
     = target_dirs l
       ++ (if made_directory path w f then [outfilename path f] else [])
  /\ target_sym l1
     = target_sym l
       ++ (if made_link f then [(ArchiveFile.id f, name_of f)] else []).
Proof.
  unfold extract_step, mbind, lift, attr, query, mret, gets_properties,
    made_directory, made_link, name_of, outfilename.
  destruct (ArchiveFile.filename f) as [name|]; [|discriminate].
  destruct (startswith_dotdot name); [discriminate|].
  destruct (ArchiveFile.is_directory f).
  - destruct (path_exists _ w); intros H; injection H as <- <-; simpl;
      rewrite ?app_nil_r; auto.
  - destruct (ArchiveFile.is_socket f);
      [|destruct (ArchiveFile.is_symlink f)];
      intros H; injection H as <- <-; simpl; rewrite ?app_nil_r; auto.
Qed.

Lemma extract_loop_targets (path : option string) (fl : list ArchiveFile.t) :
  forall l0 l w w',
    extract_loop path fl l0 w = (Ok l, w') ->
    w' = w
    /\ target_files l
       = target_files l0
         ++ map (fun f => (outfilename path f, file_properties f))
              (filter (gets_properties path w) fl)
    /\ target_dirs l
       = target_dirs l0
         ++ map (outfilename path) (filter (made_directory path w) fl)
    /\ target_sym l
       = target_sym l0
         ++ map (fun f => (ArchiveFile.id f, name_of f)) (filter made_link fl).
Proof.
  induction fl as [|f rest IH]; intros l0 l w w' Hloop.
  - injection Hloop as <- <-. simpl. rewrite !app_nil_r. auto.
  - simpl in Hloop. unfold mbind in Hloop.
    destruct (extract_step path f l0 w) as [[l1|ex] w1] eqn:Hstep;
      [|discriminate].
    destruct (extract_step_targets _ _ _ _ Hstep) as [-> [Hf [Hd Hs]]].
    destruct (IH _ _ _ _ Hloop) as [-> [Hf' [Hd' Hs']]].
    split; [reflexivity|].
    rewrite Hf', Hd', Hs', Hf, Hd, Hs. simpl.
    destruct (gets_properties path w f), (made_directory path w f),
      (made_link f); simpl; rewrite <- ?app_assoc; simpl;
      rewrite ?app_nil_r; auto.
Qed.

(** X23. What is left for [extractall] to do once the worker has run,
    read off the file list.  The loop over the entries changes nothing in
    the file system, so every test for an existing path sees the state
    [w1] that the loop started in.  Directories are created for the
    directory entries whose path does not exist in [w1]; symbolic links
    are made for the entries that are links and neither directories nor
    sockets; times and modes are set for the directories created and for
    the entries written to a path, never for a directory that was there
    before, for a link or for a socket.  All three lists are in header
    order. *)
Theorem X23_extract_targets
        (s s1 : t) (path : option string) (w w1 : fs) (l : locals)
        (fl : list FI.t) :
  extract_prepare s path w = (Ok (s1, l), w1) ->
  files s = Some fl ->
  target_files l
  = map (fun f => (outfilename path f, file_properties f))
      (filter (gets_properties path w1) (ArchiveFileList.iter 0 fl))
  /\ target_dirs l
     = map (outfilename path)
         (filter (made_directory path w1) (ArchiveFileList.iter 0 fl))
  /\ target_sym l
     = map (fun f => (ArchiveFile.id f, name_of f))
         (filter made_link (ArchiveFileList.iter 0 fl)).
Proof.
  intros Hprep Hfiles.
  unfold extract_prepare, mbind, lift in Hprep.
  destruct (reset s) as [s1'|] eqn:Hreset; [|discriminate].
  destruct (reset_ok _ Hreset)
    as [ah [fl' [h' [_ [Hfl' [Hh' [Hf1 [Hh1 Hw1]]]]]]]].
  rewrite Hfiles in Hfl'. injection Hfl' as <-.
  destruct (make_root path w) as [[[]|] w0]; [|discriminate].
  rewrite Hh1 in Hprep. simpl in Hprep.
  destruct (Header.main_streams h') as [m|]; [|discriminate].
  simpl in Hprep. rewrite Hw1, Hf1 in Hprep. simpl in Hprep.
  destruct (extract_loop path (ArchiveFileList.iter 0 fl) _ w0)
    as [[l'|] w2] eqn:Hloop; [|discriminate].
  unfold mret in Hprep. injection Hprep as -> -> ->.
  destruct (extract_loop_targets _ _ _ _ Hloop) as [-> [Hf [Hd Hs]]].
  rewrite Hf, Hd, Hs. simpl. auto.
Qed.





End Targets.

Lemma X23_extract_targets_witness :
  exists s1 l w1,
    @SevenZipFile.extract_prepare ExampleHandles.numbered
      ExampleHandles.twice_dir_handle (Some "out"%string) []
    = (Ok (s1, l), w1)
    /\ SevenZipFile.target_dirs l = ["out/d"; "out/d"]%string.
Proof.
  destruct (@SevenZipFile.extract_prepare ExampleHandles.numbered
              ExampleHandles.twice_dir_handle (Some "out"%string) [])
    as [[[s1 l]|ex] w1] eqn:Hprep; [|vm_compute in Hprep; discriminate Hprep].
  exists s1, l, w1. split; [reflexivity|].
  assert (Hfiles : exists fl,
            SevenZipFile.files ExampleHandles.twice_dir_handle = Some fl)
    by (eexists; reflexivity).
  destruct Hfiles as [fl Hfiles].
  destruct (@X23_extract_targets ExampleHandles.numbered
              ExampleHandles.twice_dir_handle s1 (Some "out"%string) [] w1 l
              fl Hprep Hfiles) as [_ [-> _]].
  vm_compute in Hfiles. injection Hfiles as <-.
  vm_compute in Hprep. injection Hprep as <- <- <-. reflexivity.
Defined.



(* ------------------------------------------------------------------ *)
(** ** The rows of [list()] *)

Section Rows.
Context {E : Externals}.
Import SevenZipFile.

Lemma uncompressed_size_raises (f : ArchiveFile.t) (x : exn) :
  ArchiveFile.uncompressed_size f = Raise x ->
  x = TypeError
  /\ (ArchiveFile.uncompressed f = None \/ ArchiveFile.uncompressed f = Some []).
Proof.
  unfold ArchiveFile.uncompressed_size.
  destruct (ArchiveFile.uncompressed f) as [[|z l]|]; simpl;
    try discriminate; intros H; inversion H; auto.
Qed.

Lemma list_loop_rows (fl : list ArchiveFile.t) :
  forall c,
    match list_loop fl c with
    | Ok rows =>
        Forall2 (fun f row =>
                   FileInfo.filename row = ArchiveFile.filename f
                   /\ FileInfo.compressed row = ArchiveFile.compressed f
                   /\ ArchiveFile.uncompressed_size f
                      = Ok (FileInfo.uncompressed row)
                   /\ FileInfo.archivable row = ArchiveFile.archivable f
                   /\ FileInfo.is_directory row = ArchiveFile.is_directory f)
                fl rows
    | Raise x =>
        x = TypeError
        /\ Exists (fun f => ArchiveFile.uncompressed f = None
                            \/ ArchiveFile.uncompressed f = Some []) fl
    end.
Proof.
  induction fl as [|f rest IH]; intros c; simpl; [constructor|].
  destruct (ArchiveFile.uncompressed_size f) as [u|x] eqn:Hu; simpl.
  - match goal with
    | |- context [list_loop rest ?c'] => specialize (IH c')
    end.
    destruct (list_loop rest _) as [rows|x]; simpl.
    + constructor; [simpl; auto|exact IH].
    + destruct IH as [-> Hex]. split; [reflexivity|].
      apply Exists_cons_tl. exact Hex.
  - destruct (uncompressed_size_raises _ Hu) as [-> Hbad].
    split; [reflexivity|]. apply Exists_cons_hd. exact Hbad.
Qed.

(** X26. [list()] gives one row for each record of the file list, in
    the same order, with the record's name, compressed size, attribute
    flags, and the sum of its uncompressed sizes; and it fails in one way
    only, with the [TypeError] of summing, when some record has no
    uncompressed sizes or an empty list of them (a folder without
    coders). *)
Theorem X26_list_rows (s : t) (fl : list FI.t) :
  files s = Some fl ->
  match list_ s with
  | Ok rows =>
      Forall2 (fun f row =>
                 FileInfo.filename row = ArchiveFile.filename f
                 /\ FileInfo.compressed row = ArchiveFile.compressed f
                 /\ ArchiveFile.uncompressed_size f
                    = Ok (FileInfo.uncompressed row)
                 /\ FileInfo.archivable row = ArchiveFile.archivable f
                 /\ FileInfo.is_directory row = ArchiveFile.is_directory f)
              (ArchiveFileList.iter 0 fl) rows
  | Raise x =>
      x = TypeError
      /\ Exists (fun fi => FI.uncompressed fi = None
                           \/ FI.uncompressed fi = Some []) fl
  end.
Proof.
  intros Hfiles. unfold list_, attr. rewrite Hfiles. simpl.
  pose proof (list_loop_rows (ArchiveFileList.iter 0 fl) None) as H.
  destruct (list_loop _ None) as [rows|x]; [exact H|].
  destruct H as [-> Hex]. split; [reflexivity|].
  apply Exists_exists in Hex. destruct Hex as [f [Hin Hbad]].
  apply In_iter in Hin. destruct Hin as [k [fi [Hk ->]]].
  apply Exists_exists. exists fi. split; [|exact Hbad].
  eapply nth_error_In. exact Hk.
Qed.

End Rows.

Lemma X26_list_rows_witness :
  exists rows,
    @SevenZipFile.list_ (ExampleHandles.plain []) ExampleHandles.solid_handle
    = Ok rows
    /\ Forall2 (fun f row =>
                  FileInfo.filename row = ArchiveFile.filename f
                  /\ FileInfo.compressed row = ArchiveFile.compressed f
                  /\ ArchiveFile.uncompressed_size f
                     = Ok (FileInfo.uncompressed row)
                  /\ FileInfo.archivable row = ArchiveFile.archivable f
                  /\ FileInfo.is_directory row = ArchiveFile.is_directory f)
               (ArchiveFileList.iter 0 ExampleHandles.solid_files) rows.
Proof.
  destruct (@SevenZipFile.list_ (ExampleHandles.plain [])
              ExampleHandles.solid_handle) as [rows|x] eqn:Hlist;
    [|vm_compute in Hlist; discriminate Hlist].
  exists rows. split; [reflexivity|].
  pose proof (@X26_list_rows (ExampleHandles.plain [])
                ExampleHandles.solid_handle ExampleHandles.solid_files
                eq_refl) as H.
  rewrite Hlist in H. exact H.
Defined.

Section WriterFuel.
Context {T : TargetOS}.
Import Writer.

(** The fuel only bounds the depth: an answer reached with some fuel is
    the answer with more. *)
Lemma writeall_more_fuel (fuel : nat) :
  forall (path : string) (arcname : option string)
         (files : list WriteInfo.t) (r : result (list WriteInfo.t)),
    writeall fuel path arcname files = Some r ->
    writeall (S fuel) path arcname files = Some r.
Proof.
  induction fuel as [|fuel IH]; intros path arcname files r H; [discriminate|].
  remember (S fuel) as n eqn:Hn.
  rewrite Hn in H. simpl in H. simpl.
  destruct (target_is_file path); [exact H|].
  destruct (target_is_dir path); [|exact H].
  destruct arcname as [a|]; simpl in H |- *;
    (destruct (listdir path) as [names|x]; [|exact H]);
    revert H;
    match goal with
    | |- _ ?l0 ?f0 = _ -> _ => generalize f0 as files1; generalize l0 as l
    end;
    (induction l as [|nm l IHl]; intros files1 H; [exact H|]);
    match type of H with
    | context [writeall fuel ?p ?arc ?fs] =>
        destruct (writeall fuel p arc fs) as [[files2|x]|] eqn:Hrec;
        [apply IH in Hrec; rewrite Hrec; apply IHl; exact H
        |apply IH in Hrec; rewrite Hrec; exact H
        |discriminate H]
    end.
Qed.

End WriterFuel.
